(** * Lake Tana water-hyacinth scripts: monthly aggregation pipelines

  A shallow embedding of the monthly loops of the Earth Engine scripts
  (Sentinel-2 and Landsat index pipelines, Sentinel-1 radar, CHIRPS
  rainfall, AgERA5 temperature and humidity, hybrid radar+optical
  fusion) and of their band algebra.

  Numbers returned by the service are modelled as exact rationals [Q];
  a masked (no-data) pixel is [None].  Every [getInfo()] round trip is a
  field of a per-window response record, so the theorems hold for every
  behaviour of the remote service, failures included. *)

From Stdlib Require Import ZArith QArith Qround Bool List String Lia Lqa.
From Stdlib Require Import DecimalString Sorting.Permutation Sorting.Sorted Qabs.
Import ListNotations.

Open Scope Z_scope.

(* ================================================================== *)
(** * Python values, exceptions and printing *)
(* ================================================================== *)

Module Py.

(** The exceptions the scripts can meet. *)
Inductive exn : Type :=
| EEException (msg : string)   (* raised by a getInfo() round trip *)
| TypeError (msg : string)
| ValueError (msg : string)
| IllegalMonthError (month : Z).

(** A computation that returns or raises. *)
Inductive result (A : Type) : Type :=
| Ok (a : A)
| Raise (e : exn).
Arguments Ok {A} a.
Arguments Raise {A} e.

Definition bind {A B} (c : result A) (k : A -> result B) : result B :=
  match c with
  | Ok a => k a
  | Raise e => Raise e
  end.

(** A spreadsheet cell. *)
Inductive cell : Type :=
| CInt (z : Z)
| CFloat (q : Q)
| CStr (s : string)
| CNone.

Definition is_number (c : cell) : bool :=
  match c with
  | CInt _ | CFloat _ => true
  | _ => false
  end.

(** The truth value of an object that may be [None]. *)
Definition truthy {A} (o : option A) : bool :=
  match o with
  | Some _ => true
  | None => false
  end.

(** [for x in xs: body] where the body may raise: the first exception
    leaves the loop. *)
Fixpoint for_each {S J} (body : S -> J -> result S) (st : S) (xs : list J)
  : result S :=
  match xs with
  | [] => Ok st
  | x :: rest =>
      match body st x with
      | Ok st' => for_each body st' rest
      | Raise e => Raise e
      end
  end.

(** [range(a, b)] *)
Definition range (a b : Z) : list Z :=
  map (fun i => a + Z.of_nat i) (seq 0 (Z.to_nat (b - a))).

(** The pairs visited by [for year in years: for month in months]. *)
Definition nested {A B} (xs : list A) (ys : list B) : list (A * B) :=
  flat_map (fun x => map (pair x) ys) xs.

(** [round(x)] of a rational: to the nearest integer, ties to even. *)
Definition round_half_even (q : Q) : Z :=
  let f := Qfloor q in
  let r := (q - inject_Z f)%Q in
  match (r ?= 1 # 2)%Q with
  | Lt => f
  | Gt => f + 1
  | Eq => if Z.even f then f else f + 1
  end.

(** [round(x, 2)] *)
Definition round2 (q : Q) : Q :=
  (inject_Z (round_half_even (q * 100)) / 100)%Q.

(** [f'{n}'] and [f'{n:02d}'] for a non-negative integer. *)
Definition str_int (n : Z) : string :=
  NilZero.string_of_uint (N.to_uint (Z.to_N n)).

Definition zfill (width : nat) (s : string) : string :=
  String.append (String.concat EmptyString (repeat "0"%string (width - String.length s))) s.

End Py.
Export Py.

Notation "x <- c ;; k" := (Py.bind c (fun x => k))
(at level 61, c at next level, right associativity).

(* ================================================================== *)
(** * Calendar: [datetime.date], [calendar.monthrange], date windows *)
(* ================================================================== *)

Module Calendar.

Record date : Type := mkdate { year : Z; month : Z; day : Z }.

Definition date_eqb (a b : date) : bool :=
  (year a =? year b) && (month a =? month b) && (day a =? day b).

(** Chronological order. *)
Definition date_ltb (a b : date) : bool :=
  (year a <? year b)
  || ((year a =? year b)
      && ((month a <? month b)
          || ((month a =? month b) && (day a <? day b)))).

Definition date_leb (a b : date) : bool := negb (date_ltb b a).

(** [calendar.isleap] *)
Definition isleap (y : Z) : bool :=
  (y mod 4 =? 0) && (negb (y mod 100 =? 0) || (y mod 400 =? 0)).

(** [calendar.mdays] *)
Definition mdays : list Z := [0; 31; 28; 31; 30; 31; 30; 31; 31; 30; 31; 30; 31].

(** [calendar.monthrange(year, month)[1]] *)
Definition monthrange_ndays (y m : Z) : result Z :=
  if (1 <=? m) && (m <=? 12)
  then Ok (nth (Z.to_nat m) mdays 0
           + (if (m =? 2) && isleap y then 1 else 0))
  else Raise (IllegalMonthError m).

(** [datetime.date(year, month, day)] *)
Definition datetime_date (y m d : Z) : result date :=
  if negb ((1 <=? y) && (y <=? 9999))
  then Raise (ValueError "year is out of range")
  else if negb ((1 <=? m) && (m <=? 12))
  then Raise (ValueError "month must be in 1..12")
  else
    match monthrange_ndays y m with
    | Ok n =>
        if (1 <=? d) && (d <=? n) then Ok (mkdate y m d)
        else Raise (ValueError "day is out of range for month")
    | Raise e => Raise e
    end.

(** [date.isoformat()], also the [f'{year}-{month:02d}-{dd}'] strings. *)
Definition isoformat (d : date) : string :=
  String.append (zfill 4 (str_int (year d)))
    (String.append "-"
       (String.append (zfill 2 (str_int (month d)))
          (String.append "-" (zfill 2 (str_int (day d)))))).

(** A [filterDate(start, end)] request: start inclusive, end exclusive. *)
Definition window : Type := (date * date)%type.

Definition in_window (w : window) (d : date) : bool :=
  date_leb (fst w) d && date_ltb d (snd w).

(** The window of the specification: the whole calendar month, from its
    first day up to, and not including, the first day of the next month. *)
Definition next_month_start (y m : Z) : date :=
  if m =? 12 then mkdate (y + 1) 1 1 else mkdate y (m + 1) 1.

Definition spec_month_window (y m : Z) : window :=
  (mkdate y m 1, next_month_start y m).

(** The bounds the radar, rainfall, climate and fusion loops compute:
    [datetime.date(year, month, 1)] and
    [datetime.date(year, month, calendar.monthrange(year, month)[1])]. *)
Definition month_bounds (y m : Z) : result window :=
  first_day <- datetime_date y m 1 ;;
  n <- monthrange_ndays y m ;;
  last_day <- datetime_date y m n ;;
  Ok (first_day, last_day).

End Calendar.
Export Calendar.

(* ================================================================== *)
(** * Band algebra: the per-pixel arithmetic of [ee.Image] *)
(* ================================================================== *)

Module BandAlgebra.

(** A pixel of one band: a value, or masked (no data). *)
Definition pixel : Type := option Q.

Definition lift2 (f : Q -> Q -> Q) (a b : pixel) : pixel :=
match a, b with
| Some x, Some y => Some (f x y)
| _, _ => None
end.

Definition subtract : pixel -> pixel -> pixel := lift2 Qminus.
Definition add : pixel -> pixel -> pixel := lift2 Qplus.

(** [ee.Image.divide]: the service divides pixel by pixel and returns 0
    for a division by 0. *)
Definition divide : pixel -> pixel -> pixel :=
lift2 (fun x y => if Qeq_bool y 0 then 0%Q else (x / y)%Q).

(** [image.multiply(c)] and [image.add(c)] with a Python number. *)
Definition multiply_c (a : pixel) (c : Q) : pixel := option_map (fun x => (x * c)%Q) a.
Definition add_c (a : pixel) (c : Q) : pixel := option_map (fun x => (x + c)%Q) a.

(** The bands of an image at one pixel, by band name. *)
Definition bands : Type := string -> pixel.

Definition select (image : bands) (name : string) : pixel := image name.

Definition addBand (image : bands) (name : string) (v : pixel) : bands :=
fun b => if String.eqb b name then v else image b.

(** [(nir_wl - red_wl) / (swir_wl - red_wl)], a Python float computed once. *)
Definition wl_ratio (red_wl nir_wl swir_wl : Z) : Q :=
(inject_Z (nir_wl - red_wl) / inject_Z (swir_wl - red_wl))%Q.

(** The three lines shared by every FAI computation of the scripts:
    slope, baseline, fai. *)
Definition fai_of (red_wl nir_wl swir_wl : Z) (nir red swir : pixel) : pixel :=
let slope := multiply_c (subtract swir red) (wl_ratio red_wl nir_wl swir_wl) in
let baseline := add red slope in
subtract nir baseline.

Definition ndvi_of (nir red : pixel) : pixel :=
divide (subtract nir red) (add nir red).

(** LakeTana-NDVI-FAI-Sentinel.py, [compute_ndvi_fai_sentinel]. *)
Definition compute_ndvi_fai_sentinel (image : bands) : bands :=
let red := select image "B4" in
let nir := select image "B8" in
let swir := select image "B11" in
let ndvi := ndvi_of nir red in
let fai := fai_of 665 842 1610 nir red swir in
addBand (addBand image "NDVI" ndvi) "FAI" fai.

(** Landsat surface reflectance: [select(b).multiply(scale).add(offset)]. *)
Definition landsat_scale : Q := 275 # 10000000.
Definition landsat_offset : Q := - (2 # 10).

Definition rescale (b : pixel) : pixel :=
add_c (multiply_c b landsat_scale) landsat_offset.

(** LakeTana-NDVI-FAI-Landsat.py, [compute_ndvi_fai]. *)
Definition compute_ndvi_fai (image : bands) : bands :=
let red := rescale (select image "SR_B4") in
let nir := rescale (select image "SR_B5") in
let swir := rescale (select image "SR_B6") in
let ndvi := ndvi_of nir red in
let fai := fai_of 655 865 1609 nir red swir in
addBand (addBand image "NDVI" ndvi) "FAI" fai.

(** LakeTana-FAI-Landsat.py, [compute_fai_landsat]. *)
Definition compute_fai_landsat (image : bands) : bands :=
let B4 := rescale (select image "SR_B4") in
let B5 := rescale (select image "SR_B5") in
let B6 := rescale (select image "SR_B6") in
let fai := fai_of 655 865 1609 B5 B4 B6 in
addBand image "FAI" fai.

End BandAlgebra.
Export BandAlgebra.

(* ================================================================== *)
(** * Image collections and their temporal composites *)
(* ================================================================== *)

Module Composite.

(** A pixel location of the grid. *)
Definition loc : Type := (Z * Z)%type.

(** An image: the quality property the scripts read, and its raster. *)
Record image : Type := mkimage {
  CLOUDY_PIXEL_PERCENTAGE : Q;
  raster : loc -> bands
}.

Definition collection : Type := list image.

(** The study geometry, as the set of pixels it covers. *)
Definition geometry : Type := loc -> bool.

(** [image.clip(roi)]: pixels outside the geometry are masked. *)
Definition clip (roi : geometry) (r : loc -> bands) : loc -> bands :=
fun l b => if roi l then r l b else None.

(** [collection.map(f)] for a per-pixel band computation [f]. *)
Definition map_bands (f : bands -> bands) (c : collection) : collection :=
map (fun im => mkimage (CLOUDY_PIXEL_PERCENTAGE im) (fun l => f (raster im l))) c.

(** [collection.map(lambda img: img.clip(roi))] *)
Definition map_clip (roi : geometry) (c : collection) : collection :=
map (fun im => mkimage (CLOUDY_PIXEL_PERCENTAGE im) (clip roi (raster im))) c.

(** The unmasked values of a stack of pixels. *)
Definition unmasked (ps : list pixel) : list Q :=
flat_map (fun p => match p with Some v => [v] | None => [] end) ps.

(** The values of band [b] at [l] through the collection. *)
Definition stack (c : collection) (l : loc) (b : string) : list Q :=
unmasked (map (fun im => raster im l b) c).

Fixpoint insert_q (x : Q) (s : list Q) : list Q :=
match s with
| [] => [x]
| y :: s' => if Qle_bool x y then x :: s else y :: insert_q x s'
end.

Definition sort_q (l : list Q) : list Q := fold_right insert_q [] l.

(** The median reducer: the middle value of the sorted inputs, the mean of
    the two middle ones when their number is even, masked without input. *)
Definition median_q (l : list Q) : pixel :=
let s := sort_q l in
let n := List.length s in
match n with
| O => None
| _ =>
    if Nat.even n
    then Some ((nth (n / 2 - 1) s 0 + nth (n / 2) s 0) / 2)%Q
    else Some (nth (n / 2) s 0%Q)
end.

Definition sum_q (l : list Q) : pixel :=
match l with
| [] => None
| _ => Some (fold_left Qplus l 0%Q)
end.

(** [collection.median()] *)
Definition median (c : collection) : loc -> bands :=
fun l b => median_q (stack c l b).

(** [collection.sum()] *)
Definition sum (c : collection) : loc -> bands :=
fun l b => sum_q (stack c l b).

(** [collection.mosaic()]: the last image of the collection is on top. *)
Definition mosaic (c : collection) : loc -> bands :=
fun l b => last (map (@Some Q) (stack c l b)) None.

(** [collection.sort('CLOUDY_PIXEL_PERCENTAGE')], ascending and stable. *)
Fixpoint insert_image (x : image) (s : collection) : collection :=
match s with
| [] => [x]
| y :: s' =>
    if Qle_bool (CLOUDY_PIXEL_PERCENTAGE x) (CLOUDY_PIXEL_PERCENTAGE y)
    then x :: s else y :: insert_image x s'
end.

Definition sort_by_cloud (c : collection) : collection :=
fold_right insert_image [] c.

(** [collection.first()] *)
Definition first (c : collection) : option image := hd_error c.

(** LakeTana-NDVI-FAI-Sentinel.py line 62 (and the Landsat and
    FAI+NDVI+SWIR scripts): [median = s2.median().clip(roi)], where the
    filtered collection has been mapped through the index computation. *)
Definition sentinel_monthly_composite (roi : geometry) (filtered : collection)
  : loc -> bands :=
clip roi (median (map_bands compute_ndvi_fai_sentinel filtered)).

Definition landsat_monthly_composite (roi : geometry) (filtered : collection)
  : loc -> bands :=
clip roi (median (map_bands compute_ndvi_fai filtered)).

(** LakeTana-Radar-Sentinel-1.py line 62: [median_img = filtered.median()]. *)
Definition radar_monthly_composite (filtered : collection) : loc -> bands :=
median filtered.

(** Hybrid fusion script, [get_sentinel2_mask] line 46:
    [img = s2.sort('CLOUDY_PIXEL_PERCENTAGE').first()] on the clipped
    collection; [None] when the collection is empty. *)
Definition hybrid_optical_image (roi : geometry) (filtered : collection)
  : option (loc -> bands) :=
option_map raster (first (sort_by_cloud (map_clip roi filtered))).

(** Hybrid fusion script, [get_sentinel1_mask] line 88: [img = s1.mosaic()]. *)
Definition hybrid_radar_image (filtered : collection) : loc -> bands :=
mosaic filtered.

(** LakeTana-Rainfall-CHIRPS.py line 52:
    [filtered.select('precipitation').sum()]. *)
Definition chirps_monthly_precip (filtered : collection) : loc -> bands :=
sum filtered.

(** What it means for [m] to be a median of the values [l]: at least half
    of them are at most [m] and at least half are at least [m]. *)
Definition count_le (m : Q) (l : list Q) : nat :=
List.length (filter (fun x => Qle_bool x m) l).

Definition count_ge (m : Q) (l : list Q) : nat :=
List.length (filter (fun x => Qle_bool m x) l).

Definition is_median (m : Q) (l : list Q) : Prop :=
(List.length l <= 2 * count_le m l)%nat /\ (List.length l <= 2 * count_ge m l)%nat.

Definition is_medianb (m : Q) (l : list Q) : bool :=
(List.length l <=? 2 * count_le m l)%nat && (List.length l <=? 2 * count_ge m l)%nat.

End Composite.
Export Composite.

(* ================================================================== *)
(** * LakeTana-NDVI-FAI-Sentinel.py

    The Landsat scripts (NDVI+FAI, FAI, NDWI+FAI) and the FAI+NDVI+SWIR
    Sentinel script have the same monthly function and the same main loop,
    with another collection, mask and scale behind the same round trips. *)
(* ================================================================== *)

Module SentinelNdviFai.

(** What the service answers for the collection of one date window. *)
Record response : Type := mkresponse {
  size_getInfo : result Z;            (* s2.size().getInfo() *)
  cloud_getInfo : result (option Q);  (* s2.aggregate_mean(..).getInfo() *)
  area_getInfo : result (option Q)    (* stats.get('NDVI').getInfo() *)
}.

Definition service : Type := window -> response.

Record row : Type := mkrow {
  Year : Z;
  Month : Z;
  Date_of_Satellite_Selected : string;
  Cloud_Cover_Percentage : Q;
  Area_of_Water_Hyacinth : Q
}.

(** The lines the script prints. *)
Inductive line : Type :=
| NoImages (y m : Z)
| Done (y m : Z) (area cloud : Q)
| Error (y m : Z) (e : exn).

(** [f'{year}-{month:02d}-dd'] *)
Definition fstring_date (y m : Z) (dd : string) : string :=
String.append (str_int y)
  (String.append "-" (String.append (zfill 2 (str_int m)) (String.append "-" dd))).

(** [start_date = f'{year}-{month:02d}-01'], as the date it denotes. *)
Definition start_date (y m : Z) : date := mkdate y m 1.

(** [end_date = f'{year}-{month:02d}-28' if month != 12
               else f'{year}-{month:02d}-31'], as the date it denotes. *)
Definition end_date (y m : Z) : date :=
if negb (m =? 12) then mkdate y m 28 else mkdate y m 31.

(** The arguments of [filterDate(start_date, end_date)]. *)
Definition filter_window (y m : Z) : window := (start_date y m, end_date y m).

(** [get_ndvi_fai_monthly_s2(year, month)]: what it prints, and what it
    returns ([None], a record) or raises. *)
Definition get_ndvi_fai_monthly_s2 (svc : service) (y m : Z)
  : list line * result (option row) :=
let r := svc (filter_window y m) in
match size_getInfo r with
| Raise e => ([], Raise e)
| Ok n =>
    if n =? 0 then ([NoImages y m], Ok None)
    else
      ([],
       cloud <- cloud_getInfo r ;;
       area_sqkm <- area_getInfo r ;;
       match area_sqkm with
       | None => Ok None
       | Some a =>
           match cloud with
           | None => Raise (TypeError "type NoneType doesn't define __round__ method")
           | Some c =>
               Ok (Some {| Year := y;
                           Month := m;
                           Date_of_Satellite_Selected := fstring_date y m "01";
                           Cloud_Cover_Percentage := round2 c;
                           Area_of_Water_Hyacinth := round2 (a / 1000000) |})
           end
       end)
end.

Record state : Type := mkstate {
  results : list row;
  stdout : list line
}.

Definition initial : state := {| results := []; stdout := [] |}.

(** The body of the main loop, [try: ... except Exception as e: ...]. *)
Definition loop_body (svc : service) (st : state) (ym : Z * Z) : state :=
let '(y, m) := ym in
let '(printed, outcome) := get_ndvi_fai_monthly_s2 svc y m in
match outcome with
| Ok (Some result) =>
    {| results := results st ++ [result];
       stdout := stdout st ++ printed
                 ++ [Done y m (Area_of_Water_Hyacinth result)
                       (Cloud_Cover_Percentage result)] |}
| Ok None =>
    {| results := results st; stdout := stdout st ++ printed |}
| Raise e =>
    {| results := results st; stdout := stdout st ++ printed ++ [Error y m e] |}
end.

Definition main_loop (svc : service) (jobs : list (Z * Z)) (st : state) : state :=
fold_left (loop_body svc) jobs st.

(** [for year in range(2016, 2025): for month in [10, 11, 12]: ...] *)
Definition jobs : list (Z * Z) := nested (range 2016 2025) [10; 11; 12].

Definition main (svc : service) : state := main_loop svc jobs initial.

(** The (year, month) of a record. *)
Definition key (r : row) : Z * Z := (Year r, Month r).

(** The record a month contributes to the table, if any. *)
Definition month_rows (svc : service) (ym : Z * Z) : list row :=
match snd (get_ndvi_fai_monthly_s2 svc (fst ym) (snd ym)) with
| Ok (Some result) => [result]
| _ => []
end.

End SentinelNdviFai.

(* ================================================================== *)
(** * LakeTana-Radar-Sentinel-1.py *)
(* ================================================================== *)

Module Radar.

Record response : Type := mkresponse {
  size_getInfo : result Z;          (* filtered.size().getInfo() *)
  date_getInfo : result string;     (* ee.Date(..).format(..).getInfo() *)
  area_print_getInfo : result Q;    (* area_km2.getInfo() inside print *)
  area_export_getInfo : result Q    (* val.getInfo() inside get_value *)
}.

Definition service : Type := window -> response.

(** A record of [results]; the area is still the deferred [ee.Number],
    identified by the window it was requested for. *)
Record row : Type := mkrow {
  Year : Z;
  Month : Z;
  Date_of_Satellite_Selected : string;
  Cloud_Cover_Percentage : cell;
  Area_of_Water_Hyacinth : window
}.

(** A row of the exported table. *)
Record table_row : Type := mktable_row {
  tYear : Z;
  tMonth : Z;
  tDate_of_Satellite_Selected : string;
  tCloud_Cover_Percentage : cell;
  tArea_of_Water_Hyacinth : cell
}.

Inductive line : Type :=
| NoImages (y m : Z)
| Done (y m : Z) (area : Q).

Record state : Type := mkstate {
  results : list row;
  stdout : list line
}.

Definition initial : state := {| results := []; stdout := [] |}.

(** The body of the main loop; no exception is caught here. *)
Definition loop_body (svc : service) (st : state) (ym : Z * Z) : result state :=
let '(y, m) := ym in
w <- month_bounds y m ;;
let filtered := svc w in
n <- size_getInfo filtered ;;
if n =? 0
then Ok {| results := results st; stdout := stdout st ++ [NoImages y m] |}
else
  date_selected <- date_getInfo filtered ;;
  (* Sentinel-1 does not have cloud cover; set to 0 or 'N/A' *)
  let cloud_cover := CInt 0 in
  let results' :=
    results st ++ [{| Year := y;
                      Month := m;
                      Date_of_Satellite_Selected := date_selected;
                      Cloud_Cover_Percentage := cloud_cover;
                      Area_of_Water_Hyacinth := w |}] in
  a <- area_print_getInfo filtered ;;
  Ok {| results := results'; stdout := stdout st ++ [Done y m a] |}.

Definition main_loop (svc : service) (jobs : list (Z * Z)) (st : state)
  : result state :=
for_each (loop_body svc) st jobs.

(** [get_value(val)]: any failure becomes [None]. *)
Definition get_value (svc : service) (deferred : window) : cell :=
match area_export_getInfo (svc deferred) with
| Ok v => CFloat v
| Raise _ => CNone
end.

(** [df = pd.DataFrame(results)] with the area column passed through
    [get_value]. *)
Definition dataframe (svc : service) (rs : list row) : list table_row :=
map (fun r => {| tYear := Year r;
                 tMonth := Month r;
                 tDate_of_Satellite_Selected := Date_of_Satellite_Selected r;
                 tCloud_Cover_Percentage := Cloud_Cover_Percentage r;
                 tArea_of_Water_Hyacinth := get_value svc (Area_of_Water_Hyacinth r) |})
    rs.

(** [years = list(range(2014, 2025))], [months = [10, 11, 12]] *)
Definition jobs : list (Z * Z) := nested (range 2014 2025) [10; 11; 12].

(** The records a finished loop leaves in [results]. *)
Definition final_results (r : result state) : result (list row) :=
st <- r ;; Ok (results st).

Definition run (svc : service) (js : list (Z * Z)) : result (list table_row) :=
rs <- final_results (main_loop svc js initial) ;;
Ok (dataframe svc rs).

Definition main (svc : service) : result (list table_row) := run svc jobs.

Definition key (r : table_row) : Z * Z := (tYear r, tMonth r).

End Radar.

(* ================================================================== *)
(** * LakeTana-Rainfall-CHIRPS.py *)
(* ================================================================== *)

Module Chirps.

(** [val.getInfo()] for the deferred [total_precip] of a window. *)
Definition service : Type := window -> result (option Q).

(** A record of [results]: the total is the deferred reduction of a window. *)
Record row : Type := mkrow {
  Year : Z;
  Month : Z;
  Total_mm_per_month : window
}.

Record table_row : Type := mktable_row {
  tYear : Z;
  tMonth : Z;
  tTotal_mm_per_month : cell
}.

(** The body of the main loop: no round trip, no [try], one [append]. *)
Definition loop_body (results : list row) (ym : Z * Z) : result (list row) :=
let '(y, m) := ym in
w <- month_bounds y m ;;
Ok (results ++ [{| Year := y; Month := m; Total_mm_per_month := w |}]).

Definition main_loop (jobs : list (Z * Z)) (results : list row)
  : result (list row) :=
for_each loop_body results jobs.

(** [get_value(val)]: any failure becomes [None]. *)
Definition get_value (svc : service) (deferred : window) : cell :=
match svc deferred with
| Ok (Some v) => CFloat v
| Ok None => CNone
| Raise _ => CNone
end.

Definition dataframe (svc : service) (rs : list row) : list table_row :=
map (fun r => {| tYear := Year r; tMonth := Month r;
                 tTotal_mm_per_month := get_value svc (Total_mm_per_month r) |})
    rs.

(** [years = list(range(2013, 2025))], [months = [10, 11, 12]] *)
Definition jobs : list (Z * Z) := nested (range 2013 2025) [10; 11; 12].

Definition run (svc : service) (js : list (Z * Z)) : result (list table_row) :=
rs <- main_loop js [] ;;
Ok (dataframe svc rs).

Definition main (svc : service) : result (list table_row) := run svc jobs.

Definition key (r : table_row) : Z * Z := (tYear r, tMonth r).

End Chirps.

(* ================================================================== *)
(** * LakeTana-Temperature-and-Humidity.py (printing left out) *)
(* ================================================================== *)

Module Temperature.

(** The conversions of the [variables] table. *)
Inductive conversion : Type :=
| Kelvin_to_Celsius    (* lambda x: x - 273.15 *)
| Identity.            (* lambda x: x *)

Definition variables : list (string * string * string * conversion) :=
[ ("Temperature_Air_2m_Max_24h", "Temperature Max", "°C", Kelvin_to_Celsius);
  ("Temperature_Air_2m_Min_24h", "Temperature Min", "°C", Kelvin_to_Celsius);
  ("Temperature_Air_2m_Mean_24h", "Temperature Mean", "°C", Kelvin_to_Celsius);
  ("Specific_Humidity_2m_Mean", "Specific Humidity", "kg/kg", Identity);
  ("Relative_Humidity_2m_06h", "Relative Humidity (06h)", "%", Identity);
  ("Relative_Humidity_2m_15h", "Relative Humidity (15h)", "%", Identity) ]%string.

(** The three reductions of one band over one window. *)
Record response : Type := mkresponse {
  min_getInfo : result (option Q);
  max_getInfo : result (option Q);
  mean_getInfo : result (option Q)
}.

Definition service : Type := window -> string -> response.

Record row : Type := mkrow {
  Year : Z;
  Month : Z;
  Variable_ : string;
  Min : cell;
  Max : cell;
  Mean : cell
}.

(** [convert_func(x)] on what [getInfo()] returned. *)
Definition convert_func (c : conversion) (x : option Q) : result (option Q) :=
match c, x with
| Kelvin_to_Celsius, Some v => Ok (Some (v - (27315 # 100))%Q)
| Kelvin_to_Celsius, None =>
    Raise (TypeError "unsupported operand type(s) for -: 'NoneType' and 'float'")
| Identity, _ => Ok x
end.

(** [f"{val:.2f}"] *)
Definition format_2f (x : option Q) : result Q :=
match x with
| Some v => Ok v
| None => Raise (TypeError "unsupported format string passed to NoneType.__format__")
end.

(** [f"{var_name} ({unit})"] *)
Definition variable_label (var_name unit : string) : string :=
String.append var_name (String.append " (" (String.append unit ")")).

(** The statements of the [try] block up to the [append]. *)
Definition try_block (r : response) (c : conversion) : result (Q * Q * Q) :=
a <- min_getInfo r ;;
min_val <- convert_func c a ;;
b <- max_getInfo r ;;
max_val <- convert_func c b ;;
d <- mean_getInfo r ;;
mean_val <- convert_func c d ;;
mn <- format_2f min_val ;;
mx <- format_2f max_val ;;
av <- format_2f mean_val ;;
Ok (mn, mx, av).

(** The record one variable appends: from the [try] block, or from the
    [except] branch with its three [None]. *)
Definition variable_row (svc : service) (w : window) (y m : Z)
  (v : string * string * string * conversion) : row :=
let '(band, var_name, unit, c) := v in
match try_block (svc w band) c with
| Ok (mn, mx, av) =>
    {| Year := y; Month := m;
       Variable_ := variable_label var_name unit;
       Min := CFloat mn; Max := CFloat mx; Mean := CFloat av |}
| Raise _ =>
    {| Year := y; Month := m;
       Variable_ := variable_label var_name unit;
       Min := CNone; Max := CNone; Mean := CNone |}
end.

(** One turn of [for band, var_name, unit, convert_func in variables]. *)
Definition variable_body (svc : service) (w : window) (y m : Z)
  (results : list row) (v : string * string * string * conversion) : list row :=
results ++ [variable_row svc w y m v].

Definition loop_body (svc : service) (results : list row) (ym : Z * Z)
  : result (list row) :=
let '(y, m) := ym in
w <- month_bounds y m ;;
Ok (fold_left (variable_body svc w y m) variables results).

Definition main_loop (svc : service) (jobs : list (Z * Z)) (results : list row)
  : result (list row) :=
for_each (loop_body svc) results jobs.

(** [years = list(range(2013, 2025))], [months = [10, 11, 12]] *)
Definition jobs : list (Z * Z) := nested (range 2013 2025) [10; 11; 12].

Definition main (svc : service) : result (list row) := main_loop svc jobs [].

Definition key (r : row) : Z * Z := (Year r, Month r).

Definition all_null (r : row) : bool :=
match Min r, Max r, Mean r with
| CNone, CNone, CNone => true
| _, _, _ => false
end.

End Temperature.

(* ================================================================== *)
(** * LakeTana-by-HybridFusion-Radar+Optical-Fusion-FAI+NDVI+SWIR.py *)
(* ================================================================== *)

Module HybridFusion.

(** The mask images the loop handles. *)
Inductive ee_mask : Type :=
| OpticalMask
| RadarMask
| Or (a b : ee_mask).

Record response : Type := mkresponse {
  bandNames_size_getInfo : result Z;   (* img.bandNames().size().getInfo() *)
  cloud_cover_getInfo : result (option Q);   (* cloud_cover.getInfo() *)
  s2_date_getInfo : result string;     (* s2_date.getInfo() *)
  s1_size_getInfo : result Z;          (* s1.size().getInfo() *)
  area_getInfo : ee_mask -> result Q   (* ee.Number(..).divide(1e6).getInfo() *)
}.

Definition service : Type := window -> response.

Record row : Type := mkrow {
  Year : Z;
  Month : Z;
  Date_of_Satellite_Selected : string;
  Cloud_Cover_Percentage : cell;
  Area_of_Water_Hyacinth : Q;
  Source_Used : string
}.

Inductive line : Type :=
| Processing (y m : Z)
| NoValidData (y m : Z)
| UnableToComputeArea (y m : Z)
| Done (y m : Z) (area : Q) (source : string).

Record state : Type := mkstate {
  results : list row;
  stdout : list line
}.

Definition initial : state := {| results := []; stdout := [] |}.

(** [get_sentinel2_mask(start, end)]: the mask and the two deferred
    properties of the selected image (each stands for the outcome of its
    [getInfo()]), or three [None] when the image is not valid. *)
Definition get_sentinel2_mask (r : response)
  : option ee_mask * option (result (option Q)) * option (result string) :=
match bandNames_size_getInfo r with
| Raise _ => (None, None, None)
| Ok _ => (Some OpticalMask, Some (cloud_cover_getInfo r), Some (s2_date_getInfo r))
end.

(** [get_sentinel1_mask(start, end)] *)
Definition get_sentinel1_mask (r : response) : result (option ee_mask) :=
n <- s1_size_getInfo r ;;
if n =? 0 then Ok None else Ok (Some RadarMask).

Definition Qltb (a b : Q) : bool := negb (Qle_bool b a).

(** The [elif radar_mask: .. elif optical_mask: .. else: ..] tail. *)
Definition fusion_fallback (optical_mask radar_mask : option ee_mask)
  : option (ee_mask * string) :=
match radar_mask with
| Some rm => Some (rm, "Radar only"%string)
| None =>
    match optical_mask with
    | Some om => Some (om, "Optical only"%string)
    | None => None
    end
end.

(** The fusion logic of the main loop: the final mask and the source, or
    [None] for the [continue] of the last branch. *)
Definition fusion (optical_mask : option ee_mask) (cloud_pct : option Q)
  (radar_mask : option ee_mask) : option (ee_mask * string) :=
match optical_mask, cloud_pct with
| Some om, Some c =>
    if Qltb c 30
    then Some (match radar_mask with
               | None => om
               | Some rm => Or om rm
               end, "Hybrid (Optical+Radar)"%string)
    else fusion_fallback optical_mask radar_mask
| _, _ => fusion_fallback optical_mask radar_mask
end.

(** [round(cloud_pct, 2) if cloud_pct else 'N/A'] *)
Definition cloud_cell (cloud_pct : option Q) : cell :=
match cloud_pct with
| Some c => if Qeq_bool c 0 then CStr "N/A" else CFloat (round2 c)
| None => CStr "N/A"
end.

(** The body of the main loop. *)
Definition loop_body (svc : service) (st : state) (ym : Z * Z) : result state :=
let '(y, m) := ym in
w <- month_bounds y m ;;
let r := svc w in
let out := stdout st ++ [Processing y m] in
let '(optical_mask, cloud_cover, s2_date) := get_sentinel2_mask r in
cloud_pct <- match cloud_cover with
             | Some deferred => deferred
             | None => Ok None
             end ;;
radar_mask <- get_sentinel1_mask r ;;
match fusion optical_mask cloud_pct radar_mask with
| None => Ok {| results := results st; stdout := out ++ [NoValidData y m] |}
| Some (final_mask, source) =>
    match area_getInfo r final_mask with
    | Raise _ =>
        Ok {| results := results st; stdout := out ++ [UnableToComputeArea y m] |}
    | Ok area_km2 =>
        date_selected <- match s2_date with
                         | Some deferred => deferred
                         | None => Ok "Radar only"%string
                         end ;;
        Ok {| results :=
                results st ++ [{| Year := y;
                                  Month := m;
                                  Date_of_Satellite_Selected := date_selected;
                                  Cloud_Cover_Percentage := cloud_cell cloud_pct;
                                  Area_of_Water_Hyacinth := round2 area_km2;
                                  Source_Used := source |}];
              stdout := out ++ [Done y m area_km2 source] |}
    end
end.

Definition main_loop (svc : service) (jobs : list (Z * Z)) (st : state)
  : result state :=
for_each (loop_body svc) st jobs.

(** [years = list(range(2016, 2025))], [months = [10, 11, 12]] *)
Definition jobs : list (Z * Z) := nested (range 2016 2025) [10; 11; 12].

Definition main (svc : service) : result state := main_loop svc jobs initial.

(** The source strategy as the specification resolves it: hybrid exactly
    when the quality is acceptable and both masks exist, else whichever
    single mask exists, radar first. *)
Definition spec_source (optical_exists : bool) (cloud_pct : option Q)
  (radar_exists : bool) : option string :=
let acceptable := match cloud_pct with Some c => Qltb c 30 | None => false end in
if acceptable && optical_exists && radar_exists then Some "Hybrid (Optical+Radar)"%string
else if radar_exists then Some "Radar only"%string
else if optical_exists then Some "Optical only"%string
else None.

End HybridFusion.

(* ================================================================== *)
(** * Sample services and collections *)
(* ================================================================== *)

Module Samples.

(** A Sentinel-2 service with no image in November, a failing request in
    December and two images in every other month. *)
Definition s2_service : SentinelNdviFai.service :=
fun w =>
  if month (fst w) =? 11
  then {| SentinelNdviFai.size_getInfo := Ok 0;
          SentinelNdviFai.cloud_getInfo := Ok None;
          SentinelNdviFai.area_getInfo := Ok None |}
  else if month (fst w) =? 12
  then {| SentinelNdviFai.size_getInfo := Raise (EEException "Computation timed out.");
          SentinelNdviFai.cloud_getInfo := Ok None;
          SentinelNdviFai.area_getInfo := Ok None |}
  else {| SentinelNdviFai.size_getInfo := Ok 2;
          SentinelNdviFai.cloud_getInfo := Ok (Some (12345 # 1000));
          SentinelNdviFai.area_getInfo := Ok (Some 3000000%Q) |}.

(** A radar service with no image in November and three images otherwise. *)
Definition radar_service : Radar.service :=
fun w =>
  if month (fst w) =? 11
  then {| Radar.size_getInfo := Ok 0;
          Radar.date_getInfo := Ok EmptyString;
          Radar.area_print_getInfo := Ok 0%Q;
          Radar.area_export_getInfo := Ok 0%Q |}
  else {| Radar.size_getInfo := Ok 3;
          Radar.date_getInfo := Ok "2014-10-03"%string;
          Radar.area_print_getInfo := Ok (125 # 10);
          Radar.area_export_getInfo := Ok (125 # 10) |}.

(** A rainfall service whose every retrieval fails. *)
Definition failing_chirps : Chirps.service :=
fun _ => Raise (EEException "Computation timed out.").

(** A climate service with no value in any reduction. *)
Definition no_data_climate : Temperature.service :=
fun _ _ => {| Temperature.min_getInfo := Ok None;
              Temperature.max_getInfo := Ok None;
              Temperature.mean_getInfo := Ok None |}.

(** A fusion service: a valid optical image with the given cloud cover and
    a radar collection of the given size. *)
Definition fusion_service (cloud : Q) (s1_size : Z) : HybridFusion.service :=
fun _ => {| HybridFusion.bandNames_size_getInfo := Ok 15;
            HybridFusion.cloud_cover_getInfo := Ok (Some cloud);
            HybridFusion.s2_date_getInfo := Ok "2019-11-07"%string;
            HybridFusion.s1_size_getInfo := Ok s1_size;
            HybridFusion.area_getInfo := fun _ => Ok (125 # 10) |}.

(** An image that holds the same value in every band of every pixel. *)
Definition flat_image (cloud value : Q) : image :=
{| CLOUDY_PIXEL_PERCENTAGE := cloud; raster := fun _ _ => Some value |}.

(** Three images of one month: the least cloudy one, which is also the
    last, holds 5, the others 2 and 1. *)
Definition three_images : collection :=
[flat_image 20 2; flat_image 30 1; flat_image 10 5].

Definition everywhere : geometry := fun _ => true.

End Samples.

(* ================================================================== *)
(** * Threshold masks of the scripts *)
(* ================================================================== *)

Module Masks.

(** The value of a comparison: 1 where it holds, 0 elsewhere. *)
Definition indicator (b : bool) : Q := if b then 1 else 0.

Definition Qgtb (a b : Q) : bool := negb (Qle_bool a b).

Definition nonzero (x : Q) : bool := negb (Qeq_bool x 0).

(** [image.gt(c)] and [image.lt(c)] with a Python number. *)
Definition gt (a : pixel) (c : Q) : pixel :=
option_map (fun x => indicator (Qgtb x c)) a.

Definition lt (a : pixel) (c : Q) : pixel :=
option_map (fun x => indicator (Qgtb c x)) a.

(** [a.And(b)] and [a.Or(b)]: 1 where both (one of the) values are not
    zero; masked where an input is masked. *)
Definition And : pixel -> pixel -> pixel :=
lift2 (fun x y => indicator (nonzero x && nonzero y)).

Definition Or : pixel -> pixel -> pixel :=
lift2 (fun x y => indicator (nonzero x || nonzero y)).

(** [image.unitScale(low, high)]: the range [low, high] becomes [0, 1]. *)
Definition unitScale (a : pixel) (low high : Q) : pixel :=
option_map (fun x => ((x - low) / (high - low))%Q) a.

(** [image.divide(c)] with a Python number. *)
Definition divide_c (a : pixel) (c : Q) : pixel :=
option_map (fun x => if Qeq_bool c 0 then 0%Q else (x / c)%Q) a.

(** [image.abs()] *)
Definition abs (a : pixel) : pixel := option_map Qabs a.

(** LakeTana-NDVI-FAI-Sentinel.py lines 64-66, and the NDVI+FAI Landsat
    script: [mask = ndvi.gt(0.3).And(fai.gt(0.002))]. *)
Definition ndvi_fai_mask (median : bands) : pixel :=
let ndvi := select median "NDVI" in
let fai := select median "FAI" in
And (gt ndvi (3 # 10)) (gt fai (2 # 1000)).

(** LakeTana-FAI-Landsat.py line 63:
    [fai_mask = median.select('FAI').gt(0.005)]. *)
Definition fai_mask (median : bands) : pixel :=
gt (select median "FAI") (5 # 1000).

(** LakeTana-by-FAI-NDVI-SWIR-Sentinel.py, [compute_all_indices_sentinel]. *)
Definition compute_all_indices_sentinel (image : bands) : bands :=
let red := select image "B4" in
let green := select image "B3" in
let nir := select image "B8" in
let swir := select image "B11" in
let ndvi := ndvi_of nir red in
let fai := fai_of 665 842 1610 nir red swir in
addBand (addBand (addBand image "FAI" fai) "NDVI" ndvi) "SWIR1" swir.

(** The same script, line 68:
    [mask = fai.gt(0.002).And(ndvi.gt(0.3)).And(swir1.lt(0.08))]. *)
Definition fai_ndvi_swir_mask (median : bands) : pixel :=
let fai := select median "FAI" in
let ndvi := select median "NDVI" in
let swir1 := select median "SWIR1" in
And (And (gt fai (2 # 1000)) (gt ndvi (3 # 10))) (lt swir1 (8 # 100)).

(** The same script, line 62: [median = s2.median().clip(roi)]. *)
Definition fai_ndvi_swir_monthly_composite (roi : geometry)
  (filtered : collection) : loc -> bands :=
clip roi (median (map_bands compute_all_indices_sentinel filtered)).

(** LakeTana-NDWI-FAI-Landsat.py, [compute_fai_ndwi_landsat]. *)
Definition compute_fai_ndwi_landsat (image : bands) : bands :=
let green := rescale (select image "SR_B3") in
let red := rescale (select image "SR_B4") in
let nir := rescale (select image "SR_B5") in
let swir1 := rescale (select image "SR_B6") in
let ndwi := divide (subtract green swir1) (add green swir1) in
let fai := fai_of 655 865 1609 nir red swir1 in
addBand (addBand image "FAI" fai) "NDWI" ndwi.

(** The same script, line 70: [mask = fai.gt(0.002).And(ndwi.lt(0))]. *)
Definition fai_ndwi_mask (median : bands) : pixel :=
let fai := select median "FAI" in
let ndwi := select median "NDWI" in
And (gt fai (2 # 1000)) (lt ndwi 0).

(** LakeTana-Radar-Sentinel-1.py lines 63-64:
    [vh_band = median_img.select('VH').unitScale(-25, 0)],
    [hyacinth_mask = vh_band.gt(0.2)]. *)
Definition hyacinth_mask (median_img : bands) : pixel :=
let vh_band := unitScale (select median_img "VH") (-25) 0 in
gt vh_band (2 # 10).

(** Hybrid fusion script, [get_sentinel1_mask] lines 89-92. *)
Definition radar_mask (img : bands) : pixel :=
let vv := select img "VV" in
let vh := select img "VH" in
let ratio := divide vv vh in
And (lt vh (1 # 10)) (gt ratio (13 # 10)).

(** Hybrid fusion script, [add_indices]: the FAI band, from the expression
    ['B08 - (B04 + (B11 - B04) * (0.865 - 0.665)/(1.61 - 0.665))']. *)
Definition add_indices_fai (image : bands) : pixel :=
let B04 := select image "B4" in
let B08 := select image "B8" in
let B11 := select image "B11" in
subtract B08
  (add B04
     (divide_c (multiply_c (subtract B11 B04) ((865 # 1000) - (665 # 1000)))
        ((161 # 100) - (665 # 1000)))).

(** The same function: [swir = image.select('B11').divide(10000)]. *)
Definition add_indices_swir (image : bands) : pixel :=
divide_c (select image "B11") 10000.

(** The value of a mask of the fusion loop at a pixel, from the values of
    the optical and of the radar mask there. *)
Fixpoint mask_value (optical radar : pixel) (m : HybridFusion.ee_mask) : pixel :=
match m with
| HybridFusion.OpticalMask => optical
| HybridFusion.RadarMask => radar
| HybridFusion.Or a b => Or (mask_value optical radar a) (mask_value optical radar b)
end.

(** A pixel a mask selects. *)
Definition flagged (p : pixel) : Prop :=
exists v, p = Some v /\ ~ (v == 0)%Q.

End Masks.

(* ================================================================== *)
(** * LakeTana-NDVI-FAI-Sentinel.py: what is printed, and the export *)
(* ================================================================== *)

Module SentinelExport.

(** The line the main loop prints for a record it appends. *)
Definition done_line (r : SentinelNdviFai.row) : SentinelNdviFai.line :=
SentinelNdviFai.Done (SentinelNdviFai.Year r) (SentinelNdviFai.Month r)
  (SentinelNdviFai.Area_of_Water_Hyacinth r)
  (SentinelNdviFai.Cloud_Cover_Percentage r).

Definition is_done (l : SentinelNdviFai.line) : bool :=
match l with
| SentinelNdviFai.Done _ _ _ _ => true
| _ => false
end.

(** A month for which nothing is printed. *)
Definition silent (svc : SentinelNdviFai.service) (ym : Z * Z) : bool :=
match SentinelNdviFai.get_ndvi_fai_monthly_s2 svc (fst ym) (snd ym) with
| ([], Ok None) => true
| _ => false
end.

(** [df.sort_values(by='Date of Satellite Selected')]: ascending in the
    order of strings. *)
Fixpoint insert_row (x : SentinelNdviFai.row) (s : list SentinelNdviFai.row)
  : list SentinelNdviFai.row :=
match s with
| [] => [x]
| y :: s' =>
    if String.leb (SentinelNdviFai.Date_of_Satellite_Selected x)
         (SentinelNdviFai.Date_of_Satellite_Selected y)
    then x :: s else y :: insert_row x s'
end.

Definition sort_values (df : list SentinelNdviFai.row) : list SentinelNdviFai.row :=
fold_right insert_row [] df.

Definition date_before (a b : SentinelNdviFai.row) : Prop :=
String.ltb (SentinelNdviFai.Date_of_Satellite_Selected a)
  (SentinelNdviFai.Date_of_Satellite_Selected b) = true.

(** The exported table of the script. *)
Definition export (svc : SentinelNdviFai.service) : list SentinelNdviFai.row :=
sort_values (SentinelNdviFai.results (SentinelNdviFai.main svc)).

End SentinelExport.

(* ================================================================== *)
(** * LakeTana-Temperature-and-Humidity.py: the cells of a record *)
(* ================================================================== *)

Module TemperatureCells.

Definition all_numbers (r : Temperature.row) : bool :=
match Temperature.Min r, Temperature.Max r, Temperature.Mean r with
| CFloat _, CFloat _, CFloat _ => true
| _, _, _ => false
end.

(** What [convert_func] makes of a number. *)
Definition converted (c : Temperature.conversion) (x : Q) : Q :=
match c with
| Temperature.Kelvin_to_Celsius => (x - (27315 # 100))%Q
| Temperature.Identity => x
end.

End TemperatureCells.

(* ================================================================== *)
(** * LakeTana-Evapotranspiration.py: windows, conversions, extraction *)
(* ================================================================== *)

Module Evapotranspiration.

(** [ee.Date.fromYMD(year, month, day)] *)
Definition fromYMD (y m d : Z) : date := mkdate y m d.

(** [date.advance(1, 'month')], for a day that every month has. *)
Definition advance_1_month (d : date) : date :=
if month d =? 12 then mkdate (year d + 1) 1 (day d)
else mkdate (year d) (month d + 1) (day d).

(** [monthly_stats] and [monthly_era5_stats]: the arguments of
    [et_daily.filterDate(start, end)]. *)
Definition monthly_window (y m : Z) : window :=
let start := fromYMD y m 1 in
let end_ := advance_1_month start in
(start, end_).

(** [convert_et]: MODIS ET to mm/day. *)
Definition convert_et (image : pixel) : pixel :=
let et_mm_8day := multiply_c image (1 # 10) in
let et_mm_day := Masks.divide_c et_mm_8day 8 in
et_mm_day.

(** [convert_era5_et] *)
Definition convert_era5_et (image : pixel) : pixel :=
Masks.abs (multiply_c image 1000).

(** [convert_fldas_et] *)
Definition convert_fldas_et (image : pixel) : pixel :=
multiply_c image 86400.

(** The properties of a feature, as [getInfo()] returns them. *)
Definition dict : Type := list (string * cell).

(** [props[key]]; [None] stands for the [KeyError]. *)
Fixpoint getitem (props : dict) (key : string) : option cell :=
match props with
| [] => None
| (k, v) :: rest => if String.eqb k key then Some v else getitem rest key
end.

(** What makes a source fail. *)
Inductive failure : Type :=
| KeyError (key : string)
| Remote (e : exn).

Inductive outcome (A : Type) : Type :=
| Fine (a : A)
| Failed (f : failure).
Arguments Fine {A} a.
Arguments Failed {A} f.

(** The loop [for feature in results['features']] of the three
    [process_..._et] functions: the features whose ['mean_et'] is not
    [None]. *)
Fixpoint rows_with_mean (features : list dict) : outcome (list dict) :=
match features with
| [] => Fine []
| props :: rest =>
    match getitem props "mean_et" with
    | None => Failed (KeyError "mean_et")
    | Some mean_et =>
        match rows_with_mean rest with
        | Failed f => Failed f
        | Fine data =>
            match mean_et with
            | CNone => Fine data
            | _ => Fine (props :: data)
            end
        end
    end
end.

(** [process_modis_et], [process_era5_et], [process_fldas_et]: from the
    outcome of the one [getInfo()] each of them makes to its data frame. *)
Definition process_et (response : result (list dict)) : outcome (list dict) :=
match response with
| Raise e => Failed (Remote e)
| Ok features => rows_with_mean features
end.

(** One [try] block of step 6: what it appends to [all_et_data]. *)
Definition extracted (response : result (list dict)) : list (list dict) :=
match process_et response with
| Fine [] => []
| Fine data => [data]
| Failed _ => []
end.

(** [base_et] of the synthetic records. *)
Definition base_et (month : Z) : Q :=
if existsb (Z.eqb month) [12; 1; 2] then 45 # 10
else if existsb (Z.eqb month) [6; 7; 8; 9] then 28 # 10
else 35 # 10.

(** [max(0, x)] *)
Definition max_0 (x : Q) : Q := if Masks.Qgtb x 0 then x else 0.

(** One synthetic record; [noise] is the pair of draws of
    [np.random.normal] for the month. *)
Definition synthetic_record (noise : Z -> Z -> Q * Q) (ym : Z * Z) : dict :=
let '(year, month) := ym in
let mean_et := max_0 (base_et month + fst (noise year month)) in
let median_et := max_0 (base_et month + snd (noise year month)) in
[ ("year", CInt year); ("month", CInt month);
  ("mean_et", CFloat mean_et); ("median_et", CFloat median_et);
  ("count", CInt 1); ("source", CStr "Synthetic") ]%string.

Definition synthetic_data (noise : Z -> Z -> Q * Q) : list dict :=
map (synthetic_record noise) (nested (range 2013 2025) (range 1 13)).

(** Steps 6 and 7: [combined_et]. *)
Definition combined_et (modis era5 fldas : result (list dict))
  (noise : Z -> Z -> Q * Q) : list dict :=
let all_et_data := extracted modis ++ extracted era5 ++ extracted fldas in
match all_et_data with
| [] => synthetic_data noise
| _ => List.concat all_et_data
end.

End Evapotranspiration.

(* ================================================================== *)
(** * LakeTana-Water-Level-using-hydroweb-monthly.py:
      [process_hydroweb_data] *)
(* ================================================================== *)

Module Hydroweb.

Definition dict : Type := list (string * cell).

(** [key in record] and [record[key]] *)
Fixpoint lookup (record : dict) (key : string) : option cell :=
match record with
| [] => None
| (k, v) :: rest => if String.eqb k key then Some v else lookup rest key
end.

Definition date_keys : list string :=
["date"; "time"; "datetime"; "timestamp"; "observation_date"]%string.

Definition level_keys : list string :=
["water_level"; "height"; "elevation"; "level"; "value"; "measurement"]%string.

(** [for key in keys: if key in record: field = record[key]; break],
    with [field = None] before the loop. *)
Fixpoint first_present (keys : list string) (record : dict) : cell :=
match keys with
| [] => CNone
| key :: rest =>
    match lookup record key with
    | Some v => v
    | None => first_present rest record
    end
end.

(** The truth value of a cell. *)
Definition truth (c : cell) : bool :=
match c with
| CNone => false
| CStr s => negb (String.eqb s EmptyString)
| CInt z => negb (z =? 0)
| CFloat q => negb (Qeq_bool q 0)
end.

Definition is_not_None (c : cell) : bool :=
match c with
| CNone => false
| _ => true
end.

Record record_ : Type := mkrecord {
  date_ : date;
  water_level : Q;
  year_ : Z;
  month_ : Z
}.

Section Parsing.

(** [pd.to_datetime(x)] and [float(s)] for a string; [None] when they
    raise. *)
Variable to_datetime : cell -> option date.
Variable float_of_string : string -> option Q.

(** [float(level_field)] *)
Definition float_ (c : cell) : option Q :=
match c with
| CInt z => Some (inject_Z z)
| CFloat q => Some q
| CStr s => float_of_string s
| CNone => None
end.

(** The body of [for record in raw_data]: the record appended, if any. *)
Definition process_record (record : dict) : option record_ :=
let date_field := first_present date_keys record in
let level_field := first_present level_keys record in
if truth date_field && is_not_None level_field
then
  match to_datetime date_field with
  | None => None
  | Some date_obj =>
      match float_ level_field with
      | None => None
      | Some level_value =>
          Some {| date_ := date_obj;
                  water_level := level_value;
                  year_ := year date_obj;
                  month_ := month date_obj |}
      end
  end
else None.

(** [processed_records] at the end of the loop. *)
Definition processed_records (raw_data : list dict) : list record_ :=
flat_map (fun record => match process_record record with
                        | Some r => [r]
                        | None => []
                        end) raw_data.

End Parsing.

End Hydroweb.

(* ================================================================== *)
(** * LakeTana-Radar-Sentinel-1.py: the months of the table *)
(* ================================================================== *)

Module RadarTable.

(** A month whose filtered collection is not empty. *)
Definition has_images (svc : Radar.service) (ym : Z * Z) : bool :=
match month_bounds (fst ym) (snd ym) with
| Ok w =>
    match Radar.size_getInfo (svc w) with
    | Ok n => negb (n =? 0)
    | Raise _ => false
    end
| Raise _ => false
end.

Definition row_key (r : Radar.row) : Z * Z := (Radar.Year r, Radar.Month r).

End RadarTable.

(* ================================================================== *)
(** * The main loop of the index scripts

    LakeTana-NDVI-FAI-Sentinel.py lines 89-98,
    LakeTana-by-FAI-NDVI-SWIR-Sentinel.py lines 93-102,
    LakeTana-FAI-Landsat.py lines 86-95,
    LakeTana-NDVI-FAI-Landsat.py lines 91-100 and
    LakeTana-NDWI-FAI-Landsat.py lines 95-104 hold the same loop, each
    around the monthly function of its script. *)
(* ================================================================== *)

Module IndexScripts.

Section MainLoop.

(** The records of the script. *)
Variable row : Type.

(** The monthly function of the script: what it prints, and what it
    returns ([None], a record) or raises. *)
Variable monthly : Z -> Z -> list SentinelNdviFai.line * result (option row).

(** [result['Area of Water Hyacinth in Lake Tana']] and
    [result['Cloud Cover Percentage']], the cells of the printed line. *)
Variable Area_of_Water_Hyacinth : row -> Q.
Variable Cloud_Cover_Percentage : row -> Q.

Record state : Type := mkstate {
  results : list row;
  stdout : list SentinelNdviFai.line
}.

Definition initial : state := {| results := []; stdout := [] |}.

(** The body of the loop, [try: ... except Exception as e: ...]. *)
Definition loop_body (st : state) (ym : Z * Z) : state :=
let '(y, m) := ym in
let '(printed, outcome) := monthly y m in
match outcome with
| Ok (Some result) =>
    {| results := results st ++ [result];
       stdout := stdout st ++ printed
                 ++ [SentinelNdviFai.Done y m (Area_of_Water_Hyacinth result)
                       (Cloud_Cover_Percentage result)] |}
| Ok None =>
    {| results := results st; stdout := stdout st ++ printed |}
| Raise e =>
    {| results := results st;
       stdout := stdout st ++ printed ++ [SentinelNdviFai.Error y m e] |}
end.

Definition main_loop (jobs : list (Z * Z)) (st : state) : state :=
fold_left loop_body jobs st.

(** The record a month contributes to the table, if any. *)
Definition month_rows (ym : Z * Z) : list row :=
match snd (monthly (fst ym) (snd ym)) with
| Ok (Some result) => [result]
| _ => []
end.

End MainLoop.

Arguments results {row} _.
Arguments stdout {row} _.
Arguments loop_body {row} _ _ _ _ _.
Arguments main_loop {row} _ _ _ _ _.
Arguments month_rows {row} _ _.

End IndexScripts.

(* ================================================================== *)
(** * LakeTana-NDVI-FAI-Sentinel-Export-Image-for-2019-Nov.py

    The round trips, the window and the record of the monthly function
    are those of LakeTana-NDVI-FAI-Sentinel.py (the area column is named
    'Area of Water Hyacinth in Lake Tana (km^2)' here); the loop around
    it has no [try].  The export tasks started after the loop are left
    out. *)
(* ================================================================== *)

Module SentinelExportImage.

(** Lines 43-76, [get_ndvi_fai_monthly_s2(year, month)]. *)
Definition get_ndvi_fai_monthly_s2 (svc : SentinelNdviFai.service) (y m : Z)
  : list SentinelNdviFai.line * result (option SentinelNdviFai.row) :=
let r := svc (SentinelNdviFai.filter_window y m) in
match SentinelNdviFai.size_getInfo r with
| Raise e => ([], Raise e)
| Ok n =>
    if n =? 0 then ([SentinelNdviFai.NoImages y m], Ok None)
    else
      ([],
       cloud <- SentinelNdviFai.cloud_getInfo r ;;
       area_sq_m <- SentinelNdviFai.area_getInfo r ;;
       match area_sq_m with
       | None => Ok None
       | Some a =>
           match cloud with
           | None => Raise (TypeError "type NoneType doesn't define __round__ method")
           | Some c =>
               Ok (Some {| SentinelNdviFai.Year := y;
                           SentinelNdviFai.Month := m;
                           SentinelNdviFai.Date_of_Satellite_Selected :=
                             SentinelNdviFai.fstring_date y m "01";
                           SentinelNdviFai.Cloud_Cover_Percentage := round2 c;
                           SentinelNdviFai.Area_of_Water_Hyacinth :=
                             round2 (a / 1000000) |})
           end
       end)
end.

(** Lines 79-86: the body of the loop; no exception is caught here. *)
Definition loop_body (svc : SentinelNdviFai.service) (st : SentinelNdviFai.state)
  (ym : Z * Z) : result SentinelNdviFai.state :=
let '(y, m) := ym in
let '(printed, outcome) := get_ndvi_fai_monthly_s2 svc y m in
res <- outcome ;;
match res with
| Some r =>
    Ok {| SentinelNdviFai.results := SentinelNdviFai.results st ++ [r];
          SentinelNdviFai.stdout :=
            SentinelNdviFai.stdout st ++ printed
            ++ [SentinelNdviFai.Done y m (SentinelNdviFai.Area_of_Water_Hyacinth r)
                  (SentinelNdviFai.Cloud_Cover_Percentage r)] |}
| None =>
    Ok {| SentinelNdviFai.results := SentinelNdviFai.results st;
          SentinelNdviFai.stdout := SentinelNdviFai.stdout st ++ printed |}
end.

Definition main_loop (svc : SentinelNdviFai.service) (jobs : list (Z * Z))
  (st : SentinelNdviFai.state) : result SentinelNdviFai.state :=
for_each (loop_body svc) st jobs.

(** [for year in range(2019, 2020): for month in [11]: ...] *)
Definition jobs : list (Z * Z) := nested (range 2019 2020) [11].

Definition main (svc : SentinelNdviFai.service) : result SentinelNdviFai.state :=
main_loop svc jobs SentinelNdviFai.initial.

End SentinelExportImage.

(* ================================================================== *)
(** * The monthly composites of the remaining index scripts, and what it
      means to be a median composite *)
(* ================================================================== *)

Module MonthlyComposites.

(** LakeTana-FAI-Landsat.py line 62: [median = ls.median().clip(roi)]. *)
Definition fai_landsat_monthly_composite (roi : geometry) (filtered : collection)
  : loc -> bands :=
clip roi (median (map_bands compute_fai_landsat filtered)).

(** LakeTana-NDWI-FAI-Landsat.py line 66: [median = ls.median().clip(roi)]. *)
Definition fai_ndwi_monthly_composite (roi : geometry) (filtered : collection)
  : loc -> bands :=
clip roi (median (map_bands Masks.compute_fai_ndwi_landsat filtered)).

(** LakeTana-NDVI-FAI-Sentinel-Export-Image-for-2019-Nov.py lines 55 and
    106: [s2.median().clip(roi)]; its [compute_ndvi_fai_sentinel] is that
    of LakeTana-NDVI-FAI-Sentinel.py. *)
Definition export_image_monthly_composite (roi : geometry) (filtered : collection)
  : loc -> bands :=
clip roi (median (map_bands compute_ndvi_fai_sentinel filtered)).

(** [composite] is a median composite of the images [c]: at every pixel
    and band it has a value exactly when an image has one there, and the
    value is a median of the images' values there. *)
Definition median_composite_of (c : collection) (composite : loc -> bands) : Prop :=
forall (l : loc) (b : string),
  (forall v, composite l b = Some v -> is_median v (stack c l b))
  /\ (stack c l b <> [] -> exists v, composite l b = Some v)
  /\ (stack c l b = [] -> composite l b = None).

(** [composite] is a median composite of the images [c] clipped to [roi]:
    masked outside the geometry, the median composite inside it. *)
Definition clipped_median_composite_of (roi : geometry) (c : collection)
  (composite : loc -> bands) : Prop :=
forall (l : loc) (b : string),
  (roi l = false -> composite l b = None)
  /\ (roi l = true ->
      (forall v, composite l b = Some v -> is_median v (stack c l b))
      /\ (stack c l b <> [] -> exists v, composite l b = Some v)
      /\ (stack c l b = [] -> composite l b = None)).

End MonthlyComposites.

(* ================================================================== *)
(** * Properties *)
(* ================================================================== *)

(** Boolean tests on integers, as propositions. *)
Ltac bool_to_prop :=
  repeat (rewrite ?andb_true_iff, ?orb_true_iff, ?negb_true_iff,
                  ?andb_false_iff, ?orb_false_iff, ?negb_false_iff,
                  ?Z.ltb_lt, ?Z.ltb_ge, ?Z.leb_le, ?Z.leb_gt,
                  ?Z.eqb_eq, ?Z.eqb_neq in *).

Example isoformat_2019_11_01 : isoformat (mkdate 2019 11 1) = "2019-11-01"%string.
Proof. reflexivity. Qed.

Example fstring_start_date_2016_10 :
  SentinelNdviFai.fstring_date 2016 10 "01"
  = isoformat (SentinelNdviFai.start_date 2016 10).
Proof. reflexivity. Qed.

Example monthrange_feb_2024 : monthrange_ndays 2024 2 = Ok 29.
Proof. reflexivity. Qed.

Example monthrange_feb_1900 : monthrange_ndays 1900 2 = Ok 28.
Proof. reflexivity. Qed.

Example range_2016_2025 :
  range 2016 2025 = [2016; 2017; 2018; 2019; 2020; 2021; 2022; 2023; 2024].
Proof. reflexivity. Qed.

Example round2_ties_to_even : (round2 (12345 # 1000) == 1234 # 100)%Q.
Proof. reflexivity. Qed.

Lemma month_cases (m : Z) :
  1 <= m <= 12 ->
  m = 1 \/ m = 2 \/ m = 3 \/ m = 4 \/ m = 5 \/ m = 6 \/
  m = 7 \/ m = 8 \/ m = 9 \/ m = 10 \/ m = 11 \/ m = 12.
Proof. lia. Qed.

Lemma datetime_date_first (y m : Z) :
  1 <= y <= 9999 -> 1 <= m <= 12 -> datetime_date y m 1 = Ok (mkdate y m 1).
Proof.
  intros Hy Hm. unfold datetime_date, monthrange_ndays.
  assert (Y : (1 <=? y) && (y <=? 9999) = true) by (bool_to_prop; lia).
  assert (M : (1 <=? m) && (m <=? 12) = true) by (bool_to_prop; lia).
  rewrite Y, M. cbn [negb].
  destruct (month_cases m Hm) as [E|[E|[E|[E|[E|[E|[E|[E|[E|[E|[E|E]]]]]]]]]]];
    subst m; destruct (isleap y); reflexivity.
Qed.

Lemma monthrange_ndays_bounds (y m : Z) :
  1 <= m <= 12 ->
  exists n, monthrange_ndays y m = Ok n /\ 28 <= n <= 31
            /\ (m = 2 -> n = if isleap y then 29 else 28)
            /\ (m = 12 -> n = 31).
Proof.
  intros Hm. unfold monthrange_ndays.
  assert (M : (1 <=? m) && (m <=? 12) = true) by (bool_to_prop; lia).
  rewrite M.
  destruct (month_cases m Hm) as [E|[E|[E|[E|[E|[E|[E|[E|[E|[E|[E|E]]]]]]]]]]];
    subst m; destruct (isleap y);
    (eexists; split; [vm_compute; reflexivity|]; repeat split; intros; lia).
Qed.

Lemma datetime_date_last (y m n : Z) :
  1 <= y <= 9999 -> 1 <= m <= 12 -> monthrange_ndays y m = Ok n ->
  datetime_date y m n = Ok (mkdate y m n).
Proof.
  intros Hy Hm Hn. unfold datetime_date.
  assert (Y : (1 <=? y) && (y <=? 9999) = true) by (bool_to_prop; lia).
  assert (M : (1 <=? m) && (m <=? 12) = true) by (bool_to_prop; lia).
  rewrite Y, M, Hn. cbn [negb].
  destruct (monthrange_ndays_bounds y m Hm) as (n' & E & B & _).
  rewrite Hn in E. injection E as <-.
  assert (D : (1 <=? n) && (n <=? n) = true) by (bool_to_prop; lia).
  now rewrite D.
Qed.

(** The loop bounds of the radar, rainfall, climate and fusion scripts. *)
Lemma month_bounds_ok (y m : Z) :
  1 <= y <= 9999 -> 1 <= m <= 12 ->
  exists n, monthrange_ndays y m = Ok n
            /\ month_bounds y m = Ok (mkdate y m 1, mkdate y m n).
Proof.
  intros Hy Hm.
  destruct (monthrange_ndays_bounds y m Hm) as (n & E & _).
  exists n. split; [exact E|].
  unfold month_bounds.
  rewrite (datetime_date_first y m Hy Hm). cbn [bind].
  rewrite E. cbn [bind].
  now rewrite (datetime_date_last y m n Hy Hm E).
Qed.

(** C1, as stated, fails: for December 2016 neither script asks for the
    window that ends on 2017-01-01, and 2016-12-31 is left out of both;
    for April the Sentinel window ends on the 28th; for February of a leap
    year the Sentinel window still ends on the hard-coded 28th. *)
Lemma C1_window_counterexample :
  SentinelNdviFai.filter_window 2016 12 = (mkdate 2016 12 1, mkdate 2016 12 31)
  /\ SentinelNdviFai.filter_window 2016 12 <> spec_month_window 2016 12
  /\ month_bounds 2016 12 = Ok (mkdate 2016 12 1, mkdate 2016 12 31)
  /\ in_window (spec_month_window 2016 12) (mkdate 2016 12 31) = true
  /\ in_window (SentinelNdviFai.filter_window 2016 12) (mkdate 2016 12 31) = false
  /\ SentinelNdviFai.filter_window 2020 4 = (mkdate 2020 4 1, mkdate 2020 4 28)
  /\ SentinelNdviFai.filter_window 2024 2 = (mkdate 2024 2 1, mkdate 2024 2 28)
  /\ monthrange_ndays 2024 2 = Ok 29.
Proof.
  repeat split; try reflexivity.
  intros H. discriminate H.
Qed.

(** C1 (amended): for a year in 1..9999 and a month in 1..12, both windows
    start on the first day of the month and end on a day of the same
    month.  The index scripts hard-code the end day, 28 for every month
    but December and 31 for December; the fusion script takes it from the
    calendar, leap years included.  Every date either window selects lies
    in the calendar month. *)
Theorem C1_monthly_window_bounds (y m : Z) :
  1 <= y <= 9999 -> 1 <= m <= 12 ->
  SentinelNdviFai.filter_window y m
  = (mkdate y m 1, mkdate y m (if m =? 12 then 31 else 28))
  /\ (exists n,
        monthrange_ndays y m = Ok n
        /\ month_bounds y m = Ok (mkdate y m 1, mkdate y m n)
        /\ 28 <= n <= 31
        /\ (m = 2 -> n = if isleap y then 29 else 28))
  /\ (forall d,
        in_window (SentinelNdviFai.filter_window y m) d = true ->
        in_window (spec_month_window y m) d = true)
  /\ (forall w d,
        month_bounds y m = Ok w ->
        in_window w d = true ->
        in_window (spec_month_window y m) d = true).
Proof.
  intros Hy Hm.
  destruct (monthrange_ndays_bounds y m Hm) as (n & En & Bn & Feb & Dec).
  destruct (month_bounds_ok y m Hy Hm) as (n' & En' & Hw).
  rewrite En in En'. injection En' as <-.
  split; [|split; [|split]].
  - unfold SentinelNdviFai.filter_window, SentinelNdviFai.start_date,
      SentinelNdviFai.end_date.
    destruct (m =? 12); reflexivity.
  - exists n. auto.
  - intros [dy dm dd].
    unfold SentinelNdviFai.filter_window, SentinelNdviFai.start_date,
      SentinelNdviFai.end_date, spec_month_window, next_month_start,
      in_window, date_leb, date_ltb.
    destruct (m =? 12) eqn:E; cbn [negb fst snd year month day];
      bool_to_prop; lia.
  - intros w [dy dm dd] Hw'. rewrite Hw in Hw'. injection Hw' as <-.
    unfold spec_month_window, next_month_start, in_window, date_leb, date_ltb.
    destruct (m =? 12) eqn:E; cbn [negb fst snd year month day];
      bool_to_prop; lia.
Qed.

Lemma C1_monthly_window_bounds_witness :
  SentinelNdviFai.filter_window 2024 2
  = (mkdate 2024 2 1, mkdate 2024 2 (if 2 =? 12 then 31 else 28))
  /\ (exists n,
        monthrange_ndays 2024 2 = Ok n
        /\ month_bounds 2024 2 = Ok (mkdate 2024 2 1, mkdate 2024 2 n)
        /\ 28 <= n <= 31
        /\ (2 = 2 -> n = if isleap 2024 then 29 else 28))
  /\ (forall d,
        in_window (SentinelNdviFai.filter_window 2024 2) d = true ->
        in_window (spec_month_window 2024 2) d = true)
  /\ (forall w d,
        month_bounds 2024 2 = Ok w ->
        in_window w d = true ->
        in_window (spec_month_window 2024 2) d = true).
Proof. apply (C1_monthly_window_bounds 2024 2); lia. Defined.

(* ------------------------------------------------------------------ *)
(** ** Band algebra *)
(* ------------------------------------------------------------------ *)

Example ndvi_scenario_1 :
  exists v, ndvi_of (Some (3 # 10)) (Some (1 # 10)) = Some v /\ (v == 1 # 2)%Q.
Proof. eexists. split; [reflexivity|]. reflexivity. Qed.

(** A negative reflectance takes the quotient out of [-1, 1]: the Landsat
    digital numbers 5000 (red) and 10000 (near infrared) rescale to
    -0.0625 and 0.075. *)
Example ndvi_negative_reflectance :
  exists v,
    select (compute_ndvi_fai
              (fun b => if String.eqb b "SR_B4" then Some 5000%Q
                        else Some 10000%Q)) "NDVI" = Some v
    /\ (v == 11)%Q.
Proof. eexists. split; [reflexivity|]. reflexivity. Qed.

Lemma ndvi_of_value (nir red : Q) :
  ndvi_of (Some nir) (Some red)
  = Some (if Qeq_bool (nir + red) 0 then 0 else (nir - red) / (nir + red))%Q.
Proof. reflexivity. Qed.

Lemma ndvi_of_range (nir red : Q) :
  (0 <= nir)%Q -> (0 <= red)%Q ->
  exists v, ndvi_of (Some nir) (Some red) = Some v
            /\ (-1 <= v <= 1)%Q
            /\ ((nir + red == 0)%Q -> (v == 0)%Q).
Proof.
  intros Hn Hr. rewrite ndvi_of_value.
  destruct (Qeq_bool (nir + red) 0) eqn:E; cbv iota.
  - eexists. split; [reflexivity|]. split; [lra|]. intros _. reflexivity.
  - apply Qeq_bool_neq in E.
    assert (P : (0 < nir + red)%Q).
    { destruct (Qlt_le_dec 0 (nir + red)) as [L|L]; [exact L|].
      exfalso. apply E. lra. }
    eexists. split; [reflexivity|]. split; [split|].
    + apply Qle_shift_div_l; [exact P|]. lra.
    + apply Qle_shift_div_r; [exact P|]. lra.
    + intros Z. exfalso. apply E. exact Z.
Qed.

(** C7, as stated, fails on the zero denominator: the quotient is computed
    with [divide], which yields the value 0 there, not a masked pixel. *)
Lemma C7_zero_denominator_counterexample :
  ndvi_of (Some 0%Q) (Some 0%Q) = Some 0%Q
  /\ select (compute_ndvi_fai_sentinel (fun _ => Some 0%Q)) "NDVI" = Some 0%Q
  /\ select (compute_ndvi_fai_sentinel (fun _ => Some 0%Q)) "NDVI" <> None.
Proof.
  repeat split; try reflexivity.
  intros H. discriminate H.
Qed.

(** C7 (amended): for non-negative band values the NDVI band of the
    Sentinel-2 and of the Landsat index computation is a value of [-1, 1];
    when nir + red is 0 that value is 0; the band is masked only where an
    input band is. *)
Theorem C7_ndvi_within_unit_interval (image : bands) (nir red : Q) :
  (0 <= nir)%Q -> (0 <= red)%Q ->
  (select image "B8" = Some nir -> select image "B4" = Some red ->
   exists v, select (compute_ndvi_fai_sentinel image) "NDVI" = Some v
             /\ (-1 <= v <= 1)%Q
             /\ ((nir + red == 0)%Q -> (v == 0)%Q))
  /\ (rescale (select image "SR_B5") = Some nir ->
      rescale (select image "SR_B4") = Some red ->
      exists v, select (compute_ndvi_fai image) "NDVI" = Some v
                /\ (-1 <= v <= 1)%Q
                /\ ((nir + red == 0)%Q -> (v == 0)%Q))
  /\ ((select image "B8" = None \/ select image "B4" = None) ->
      select (compute_ndvi_fai_sentinel image) "NDVI" = None).
Proof.
  intros Hn Hr. split; [|split].
  - intros E8 E4.
    change (select (compute_ndvi_fai_sentinel image) "NDVI")
      with (ndvi_of (select image "B8") (select image "B4")).
    rewrite E8, E4. now apply ndvi_of_range.
  - intros E5 E4.
    change (select (compute_ndvi_fai image) "NDVI")
      with (ndvi_of (rescale (select image "SR_B5")) (rescale (select image "SR_B4"))).
    rewrite E5, E4. now apply ndvi_of_range.
  - intros H.
    change (select (compute_ndvi_fai_sentinel image) "NDVI")
      with (ndvi_of (select image "B8") (select image "B4")).
    destruct H as [H|H]; rewrite H.
    + reflexivity.
    + destruct (select image "B8"); reflexivity.
Qed.

Lemma C7_ndvi_within_unit_interval_witness :
  (exists v,
      select (compute_ndvi_fai_sentinel (fun _ => Some (3 # 10))) "NDVI" = Some v
      /\ (-1 <= v <= 1)%Q
      /\ (((3 # 10) + (3 # 10) == 0)%Q -> (v == 0)%Q))
  /\ (exists v,
         select (compute_ndvi_fai
                   (fun b => if String.eqb b "SR_B5" then Some 20000%Q
                             else Some 10000%Q)) "NDVI" = Some v
         /\ (-1 <= v <= 1)%Q).
Proof.
  split.
  - apply (proj1 (C7_ndvi_within_unit_interval
                    (fun _ => Some (3 # 10)) (3 # 10) (3 # 10)
                    ltac:(unfold Qle; simpl; lia) ltac:(unfold Qle; simpl; lia)));
      reflexivity.
  - destruct (proj1 (proj2 (C7_ndvi_within_unit_interval
                    (fun b => if String.eqb b "SR_B5" then Some 20000%Q
                              else Some 10000%Q)
                    (20000 * landsat_scale + landsat_offset)
                    (10000 * landsat_scale + landsat_offset)
                    ltac:(unfold Qle; simpl; lia) ltac:(unfold Qle; simpl; lia)))
                eq_refl eq_refl) as (v & Hv & Hb & _).
    exists v. split; [exact Hv|exact Hb].
Defined.

Lemma fai_of_value (red_wl nir_wl swir_wl : Z) (nir red swir : Q) :
  fai_of red_wl nir_wl swir_wl (Some nir) (Some red) (Some swir)
  = Some (nir - (red + (swir - red) * wl_ratio red_wl nir_wl swir_wl))%Q.
Proof. reflexivity. Qed.

(** C8: for fixed wavelengths the FAI of the scripts is a linear function
    of (nir, red, swir): it commutes with linear combinations of band
    triples; and it is 0 when the three bands are equal, for the generic
    formula, for the Sentinel-2 computation and, after rescaling, for the
    Landsat one. *)
Theorem C8_fai_linear_zero_on_equal_bands (red_wl nir_wl swir_wl : Z) :
  (forall a b n1 r1 s1 n2 r2 s2 : Q,
      exists v1 v2 v,
        fai_of red_wl nir_wl swir_wl (Some n1) (Some r1) (Some s1) = Some v1
        /\ fai_of red_wl nir_wl swir_wl (Some n2) (Some r2) (Some s2) = Some v2
        /\ fai_of red_wl nir_wl swir_wl
             (Some (a * n1 + b * n2)%Q) (Some (a * r1 + b * r2)%Q)
             (Some (a * s1 + b * s2)%Q) = Some v
        /\ (v == a * v1 + b * v2)%Q)
  /\ (forall x : Q,
         exists v, fai_of red_wl nir_wl swir_wl (Some x) (Some x) (Some x) = Some v
                   /\ (v == 0)%Q)
  /\ (forall x : Q,
         exists v, select (compute_ndvi_fai_sentinel (fun _ => Some x)) "FAI" = Some v
                   /\ (v == 0)%Q)
  /\ (forall x : Q,
         exists v, select (compute_fai_landsat (fun _ => Some x)) "FAI" = Some v
                   /\ (v == 0)%Q).
Proof.
  split; [|split; [|split]].
  - intros a b n1 r1 s1 n2 r2 s2.
    rewrite !fai_of_value.
    set (k := wl_ratio red_wl nir_wl swir_wl).
    do 3 eexists.
    split; [reflexivity|]. split; [reflexivity|]. split; [reflexivity|].
    ring.
  - intros x. rewrite fai_of_value.
    set (k := wl_ratio red_wl nir_wl swir_wl).
    eexists. split; [reflexivity|]. ring.
  - intros x.
    exists (x - (x + (x - x) * wl_ratio 665 842 1610))%Q.
    split; [reflexivity|].
    set (k := wl_ratio 665 842 1610). ring.
  - intros x.
    set (y := (x * landsat_scale + landsat_offset)%Q).
    exists (y - (y + (y - y) * wl_ratio 655 865 1609))%Q.
    split; [reflexivity|].
    set (k := wl_ratio 655 865 1609). ring.
Qed.

(* ------------------------------------------------------------------ *)
(** ** Loops *)
(* ------------------------------------------------------------------ *)

Lemma for_each_app {S J} (body : S -> J -> result S) (st : S) (xs ys : list J) :
  for_each body st (xs ++ ys)
  = (st' <- for_each body st xs ;; for_each body st' ys).
Proof.
  revert st. induction xs as [|x xs IH]; intros st; cbn; [reflexivity|].
  destruct (body st x); cbn; [apply IH|reflexivity].
Qed.

(** A property every turn preserves holds when the loop ends. *)
Lemma for_each_invariant {S J} (P : S -> Prop) (body : S -> J -> result S)
  (xs : list J) :
  (forall st x st', In x xs -> P st -> body st x = Ok st' -> P st') ->
  forall st st', P st -> for_each body st xs = Ok st' -> P st'.
Proof.
  induction xs as [|x xs IH]; intros Hbody st st' HP Hrun; cbn in Hrun.
  - now injection Hrun as <-.
  - destruct (body st x) as [st1|e] eqn:E; [|discriminate].
    apply (IH (fun s y s' Hy => Hbody s y s' (or_intror Hy)) st1 st'); [|exact Hrun].
    apply (Hbody st x st1); [now left|exact HP|exact E].
Qed.

(** A loop whose every turn returns, returns. *)
Lemma for_each_total {S J} (body : S -> J -> result S) (xs : list J) :
  (forall st x, In x xs -> exists st', body st x = Ok st') ->
  forall st, exists st', for_each body st xs = Ok st'.
Proof.
  induction xs as [|x xs IH]; intros Hbody st; cbn.
  - now exists st.
  - destruct (Hbody st x (or_introl eq_refl)) as (st1 & E). rewrite E.
    apply IH. intros s y Hy. apply Hbody. now right.
Qed.

Lemma nested_NoDup {A B} (xs : list A) (ys : list B) :
  NoDup xs -> NoDup ys -> NoDup (nested xs ys).
Proof.
  intros Hx Hy. unfold nested.
  induction Hx as [|x xs Hnotin Hnd IH]; cbn; [constructor|].
  apply NoDup_app.
  - apply Finite.Injective_map_NoDup; [|exact Hy].
    intros a b E. now injection E.
  - exact IH.
  - intros [a b] Hin1 Hin2.
    apply in_map_iff in Hin1 as (b' & E & _). injection E as -> ->.
    apply in_flat_map in Hin2 as (x' & Hx' & Hin2).
    apply in_map_iff in Hin2 as (b'' & E & _). injection E as -> ->.
    contradiction.
Qed.

Lemma range_NoDup (a b : Z) : NoDup (range a b).
Proof.
  unfold range. apply Finite.Injective_map_NoDup; [|apply seq_NoDup].
  intros i j E. lia.
Qed.

(* ------------------------------------------------------------------ *)
(** ** The Sentinel-2 index loop *)
(* ------------------------------------------------------------------ *)

Lemma s2_loop_body_results (svc : SentinelNdviFai.service)
  (st : SentinelNdviFai.state) (ym : Z * Z) :
  SentinelNdviFai.results (SentinelNdviFai.loop_body svc st ym)
  = SentinelNdviFai.results st ++ SentinelNdviFai.month_rows svc ym.
Proof.
  destruct ym as [y m].
  unfold SentinelNdviFai.loop_body, SentinelNdviFai.month_rows. cbn [fst snd].
  destruct (SentinelNdviFai.get_ndvi_fai_monthly_s2 svc y m) as [printed outcome].
  cbn [snd]. destruct outcome as [[r|]|e]; cbn; now rewrite ?app_nil_r.
Qed.

Lemma s2_loop_body_stdout (svc : SentinelNdviFai.service)
  (st : SentinelNdviFai.state) (ym : Z * Z) (l : SentinelNdviFai.line) :
  In l (SentinelNdviFai.stdout st) ->
  In l (SentinelNdviFai.stdout (SentinelNdviFai.loop_body svc st ym)).
Proof.
  intros H. destruct ym as [y m]. unfold SentinelNdviFai.loop_body.
  destruct (SentinelNdviFai.get_ndvi_fai_monthly_s2 svc y m) as [printed outcome].
  destruct outcome as [[r|]|e]; cbn; apply in_or_app; now left.
Qed.

Lemma s2_main_loop_app (svc : SentinelNdviFai.service) (a b : list (Z * Z))
  (st : SentinelNdviFai.state) :
  SentinelNdviFai.main_loop svc (a ++ b) st
  = SentinelNdviFai.main_loop svc b (SentinelNdviFai.main_loop svc a st).
Proof. apply fold_left_app. Qed.

(** The table is the concatenation of what each month contributes. *)
Lemma s2_main_loop_results (svc : SentinelNdviFai.service) (js : list (Z * Z))
  (st : SentinelNdviFai.state) :
  SentinelNdviFai.results (SentinelNdviFai.main_loop svc js st)
  = SentinelNdviFai.results st ++ flat_map (SentinelNdviFai.month_rows svc) js.
Proof.
  revert st. induction js as [|j js IH]; intros st; cbn.
  - now rewrite app_nil_r.
  - unfold SentinelNdviFai.main_loop in IH. rewrite IH, s2_loop_body_results.
    now rewrite app_assoc.
Qed.

Lemma s2_main_loop_stdout (svc : SentinelNdviFai.service) (js : list (Z * Z))
  (st : SentinelNdviFai.state) (l : SentinelNdviFai.line) :
  In l (SentinelNdviFai.stdout st) ->
  In l (SentinelNdviFai.stdout (SentinelNdviFai.main_loop svc js st)).
Proof.
  revert st. induction js as [|j js IH]; intros st H; cbn; [exact H|].
  apply IH. now apply s2_loop_body_stdout.
Qed.

(** A month contributes at most one record, and under its own key. *)
Lemma s2_month_rows_key (svc : SentinelNdviFai.service) (ym : Z * Z)
  (r : SentinelNdviFai.row) :
  In r (SentinelNdviFai.month_rows svc ym) -> SentinelNdviFai.key r = ym.
Proof.
  destruct ym as [y m].
  unfold SentinelNdviFai.month_rows, SentinelNdviFai.get_ndvi_fai_monthly_s2.
  cbn [fst snd].
  destruct (SentinelNdviFai.size_getInfo _) as [n|e]; cbn; [|tauto].
  destruct (n =? 0); cbn; [tauto|].
  destruct (SentinelNdviFai.cloud_getInfo _) as [c|e]; cbn; [|tauto].
  destruct (SentinelNdviFai.area_getInfo _) as [[a|]|e]; cbn; try tauto.
  destruct c as [c|]; cbn; [|tauto].
  intros [<-|[]]. reflexivity.
Qed.

Lemma s2_month_rows_length (svc : SentinelNdviFai.service) (ym : Z * Z) :
  (List.length (SentinelNdviFai.month_rows svc ym) <= 1)%nat.
Proof.
  unfold SentinelNdviFai.month_rows.
  destruct (snd _) as [[r|]|e]; cbn; lia.
Qed.

Lemma s2_keys_are_filtered_jobs (svc : SentinelNdviFai.service) (js : list (Z * Z)) :
  map SentinelNdviFai.key (flat_map (SentinelNdviFai.month_rows svc) js)
  = filter (fun ym => match SentinelNdviFai.month_rows svc ym with
                      | [] => false
                      | _ => true
                      end) js.
Proof.
  induction js as [|j js IH]; cbn; [reflexivity|].
  rewrite map_app, IH.
  pose proof (s2_month_rows_key svc j) as K.
  pose proof (s2_month_rows_length svc j) as L.
  destruct (SentinelNdviFai.month_rows svc j) as [|r [|r' rest]]; cbn in *.
  - reflexivity.
  - now rewrite (K r (or_introl eq_refl)).
  - lia.
Qed.

Lemma s2_empty_month (svc : SentinelNdviFai.service) (y m : Z) :
  SentinelNdviFai.size_getInfo (svc (SentinelNdviFai.filter_window y m)) = Ok 0 ->
  SentinelNdviFai.get_ndvi_fai_monthly_s2 svc y m
  = ([SentinelNdviFai.NoImages y m], Ok None).
Proof.
  intros H. unfold SentinelNdviFai.get_ndvi_fai_monthly_s2. now rewrite H.
Qed.

Lemma s2_rows_without (svc : SentinelNdviFai.service) (ym : Z * Z) :
  SentinelNdviFai.month_rows svc ym = [] ->
  forall js r,
    In r (SentinelNdviFai.results
            (SentinelNdviFai.main_loop svc js SentinelNdviFai.initial)) ->
    SentinelNdviFai.key r <> ym.
Proof.
  intros Hnone js r Hin Hkey.
  rewrite s2_main_loop_results in Hin. cbn in Hin.
  apply in_flat_map in Hin as (j & _ & Hin).
  pose proof (s2_month_rows_key svc j r Hin) as K.
  rewrite Hkey in K. subst j. rewrite Hnone in Hin. exact Hin.
Qed.

Lemma s2_skip_month (svc : SentinelNdviFai.service) (ym : Z * Z)
  (pre post : list (Z * Z)) (st : SentinelNdviFai.state) :
  SentinelNdviFai.month_rows svc ym = [] ->
  SentinelNdviFai.results (SentinelNdviFai.main_loop svc (pre ++ ym :: post) st)
  = SentinelNdviFai.results (SentinelNdviFai.main_loop svc (pre ++ post) st).
Proof.
  intros Hnone. rewrite !s2_main_loop_results, !flat_map_app. cbn.
  now rewrite Hnone.
Qed.

(* ------------------------------------------------------------------ *)
(** ** The radar loop *)
(* ------------------------------------------------------------------ *)

Lemma radar_empty_month (svc : Radar.service) (st : Radar.state) (y m : Z)
  (w : window) :
  month_bounds y m = Ok w ->
  Radar.size_getInfo (svc w) = Ok 0 ->
  Radar.loop_body svc st (y, m)
  = Ok {| Radar.results := Radar.results st;
          Radar.stdout := Radar.stdout st ++ [Radar.NoImages y m] |}.
Proof.
  intros Hw Hs. unfold Radar.loop_body. rewrite Hw. cbn [bind].
  rewrite Hs. reflexivity.
Qed.

(** What the loop leaves in [results] does not depend on what was printed. *)
Lemma radar_results_ignore_stdout (svc : Radar.service) (js : list (Z * Z)) :
  forall st st',
    Radar.results st = Radar.results st' ->
    Radar.final_results (Radar.main_loop svc js st)
    = Radar.final_results (Radar.main_loop svc js st').
Proof.
  unfold Radar.main_loop.
  induction js as [|[y m] js IH]; intros st st' E; cbn.
  - now rewrite E.
  - destruct (month_bounds y m) as [w|e]; cbn; [|reflexivity].
    destruct (Radar.size_getInfo (svc w)) as [n|e]; cbn; [|reflexivity].
    destruct (n =? 0); cbn.
    + now apply IH.
    + destruct (Radar.date_getInfo (svc w)) as [d|e]; cbn; [|reflexivity].
      destruct (Radar.area_print_getInfo (svc w)) as [a|e]; cbn; [|reflexivity].
      apply IH. cbn. now rewrite E.
Qed.

Lemma radar_skip_month (svc : Radar.service) (y m : Z) (w : window)
  (pre post : list (Z * Z)) :
  month_bounds y m = Ok w ->
  Radar.size_getInfo (svc w) = Ok 0 ->
  Radar.run svc (pre ++ (y, m) :: post) = Radar.run svc (pre ++ post).
Proof.
  intros Hw Hs. unfold Radar.run, Radar.main_loop.
  rewrite !for_each_app.
  destruct (for_each (Radar.loop_body svc) Radar.initial pre) as [st|e];
    cbn [bind]; [|reflexivity].
  cbn [for_each]. rewrite (radar_empty_month svc st y m w Hw Hs).
  f_equal.
  apply (radar_results_ignore_stdout svc post). reflexivity.
Qed.

Lemma radar_rows_without (svc : Radar.service) (y m : Z) (w : window) :
  month_bounds y m = Ok w ->
  Radar.size_getInfo (svc w) = Ok 0 ->
  forall js table,
    Radar.run svc js = Ok table ->
    forall r, In r table -> Radar.key r <> (y, m).
Proof.
  intros Hw Hs js table Hrun r Hin.
  unfold Radar.run, Radar.final_results, Radar.main_loop in Hrun.
  destruct (for_each (Radar.loop_body svc) Radar.initial js) as [st|e] eqn:E;
    cbn in Hrun; [|discriminate].
  injection Hrun as <-.
  unfold Radar.dataframe in Hin. apply in_map_iff in Hin as (r0 & <- & Hin0).
  unfold Radar.key. cbn.
  revert r0 Hin0.
  apply (for_each_invariant
           (fun s => forall r0, In r0 (Radar.results s) ->
                                (Radar.Year r0, Radar.Month r0) <> (y, m))
           (Radar.loop_body svc) js) with (st := Radar.initial); [| |exact E].
  - intros s [y' m'] s' _ HP Hbody r0 Hin0.
    unfold Radar.loop_body in Hbody.
    destruct (month_bounds y' m') as [w'|e'] eqn:Hw'; cbn in Hbody; [|discriminate].
    destruct (Radar.size_getInfo (svc w')) as [n|e'] eqn:Hs'; cbn in Hbody;
      [|discriminate].
    destruct (n =? 0) eqn:Hn.
    + injection Hbody as <-. cbn in Hin0. now apply HP.
    + destruct (Radar.date_getInfo (svc w')) as [d|e']; cbn in Hbody; [|discriminate].
      destruct (Radar.area_print_getInfo (svc w')) as [a|e']; cbn in Hbody;
        [|discriminate].
      injection Hbody as <-. cbn in Hin0.
      apply in_app_or in Hin0 as [Hin0|[<-|[]]]; [now apply HP|].
      cbn. intros K. injection K as -> ->.
      rewrite Hw in Hw'. injection Hw' as <-.
      rewrite Hs in Hs'. injection Hs' as <-. discriminate.
  - intros r0 [].
Qed.

(** C3: a month whose filtered collection is empty gives no record and
    does not stop the loop.  In the Sentinel-2 index script the function
    prints its line and returns [None]; the table of a run that goes
    through the month is the table of the run without it, and no record of
    any run carries its (year, month).  The same holds for the radar
    script, whose loop takes the [continue]. *)
Theorem C3_empty_month_skipped
  (svc : SentinelNdviFai.service) (rsvc : Radar.service)
  (y m : Z) (w : window) (pre post : list (Z * Z)) :
  SentinelNdviFai.size_getInfo (svc (SentinelNdviFai.filter_window y m)) = Ok 0 ->
  month_bounds y m = Ok w ->
  Radar.size_getInfo (rsvc w) = Ok 0 ->
  (SentinelNdviFai.get_ndvi_fai_monthly_s2 svc y m
   = ([SentinelNdviFai.NoImages y m], Ok None)
   /\ SentinelNdviFai.results
        (SentinelNdviFai.main_loop svc (pre ++ (y, m) :: post) SentinelNdviFai.initial)
      = SentinelNdviFai.results
          (SentinelNdviFai.main_loop svc (pre ++ post) SentinelNdviFai.initial)
   /\ In (SentinelNdviFai.NoImages y m)
        (SentinelNdviFai.stdout
           (SentinelNdviFai.main_loop svc (pre ++ (y, m) :: post)
              SentinelNdviFai.initial))
   /\ (forall js r,
         In r (SentinelNdviFai.results
                 (SentinelNdviFai.main_loop svc js SentinelNdviFai.initial)) ->
         SentinelNdviFai.key r <> (y, m)))
  /\ (Radar.run rsvc (pre ++ (y, m) :: post) = Radar.run rsvc (pre ++ post)
      /\ (forall js table,
            Radar.run rsvc js = Ok table ->
            forall r, In r table -> Radar.key r <> (y, m))).
Proof.
  intros Hs2 Hw Hs1.
  pose proof (s2_empty_month svc y m Hs2) as Hget.
  assert (Hnone : SentinelNdviFai.month_rows svc (y, m) = []).
  { unfold SentinelNdviFai.month_rows. cbn [fst snd]. now rewrite Hget. }
  split; [split; [exact Hget|split; [|split]]|split].
  - now apply s2_skip_month.
  - rewrite s2_main_loop_app. cbn [SentinelNdviFai.main_loop fold_left].
    apply s2_main_loop_stdout.
    unfold SentinelNdviFai.loop_body at 1. rewrite Hget. cbn.
    apply in_or_app. right. now left.
  - now apply s2_rows_without.
  - now apply (radar_skip_month rsvc y m w).
  - now apply (radar_rows_without rsvc y m w).
Qed.

Lemma C3_empty_month_skipped_witness :
  (SentinelNdviFai.get_ndvi_fai_monthly_s2 Samples.s2_service 2016 11
   = ([SentinelNdviFai.NoImages 2016 11], Ok None)
   /\ SentinelNdviFai.results
        (SentinelNdviFai.main_loop Samples.s2_service
           ([(2016, 10)] ++ (2016, 11) :: [(2017, 10)]) SentinelNdviFai.initial)
      = SentinelNdviFai.results
          (SentinelNdviFai.main_loop Samples.s2_service
             ([(2016, 10)] ++ [(2017, 10)]) SentinelNdviFai.initial)
   /\ In (SentinelNdviFai.NoImages 2016 11)
        (SentinelNdviFai.stdout
           (SentinelNdviFai.main_loop Samples.s2_service
              ([(2016, 10)] ++ (2016, 11) :: [(2017, 10)])
              SentinelNdviFai.initial))
   /\ (forall js r,
         In r (SentinelNdviFai.results
                 (SentinelNdviFai.main_loop Samples.s2_service js
                    SentinelNdviFai.initial)) ->
         SentinelNdviFai.key r <> (2016, 11)))
  /\ (Radar.run Samples.radar_service ([(2016, 10)] ++ (2016, 11) :: [(2017, 10)])
      = Radar.run Samples.radar_service ([(2016, 10)] ++ [(2017, 10)])
      /\ (forall js table,
            Radar.run Samples.radar_service js = Ok table ->
            forall r, In r table -> Radar.key r <> (2016, 11))).
Proof.
  apply (C3_empty_month_skipped Samples.s2_service Samples.radar_service
           2016 11 (mkdate 2016 11 1, mkdate 2016 11 30)); reflexivity.
Defined.

Example radar_run_sample :
  Radar.run Samples.radar_service [(2016, 10); (2016, 11); (2017, 10)]
  = Ok [ {| Radar.tYear := 2016; Radar.tMonth := 10;
            Radar.tDate_of_Satellite_Selected := "2014-10-03";
            Radar.tCloud_Cover_Percentage := CInt 0;
            Radar.tArea_of_Water_Hyacinth := CFloat (125 # 10) |};
         {| Radar.tYear := 2017; Radar.tMonth := 10;
            Radar.tDate_of_Satellite_Selected := "2014-10-03";
            Radar.tCloud_Cover_Percentage := CInt 0;
            Radar.tArea_of_Water_Hyacinth := CFloat (125 # 10) |} ].
Proof. reflexivity. Qed.

(* ------------------------------------------------------------------ *)
(** ** Failures of the remote service *)
(* ------------------------------------------------------------------ *)

Lemma s2_failed_month_rows (svc : SentinelNdviFai.service) (y m : Z) (e : exn) :
  snd (SentinelNdviFai.get_ndvi_fai_monthly_s2 svc y m) = Raise e ->
  SentinelNdviFai.month_rows svc (y, m) = [].
Proof.
  intros H. unfold SentinelNdviFai.month_rows. cbn [fst snd]. now rewrite H.
Qed.

Lemma s2_failed_month_logged (svc : SentinelNdviFai.service)
  (st : SentinelNdviFai.state) (y m : Z) (e : exn) :
  snd (SentinelNdviFai.get_ndvi_fai_monthly_s2 svc y m) = Raise e ->
  SentinelNdviFai.results (SentinelNdviFai.loop_body svc st (y, m))
  = SentinelNdviFai.results st
  /\ In (SentinelNdviFai.Error y m e)
       (SentinelNdviFai.stdout (SentinelNdviFai.loop_body svc st (y, m))).
Proof.
  intros H. unfold SentinelNdviFai.loop_body.
  destruct (SentinelNdviFai.get_ndvi_fai_monthly_s2 svc y m) as [printed outcome].
  cbn [snd] in H. subst outcome. cbn. split; [reflexivity|].
  apply in_or_app. right. apply in_or_app. right. now left.
Qed.

(** Each failing round trip of the monthly function is an exception of
    the function. *)
Lemma s2_round_trip_failures (svc : SentinelNdviFai.service) (y m : Z) (e : exn) :
  let r := svc (SentinelNdviFai.filter_window y m) in
  (SentinelNdviFai.size_getInfo r = Raise e
   \/ (exists n, SentinelNdviFai.size_getInfo r = Ok n /\ n <> 0
                 /\ SentinelNdviFai.cloud_getInfo r = Raise e)
   \/ (exists n c, SentinelNdviFai.size_getInfo r = Ok n /\ n <> 0
                   /\ SentinelNdviFai.cloud_getInfo r = Ok c
                   /\ SentinelNdviFai.area_getInfo r = Raise e)) ->
  snd (SentinelNdviFai.get_ndvi_fai_monthly_s2 svc y m) = Raise e.
Proof.
  intros r H. unfold SentinelNdviFai.get_ndvi_fai_monthly_s2. fold r.
  destruct H as [H|[(n & Hn & Hz & H)|(n & c & Hn & Hz & Hc & H)]].
  - now rewrite H.
  - rewrite Hn. apply Z.eqb_neq in Hz. rewrite Hz. cbn. now rewrite H.
  - rewrite Hn. apply Z.eqb_neq in Hz. rewrite Hz. cbn. rewrite Hc. cbn.
    now rewrite H.
Qed.

Lemma chirps_main_loop_rows (js : list (Z * Z)) :
  (forall ym, In ym js -> 1 <= fst ym <= 9999 /\ 1 <= snd ym <= 12) ->
  forall rs, exists rows,
    Chirps.main_loop js rs = Ok (rs ++ rows)
    /\ map (fun r => (Chirps.Year r, Chirps.Month r)) rows = js
    /\ (forall r, In r rows ->
          month_bounds (Chirps.Year r) (Chirps.Month r)
          = Ok (Chirps.Total_mm_per_month r)).
Proof.
  unfold Chirps.main_loop.
  induction js as [|[y m] js IH]; intros Hvalid rs.
  - exists []. cbn. rewrite app_nil_r. repeat split. intros r [].
  - destruct (Hvalid (y, m) (or_introl eq_refl)) as [Hy Hm]. cbn in Hy, Hm.
    destruct (month_bounds_ok y m Hy Hm) as (n & _ & Hw).
    destruct (IH (fun ym H => Hvalid ym (or_intror H))
                 (rs ++ [{| Chirps.Year := y; Chirps.Month := m;
                            Chirps.Total_mm_per_month :=
                              (mkdate y m 1, mkdate y m n) |}]))
      as (rows & Hrun & Hkeys & Hbounds).
    eexists (_ :: rows). cbn. rewrite Hw. cbn. rewrite Hrun.
    rewrite <- app_assoc. cbn. split; [reflexivity|]. split.
    + now rewrite Hkeys.
    + intros r [<-|Hin]; [exact Hw|now apply Hbounds].
Qed.

(** C4, as stated, fails for the rainfall script: a month whose retrieval
    fails is not skipped, its record is in the table with an empty total. *)
Lemma C4_failed_month_kept_counterexample :
  Chirps.run Samples.failing_chirps [(2013, 10)]
  = Ok [ {| Chirps.tYear := 2013; Chirps.tMonth := 10;
            Chirps.tTotal_mm_per_month := CNone |} ].
Proof. reflexivity. Qed.

(** The loop shared by the index scripts, for any monthly function. *)
Lemma index_loop_body_results {row : Type}
  (monthly : Z -> Z -> list SentinelNdviFai.line * result (option row))
  (area cloud : row -> Q) (st : IndexScripts.state row) (ym : Z * Z) :
  IndexScripts.results (IndexScripts.loop_body monthly area cloud st ym)
  = IndexScripts.results st ++ IndexScripts.month_rows monthly ym.
Proof.
  destruct ym as [y m].
  unfold IndexScripts.loop_body, IndexScripts.month_rows. cbn [fst snd].
  destruct (monthly y m) as [printed outcome]. cbn [snd].
  destruct outcome as [[r|]|e]; cbn; now rewrite ?app_nil_r.
Qed.

Lemma index_main_loop_results {row : Type}
  (monthly : Z -> Z -> list SentinelNdviFai.line * result (option row))
  (area cloud : row -> Q) (js : list (Z * Z)) (st : IndexScripts.state row) :
  IndexScripts.results (IndexScripts.main_loop monthly area cloud js st)
  = IndexScripts.results st ++ flat_map (IndexScripts.month_rows monthly) js.
Proof.
  revert st. induction js as [|j js IH]; intros st; cbn.
  - now rewrite app_nil_r.
  - unfold IndexScripts.main_loop in IH. rewrite IH, index_loop_body_results.
    now rewrite app_assoc.
Qed.

Lemma index_loop_body_stdout {row : Type}
  (monthly : Z -> Z -> list SentinelNdviFai.line * result (option row))
  (area cloud : row -> Q) (st : IndexScripts.state row) (ym : Z * Z)
  (l : SentinelNdviFai.line) :
  In l (IndexScripts.stdout st) ->
  In l (IndexScripts.stdout (IndexScripts.loop_body monthly area cloud st ym)).
Proof.
  intros H. destruct ym as [y m]. unfold IndexScripts.loop_body.
  destruct (monthly y m) as [printed outcome].
  destruct outcome as [[r|]|e]; cbn; apply in_or_app; now left.
Qed.

Lemma index_main_loop_stdout {row : Type}
  (monthly : Z -> Z -> list SentinelNdviFai.line * result (option row))
  (area cloud : row -> Q) (js : list (Z * Z)) (st : IndexScripts.state row)
  (l : SentinelNdviFai.line) :
  In l (IndexScripts.stdout st) ->
  In l (IndexScripts.stdout (IndexScripts.main_loop monthly area cloud js st)).
Proof.
  revert st. induction js as [|j js IH]; intros st H; cbn; [exact H|].
  apply IH. now apply index_loop_body_stdout.
Qed.

Lemma index_failed_month_logged {row : Type}
  (monthly : Z -> Z -> list SentinelNdviFai.line * result (option row))
  (area cloud : row -> Q) (st : IndexScripts.state row) (y m : Z) (e : exn) :
  snd (monthly y m) = Raise e ->
  In (SentinelNdviFai.Error y m e)
     (IndexScripts.stdout (IndexScripts.loop_body monthly area cloud st (y, m))).
Proof.
  intros H. unfold IndexScripts.loop_body.
  destruct (monthly y m) as [printed outcome].
  cbn [snd] in H. subst outcome. cbn.
  apply in_or_app. right. apply in_or_app. right. now left.
Qed.

(** The loop of LakeTana-NDVI-FAI-Sentinel.py is the shared loop around
    its monthly function. *)
Lemma s2_loop_is_index_loop (svc : SentinelNdviFai.service) (js : list (Z * Z)) :
  forall st : SentinelNdviFai.state,
    IndexScripts.main_loop (SentinelNdviFai.get_ndvi_fai_monthly_s2 svc)
      SentinelNdviFai.Area_of_Water_Hyacinth
      SentinelNdviFai.Cloud_Cover_Percentage js
      {| IndexScripts.results := SentinelNdviFai.results st;
         IndexScripts.stdout := SentinelNdviFai.stdout st |}
    = {| IndexScripts.results :=
           SentinelNdviFai.results (SentinelNdviFai.main_loop svc js st);
         IndexScripts.stdout :=
           SentinelNdviFai.stdout (SentinelNdviFai.main_loop svc js st) |}.
Proof.
  induction js as [|[y m] js IH]; intros st; [reflexivity|].
  cbn [IndexScripts.main_loop SentinelNdviFai.main_loop fold_left].
  unfold IndexScripts.main_loop, SentinelNdviFai.main_loop in IH.
  rewrite <- IH. f_equal.
  unfold IndexScripts.loop_body, SentinelNdviFai.loop_body.
  destruct (SentinelNdviFai.get_ndvi_fai_monthly_s2 svc y m) as [printed outcome].
  destruct outcome as [[r|]|e]; reflexivity.
Qed.

(** The export variant calls the monthly function of the index script. *)
Lemma export_monthly_function (svc : SentinelNdviFai.service) (y m : Z) :
  SentinelExportImage.get_ndvi_fai_monthly_s2 svc y m
  = SentinelNdviFai.get_ndvi_fai_monthly_s2 svc y m.
Proof. reflexivity. Qed.

Lemma export_failed_month_raises (svc : SentinelNdviFai.service)
  (st : SentinelNdviFai.state) (y m : Z) (e : exn) :
  snd (SentinelNdviFai.get_ndvi_fai_monthly_s2 svc y m) = Raise e ->
  SentinelExportImage.loop_body svc st (y, m) = Raise e.
Proof.
  intros H. unfold SentinelExportImage.loop_body.
  rewrite export_monthly_function.
  destruct (SentinelNdviFai.get_ndvi_fai_monthly_s2 svc y m) as [printed outcome].
  cbn [snd] in H. now subst outcome.
Qed.

(** A turn that raises in every state ends the loop with an exception:
    its own, when the turns before it returned. *)
Lemma for_each_raise {S J} (body : S -> J -> result S) (x : J) (e : exn) :
  (forall st, body st x = Raise e) ->
  forall (pre post : list J) (st : S),
    (forall st', for_each body st pre = Ok st' ->
                 for_each body st (pre ++ x :: post) = Raise e)
    /\ exists e', for_each body st (pre ++ x :: post) = Raise e'.
Proof.
  intros Hx pre post st. rewrite for_each_app.
  destruct (for_each body st pre) as [st1|e1]; cbn [bind for_each].
  - rewrite Hx. split; [reflexivity|now exists e].
  - split; [discriminate|now exists e1].
Qed.

Example export_image_run_aborts :
  SentinelExportImage.main
    (fun _ => {| SentinelNdviFai.size_getInfo := Ok 2;
                 SentinelNdviFai.cloud_getInfo :=
                   Raise (EEException "Computation timed out.");
                 SentinelNdviFai.area_getInfo := Ok (Some 3000000%Q) |})
  = Raise (EEException "Computation timed out.").
Proof. reflexivity. Qed.

Example export_image_run_empty_november :
  SentinelExportImage.main Samples.s2_service
  = Ok {| SentinelNdviFai.results := [];
          SentinelNdviFai.stdout := [SentinelNdviFai.NoImages 2019 11] |}.
Proof. reflexivity. Qed.

(** C4 (amended): in the index scripts whose loop wraps the monthly call
    in try/except (LakeTana-NDVI-FAI-Sentinel.py, and with the same loop
    LakeTana-by-FAI-NDVI-SWIR-Sentinel.py and the three Landsat scripts)
    an exception raised while a month is processed is caught and printed,
    the month gives no record and the loop goes on: the table is that of
    the run without the month.  The export variant of the Sentinel-2
    script calls the same monthly function with no try/except: the same
    exception ends its loop, the months after it are not processed and
    no table is left.  In the rainfall script the run returns and has one
    record per month, in order, but a month whose retrieval fails keeps
    its record, with an empty total. *)
Theorem C4_month_failure_is_local
  (svc : SentinelNdviFai.service) (y m : Z) (e : exn) (pre post : list (Z * Z))
  (csvc : Chirps.service) (js : list (Z * Z)) :
  snd (SentinelNdviFai.get_ndvi_fai_monthly_s2 svc y m) = Raise e ->
  (forall ym, In ym js -> 1 <= fst ym <= 9999 /\ 1 <= snd ym <= 12) ->
  (SentinelNdviFai.results
     (SentinelNdviFai.main_loop svc (pre ++ (y, m) :: post) SentinelNdviFai.initial)
   = SentinelNdviFai.results
       (SentinelNdviFai.main_loop svc (pre ++ post) SentinelNdviFai.initial)
   /\ In (SentinelNdviFai.Error y m e)
        (SentinelNdviFai.stdout
           (SentinelNdviFai.main_loop svc (pre ++ (y, m) :: post)
              SentinelNdviFai.initial))
   /\ (forall js' r,
         In r (SentinelNdviFai.results
                 (SentinelNdviFai.main_loop svc js' SentinelNdviFai.initial)) ->
         SentinelNdviFai.key r <> (y, m)))
  /\ (forall (row : Type)
             (monthly : Z -> Z -> list SentinelNdviFai.line * result (option row))
             (area cloud : row -> Q),
        snd (monthly y m) = Raise e ->
        IndexScripts.results
          (IndexScripts.main_loop monthly area cloud (pre ++ (y, m) :: post)
             (IndexScripts.initial row))
        = IndexScripts.results
            (IndexScripts.main_loop monthly area cloud (pre ++ post)
               (IndexScripts.initial row))
        /\ In (SentinelNdviFai.Error y m e)
             (IndexScripts.stdout
                (IndexScripts.main_loop monthly area cloud (pre ++ (y, m) :: post)
                   (IndexScripts.initial row))))
  /\ (SentinelExportImage.main_loop svc ((y, m) :: post) SentinelNdviFai.initial
      = Raise e
      /\ (forall st,
            SentinelExportImage.main_loop svc pre SentinelNdviFai.initial = Ok st ->
            SentinelExportImage.main_loop svc (pre ++ (y, m) :: post)
              SentinelNdviFai.initial = Raise e)
      /\ (exists e',
            SentinelExportImage.main_loop svc (pre ++ (y, m) :: post)
              SentinelNdviFai.initial = Raise e'))
  /\ (exists table,
        Chirps.run csvc js = Ok table
        /\ map Chirps.key table = js
        /\ (forall y' m' w e',
              In (y', m') js -> month_bounds y' m' = Ok w -> csvc w = Raise e' ->
              In {| Chirps.tYear := y'; Chirps.tMonth := m';
                    Chirps.tTotal_mm_per_month := CNone |} table)).
Proof.
  intros Hraise Hvalid.
  pose proof (s2_failed_month_rows svc y m e Hraise) as Hnone.
  split; [split; [|split]|split; [|split; [split; [|split]|]]].
  - now apply s2_skip_month.
  - rewrite s2_main_loop_app. cbn [SentinelNdviFai.main_loop fold_left].
    apply s2_main_loop_stdout. now apply s2_failed_month_logged.
  - now apply s2_rows_without.
  - intros row monthly area cloud Hm. split.
    + rewrite !index_main_loop_results, !flat_map_app. cbn [flat_map].
      unfold IndexScripts.month_rows at 2. cbn [fst snd]. now rewrite Hm.
    + unfold IndexScripts.main_loop. rewrite fold_left_app. cbn [fold_left].
      apply index_main_loop_stdout. now apply index_failed_month_logged.
  - unfold SentinelExportImage.main_loop. cbn [for_each].
    now rewrite (export_failed_month_raises svc _ y m e Hraise).
  - intros st. unfold SentinelExportImage.main_loop.
    apply (for_each_raise (SentinelExportImage.loop_body svc) (y, m) e).
    intros st0. now apply export_failed_month_raises.
  - unfold SentinelExportImage.main_loop.
    apply (for_each_raise (SentinelExportImage.loop_body svc) (y, m) e).
    intros st0. now apply export_failed_month_raises.
  - destruct (chirps_main_loop_rows js Hvalid []) as (rows & Hrun & Hkeys & Hbounds).
    exists (Chirps.dataframe csvc rows). unfold Chirps.run. rewrite Hrun. cbn.
    split; [reflexivity|]. split.
    + unfold Chirps.dataframe. rewrite map_map. exact Hkeys.
    + intros y' m' w e' Hin Hw Hfail.
      rewrite <- Hkeys in Hin. apply in_map_iff in Hin as (r & Hk & Hin).
      injection Hk as <- <-.
      unfold Chirps.dataframe. apply in_map_iff. exists r. split; [|exact Hin].
      pose proof (Hbounds r Hin) as Hb. rewrite Hw in Hb. injection Hb as <-.
      unfold Chirps.get_value. now rewrite Hfail.
Qed.

Lemma C4_month_failure_is_local_witness :
  (SentinelNdviFai.results
     (SentinelNdviFai.main_loop Samples.s2_service
        ([(2016, 10)] ++ (2016, 12) :: [(2017, 10)]) SentinelNdviFai.initial)
   = SentinelNdviFai.results
       (SentinelNdviFai.main_loop Samples.s2_service
          ([(2016, 10)] ++ [(2017, 10)]) SentinelNdviFai.initial)
   /\ In (SentinelNdviFai.Error 2016 12 (EEException "Computation timed out."))
        (SentinelNdviFai.stdout
           (SentinelNdviFai.main_loop Samples.s2_service
              ([(2016, 10)] ++ (2016, 12) :: [(2017, 10)])
              SentinelNdviFai.initial))
   /\ (forall js' r,
         In r (SentinelNdviFai.results
                 (SentinelNdviFai.main_loop Samples.s2_service js'
                    SentinelNdviFai.initial)) ->
         SentinelNdviFai.key r <> (2016, 12)))
  /\ (IndexScripts.results
        (IndexScripts.main_loop
           (SentinelNdviFai.get_ndvi_fai_monthly_s2 Samples.s2_service)
           SentinelNdviFai.Area_of_Water_Hyacinth
           SentinelNdviFai.Cloud_Cover_Percentage
           ([(2016, 10)] ++ (2016, 12) :: [(2017, 10)])
           (IndexScripts.initial SentinelNdviFai.row))
      = IndexScripts.results
          (IndexScripts.main_loop
             (SentinelNdviFai.get_ndvi_fai_monthly_s2 Samples.s2_service)
             SentinelNdviFai.Area_of_Water_Hyacinth
             SentinelNdviFai.Cloud_Cover_Percentage
             ([(2016, 10)] ++ [(2017, 10)])
             (IndexScripts.initial SentinelNdviFai.row))
      /\ In (SentinelNdviFai.Error 2016 12 (EEException "Computation timed out."))
           (IndexScripts.stdout
              (IndexScripts.main_loop
                 (SentinelNdviFai.get_ndvi_fai_monthly_s2 Samples.s2_service)
                 SentinelNdviFai.Area_of_Water_Hyacinth
                 SentinelNdviFai.Cloud_Cover_Percentage
                 ([(2016, 10)] ++ (2016, 12) :: [(2017, 10)])
                 (IndexScripts.initial SentinelNdviFai.row))))
  /\ (SentinelExportImage.main_loop Samples.s2_service
        ((2016, 12) :: [(2017, 10)]) SentinelNdviFai.initial
      = Raise (EEException "Computation timed out.")
      /\ SentinelExportImage.main_loop Samples.s2_service
           ([(2016, 10)] ++ (2016, 12) :: [(2017, 10)]) SentinelNdviFai.initial
         = Raise (EEException "Computation timed out."))
  /\ (exists table,
        Chirps.run Samples.failing_chirps [(2013, 10); (2013, 11)] = Ok table
        /\ map Chirps.key table = [(2013, 10); (2013, 11)]
        /\ (forall y' m' w e',
              In (y', m') [(2013, 10); (2013, 11)] ->
              month_bounds y' m' = Ok w ->
              Samples.failing_chirps w = Raise e' ->
              In {| Chirps.tYear := y'; Chirps.tMonth := m';
                    Chirps.tTotal_mm_per_month := CNone |} table)).
Proof.
  destruct (C4_month_failure_is_local Samples.s2_service 2016 12
              (EEException "Computation timed out.") [(2016, 10)] [(2017, 10)]
              Samples.failing_chirps [(2013, 10); (2013, 11)])
    as (Hs2 & Hidx & (Hx1 & Hx2 & _) & Hrain).
  - reflexivity.
  - intros ym [<-|[<-|[]]]; cbn; lia.
  - split; [exact Hs2|]. split; [|split; [|exact Hrain]].
    + exact (Hidx SentinelNdviFai.row
               (SentinelNdviFai.get_ndvi_fai_monthly_s2 Samples.s2_service)
               SentinelNdviFai.Area_of_Water_Hyacinth
               SentinelNdviFai.Cloud_Cover_Percentage eq_refl).
    + split; [exact Hx1|]. exact (Hx2 _ eq_refl).
Defined.

Example s2_main_loop_sample :
  SentinelNdviFai.main_loop Samples.s2_service [(2016, 10); (2016, 11); (2016, 12)]
    SentinelNdviFai.initial
  = {| SentinelNdviFai.results :=
         [ {| SentinelNdviFai.Year := 2016;
              SentinelNdviFai.Month := 10;
              SentinelNdviFai.Date_of_Satellite_Selected := "2016-10-01";
              SentinelNdviFai.Cloud_Cover_Percentage := round2 (12345 # 1000);
              SentinelNdviFai.Area_of_Water_Hyacinth := round2 (3000000 / 1000000) |} ];
       SentinelNdviFai.stdout :=
         [ SentinelNdviFai.Done 2016 10 (round2 (3000000 / 1000000))
             (round2 (12345 # 1000));
           SentinelNdviFai.NoImages 2016 11;
           SentinelNdviFai.Error 2016 12 (EEException "Computation timed out.") ] |}.
Proof. reflexivity. Qed.

(* ------------------------------------------------------------------ *)
(** ** Records per month *)
(* ------------------------------------------------------------------ *)

Lemma s2_keys_NoDup (svc : SentinelNdviFai.service) (js : list (Z * Z)) :
  NoDup js ->
  NoDup (map SentinelNdviFai.key
           (SentinelNdviFai.results
              (SentinelNdviFai.main_loop svc js SentinelNdviFai.initial))).
Proof.
  intros H. rewrite s2_main_loop_results. cbn [SentinelNdviFai.initial
    SentinelNdviFai.results app].
  rewrite s2_keys_are_filtered_jobs. now apply NoDup_filter.
Qed.

Lemma s2_jobs_NoDup : NoDup SentinelNdviFai.jobs.
Proof.
  apply nested_NoDup; [apply range_NoDup|].
  repeat constructor; cbn; intuition lia.
Qed.

Lemma s2_no_value_month (svc : SentinelNdviFai.service) (y m n : Z)
  (c : option Q) :
  let r := svc (SentinelNdviFai.filter_window y m) in
  (SentinelNdviFai.size_getInfo r = Ok 0
   \/ (SentinelNdviFai.size_getInfo r = Ok n
       /\ SentinelNdviFai.cloud_getInfo r = Ok c
       /\ SentinelNdviFai.area_getInfo r = Ok None)) ->
  SentinelNdviFai.month_rows svc (y, m) = [].
Proof.
  intros r H.
  unfold SentinelNdviFai.month_rows, SentinelNdviFai.get_ndvi_fai_monthly_s2.
  cbn [fst snd]. fold r.
  destruct H as [H|(Hn & Hc & Ha)].
  - now rewrite H.
  - rewrite Hn. destruct (n =? 0); [reflexivity|]. cbn. rewrite Hc. cbn.
    now rewrite Ha.
Qed.

Lemma fold_left_append {A B} (f : A -> B) (xs : list A) (acc : list B) :
  fold_left (fun rs x => rs ++ [f x]) xs acc = acc ++ map f xs.
Proof.
  revert acc. induction xs as [|x xs IH]; intros acc; cbn.
  - now rewrite app_nil_r.
  - rewrite IH. now rewrite <- app_assoc.
Qed.

Lemma temperature_row_key (svc : Temperature.service) (w : window) (y m : Z)
  (v : string * string * string * Temperature.conversion) :
  Temperature.key (Temperature.variable_row svc w y m v) = (y, m).
Proof.
  destruct v as [[[band name] unit] c]. unfold Temperature.variable_row.
  destruct (Temperature.try_block _ _) as [[[mn mx] av]|e]; reflexivity.
Qed.

Lemma temperature_main_loop_rows (svc : Temperature.service) (js : list (Z * Z)) :
  (forall ym, In ym js -> 1 <= fst ym <= 9999 /\ 1 <= snd ym <= 12) ->
  forall rs, exists rows,
    Temperature.main_loop svc js rs = Ok (rs ++ rows)
    /\ map Temperature.key rows = flat_map (fun ym => repeat ym 6) js
    /\ (forall y m w v,
          In (y, m) js -> month_bounds y m = Ok w ->
          In v Temperature.variables ->
          In (Temperature.variable_row svc w y m v) rows).
Proof.
  unfold Temperature.main_loop.
  induction js as [|[y m] js IH]; intros Hvalid rs.
  - exists []. cbn. rewrite app_nil_r. repeat split. intros y m w v [].
  - destruct (Hvalid (y, m) (or_introl eq_refl)) as [Hy Hm]. cbn in Hy, Hm.
    destruct (month_bounds_ok y m Hy Hm) as (n & _ & Hw).
    set (w := (mkdate y m 1, mkdate y m n)) in *.
    set (mine := map (Temperature.variable_row svc w y m) Temperature.variables).
    destruct (IH (fun ym H => Hvalid ym (or_intror H)) (rs ++ mine))
      as (rows & Hrun & Hkeys & Hrows).
    exists (mine ++ rows). cbn [for_each Temperature.loop_body].
    rewrite Hw. cbn [bind].
    unfold Temperature.variable_body. rewrite fold_left_append. fold mine.
    rewrite Hrun, <- app_assoc. split; [reflexivity|]. split.
    + rewrite map_app, Hkeys. cbn [flat_map]. f_equal.
      unfold mine. rewrite map_map.
      rewrite (map_ext _ (fun _ => (y, m)) (temperature_row_key svc w y m)).
      reflexivity.
    + intros y' m' w' v [E|Hin] Hw' Hv; apply in_or_app.
      * injection E as <- <-. rewrite Hw in Hw'. injection Hw' as <-.
        left. unfold mine. now apply in_map.
      * right. now apply (Hrows y' m' w' v).
Qed.

(** C6, as stated, fails for the climate script: with no value in any
    reduction, the month 2013-10 gets six records, one per variable, each
    with empty Min, Max and Mean. *)
Lemma C6_null_records_counterexample :
  exists rows,
    Temperature.main_loop Samples.no_data_climate [(2013, 10)] [] = Ok rows
    /\ map Temperature.key rows = repeat (2013, 10) 6
    /\ forallb Temperature.all_null rows = true
    /\ In {| Temperature.Year := 2013; Temperature.Month := 10;
             Temperature.Variable_ := "Specific Humidity (kg/kg)";
             Temperature.Min := CNone; Temperature.Max := CNone;
             Temperature.Mean := CNone |} rows.
Proof.
  eexists. split; [reflexivity|]. split; [reflexivity|]. split; [reflexivity|].
  cbn. tauto.
Qed.

(** C6 (amended): in the Sentinel-2 and Landsat index scripts the table
    has at most one record per (year, month), and a month with an empty
    collection or no reduction value has none.  In the climate script
    every month has one record per variable, six in all, and a variable
    whose statistics cannot be had is appended with empty Min, Max and
    Mean. *)
Theorem C6_records_per_month
  (svc : SentinelNdviFai.service) (tsvc : Temperature.service)
  (js : list (Z * Z)) :
  NoDup js ->
  (forall ym, In ym js -> 1 <= fst ym <= 9999 /\ 1 <= snd ym <= 12) ->
  (NoDup (map SentinelNdviFai.key
            (SentinelNdviFai.results
               (SentinelNdviFai.main_loop svc js SentinelNdviFai.initial)))
   /\ NoDup (map SentinelNdviFai.key
               (SentinelNdviFai.results (SentinelNdviFai.main svc)))
   /\ (forall y m n c,
         (SentinelNdviFai.size_getInfo
            (svc (SentinelNdviFai.filter_window y m)) = Ok 0
          \/ (SentinelNdviFai.size_getInfo
                (svc (SentinelNdviFai.filter_window y m)) = Ok n
              /\ SentinelNdviFai.cloud_getInfo
                   (svc (SentinelNdviFai.filter_window y m)) = Ok c
              /\ SentinelNdviFai.area_getInfo
                   (svc (SentinelNdviFai.filter_window y m)) = Ok None)) ->
         forall js' r,
           In r (SentinelNdviFai.results
                   (SentinelNdviFai.main_loop svc js' SentinelNdviFai.initial)) ->
           SentinelNdviFai.key r <> (y, m)))
  /\ (exists rows,
        Temperature.main_loop tsvc js [] = Ok rows
        /\ map Temperature.key rows = flat_map (fun ym => repeat ym 6) js
        /\ (forall y m w band var_name unit c e,
              In (y, m) js -> month_bounds y m = Ok w ->
              In (band, var_name, unit, c) Temperature.variables ->
              Temperature.try_block (tsvc w band) c = Raise e ->
              In {| Temperature.Year := y; Temperature.Month := m;
                    Temperature.Variable_ :=
                      Temperature.variable_label var_name unit;
                    Temperature.Min := CNone; Temperature.Max := CNone;
                    Temperature.Mean := CNone |} rows)).
Proof.
  intros Hnd Hvalid. split; [split; [|split]|].
  - now apply s2_keys_NoDup.
  - apply s2_keys_NoDup, s2_jobs_NoDup.
  - intros y m n c H. apply s2_rows_without.
    now apply (s2_no_value_month svc y m n c).
  - destruct (temperature_main_loop_rows tsvc js Hvalid [])
      as (rows & Hrun & Hkeys & Hrows).
    exists rows. split; [exact Hrun|]. split; [exact Hkeys|].
    intros y m w band var_name unit c e Hin Hw Hv Hraise.
    pose proof (Hrows y m w _ Hin Hw Hv) as R.
    unfold Temperature.variable_row in R. now rewrite Hraise in R.
Qed.

Lemma C6_records_per_month_witness :
  (NoDup (map SentinelNdviFai.key
            (SentinelNdviFai.results
               (SentinelNdviFai.main_loop Samples.s2_service
                  [(2016, 10); (2016, 11)] SentinelNdviFai.initial)))
   /\ NoDup (map SentinelNdviFai.key
               (SentinelNdviFai.results (SentinelNdviFai.main Samples.s2_service)))
   /\ (forall y m n c,
         (SentinelNdviFai.size_getInfo
            (Samples.s2_service (SentinelNdviFai.filter_window y m)) = Ok 0
          \/ (SentinelNdviFai.size_getInfo
                (Samples.s2_service (SentinelNdviFai.filter_window y m)) = Ok n
              /\ SentinelNdviFai.cloud_getInfo
                   (Samples.s2_service (SentinelNdviFai.filter_window y m)) = Ok c
              /\ SentinelNdviFai.area_getInfo
                   (Samples.s2_service (SentinelNdviFai.filter_window y m))
                 = Ok None)) ->
         forall js' r,
           In r (SentinelNdviFai.results
                   (SentinelNdviFai.main_loop Samples.s2_service js'
                      SentinelNdviFai.initial)) ->
           SentinelNdviFai.key r <> (y, m)))
  /\ (exists rows,
        Temperature.main_loop Samples.no_data_climate [(2016, 10); (2016, 11)] []
        = Ok rows
        /\ map Temperature.key rows
           = flat_map (fun ym => repeat ym 6) [(2016, 10); (2016, 11)]
        /\ (forall y m w band var_name unit c e,
              In (y, m) [(2016, 10); (2016, 11)] -> month_bounds y m = Ok w ->
              In (band, var_name, unit, c) Temperature.variables ->
              Temperature.try_block (Samples.no_data_climate w band) c = Raise e ->
              In {| Temperature.Year := y; Temperature.Month := m;
                    Temperature.Variable_ :=
                      Temperature.variable_label var_name unit;
                    Temperature.Min := CNone; Temperature.Max := CNone;
                    Temperature.Mean := CNone |} rows)).
Proof.
  apply (C6_records_per_month Samples.s2_service Samples.no_data_climate
           [(2016, 10); (2016, 11)]).
  - repeat constructor; cbn; intuition congruence.
  - intros ym [<-|[<-|[]]]; cbn; lia.
Defined.

(* ------------------------------------------------------------------ *)
(** ** The median composite *)
(* ------------------------------------------------------------------ *)

Lemma insert_q_perm (x : Q) (s : list Q) : Permutation (x :: s) (insert_q x s).
Proof.
  induction s as [|y s IH]; cbn; [reflexivity|].
  destruct (Qle_bool x y); [reflexivity|].
  rewrite perm_swap. now constructor.
Qed.

Lemma sort_q_perm (l : list Q) : Permutation l (sort_q l).
Proof.
  induction l as [|x l IH]; cbn; [constructor|].
  rewrite <- insert_q_perm. now constructor.
Qed.

Lemma insert_q_sorted (x : Q) (s : list Q) :
  StronglySorted Qle s -> StronglySorted Qle (insert_q x s).
Proof.
  induction 1 as [|y s Hs IH Hy]; cbn.
  - repeat constructor.
  - destruct (Qle_bool x y) eqn:E.
    + apply Qle_bool_iff in E. constructor; [now constructor|].
      constructor; [exact E|].
      eapply Forall_impl; [|exact Hy]. intros z Hz. cbn in Hz. lra.
    + assert (L : (y <= x)%Q).
      { destruct (Qlt_le_dec y x) as [L|L]; [lra|].
        apply Qle_bool_iff in L. congruence. }
      constructor; [exact IH|].
      apply (Permutation_Forall (insert_q_perm x s)). now constructor.
Qed.

Lemma sort_q_sorted (l : list Q) : StronglySorted Qle (sort_q l).
Proof.
  induction l as [|x l IH]; cbn; [constructor|]. now apply insert_q_sorted.
Qed.

Lemma filter_length_perm {A} (f : A -> bool) (l l' : list A) :
  Permutation l l' -> List.length (filter f l) = List.length (filter f l').
Proof.
  induction 1 as [|x l l' _ IH|x y l|l l' l'' _ IH1 _ IH2]; cbn.
  - reflexivity.
  - destruct (f x); cbn; now rewrite IH.
  - destruct (f x), (f y); reflexivity.
  - now rewrite IH1.
Qed.

Lemma sorted_nth_le (s : list Q) :
  StronglySorted Qle s ->
  forall i j, (i <= j < List.length s)%nat -> (nth i s 0 <= nth j s 0)%Q.
Proof.
  induction 1 as [|a s Hs IH Ha]; intros i j Hij; cbn in Hij; [lia|].
  destruct i as [|i], j as [|j]; cbn; try lia.
  - lra.
  - rewrite Forall_forall in Ha. apply Ha, nth_In. lia.
  - apply IH. lia.
Qed.

Lemma sorted_count_le (m : Q) (s : list Q) :
  StronglySorted Qle s ->
  forall i, (i < List.length s)%nat -> (nth i s 0 <= m)%Q ->
            (i + 1 <= count_le m s)%nat.
Proof.
  unfold count_le.
  induction 1 as [|a s Hs IH Ha]; intros i Hi Hm; cbn in Hi; [lia|].
  assert (Am : Qle_bool a m = true).
  { apply Qle_bool_iff.
    apply Qle_trans with (y := nth i (a :: s) 0%Q); [|exact Hm].
    apply (sorted_nth_le (a :: s) (SSorted_cons a Hs Ha) 0 i). cbn. lia. }
  cbn. rewrite Am. cbn.
  destruct i as [|i]; [lia|].
  cbn in Hm. specialize (IH i ltac:(lia) Hm). lia.
Qed.

Lemma count_ge_all (m : Q) (s : list Q) :
  Forall (Qle m) s -> count_ge m s = List.length s.
Proof.
  unfold count_ge. induction 1 as [|x s Hx _ IH]; cbn; [reflexivity|].
  apply Qle_bool_iff in Hx. rewrite Hx. cbn. now rewrite IH.
Qed.

Lemma sorted_count_ge (m : Q) (s : list Q) :
  StronglySorted Qle s ->
  forall j, (j < List.length s)%nat -> (m <= nth j s 0)%Q ->
            (List.length s - j <= count_ge m s)%nat.
Proof.
  induction 1 as [|a s Hs IH Ha]; intros j Hj Hm; cbn in Hj; [lia|].
  destruct j as [|j].
  - cbn in Hm. rewrite count_ge_all; [lia|].
    constructor; [exact Hm|].
    eapply Forall_impl; [|exact Ha]. intros z Hz. cbn in Hz. lra.
  - cbn in Hm. specialize (IH j ltac:(lia) Hm).
    unfold count_ge in *. cbn. destruct (Qle_bool m a); cbn; lia.
Qed.

Lemma median_q_none (l : list Q) : median_q l = None <-> l = [].
Proof.
  split; [|intros ->; reflexivity].
  destruct l as [|x l]; [reflexivity|].
  unfold median_q.
  pose proof (Permutation_length (sort_q_perm (x :: l))) as L.
  destruct (List.length (sort_q (x :: l))) as [|n]; [discriminate L|].
  destruct (Nat.even (S n)); intros H; discriminate H.
Qed.

(** The median reducer returns a median of its inputs. *)
Lemma median_q_is_median (l : list Q) (v : Q) :
  median_q l = Some v -> is_median v l.
Proof.
  intros Hv. unfold median_q in Hv. cbv zeta in Hv.
  unfold is_median.
  pose proof (sort_q_perm l) as P.
  pose proof (sort_q_sorted l) as S.
  unfold count_le at 1. unfold count_ge at 1.
  rewrite (filter_length_perm (fun x => Qle_bool x v) l (sort_q l) P).
  rewrite (filter_length_perm (fun x => Qle_bool v x) l (sort_q l) P).
  rewrite (Permutation_length P).
  fold (count_le v (sort_q l)). fold (count_ge v (sort_q l)).
  remember (sort_q l) as s eqn:Es.
  remember (List.length s) as n eqn:En.
  remember (n / 2)%nat as h eqn:Eh.
  assert (D : (n = 2 * h + n mod 2)%nat) by (subst h; apply Nat.div_mod_eq).
  assert (U : (n mod 2 < 2)%nat) by (apply Nat.mod_upper_bound; lia).
  assert (Pos : (0 < n)%nat) by (destruct n; [discriminate Hv|lia]).
  assert (Hv' : (if Nat.even n
                 then Some ((nth (h - 1) s 0 + nth h s 0) / 2)%Q
                 else Some (nth h s 0%Q)) = Some v)
    by (destruct n; [lia|exact Hv]).
  clear Hv. rewrite En in Pos.
  destruct (Nat.even n) eqn:Ev; injection Hv' as <-.
  - apply Nat.even_spec in Ev. destruct Ev as (k & Hk).
    assert (K : h = k) by lia.
    pose proof (sorted_nth_le s S (h - 1) h ltac:(lia)) as Hle.
    split.
    + assert (B : (nth (h - 1) s 0 <= (nth (h - 1) s 0 + nth h s 0) / 2)%Q)
        by (apply Qle_shift_div_l; lra).
      pose proof (sorted_count_le _ s S (h - 1) ltac:(lia) B) as C. lia.
    + assert (B : ((nth (h - 1) s 0 + nth h s 0) / 2 <= nth h s 0)%Q)
        by (apply Qle_shift_div_r; lra).
      pose proof (sorted_count_ge _ s S h ltac:(lia) B) as C. lia.
  - assert (Od : Nat.odd n = true) by (rewrite <- Nat.negb_even, Ev; reflexivity).
    apply Nat.odd_spec in Od. destruct Od as (k & Hk).
    assert (K : h = k) by lia.
    split.
    + pose proof (sorted_count_le (nth h s 0%Q) s S h ltac:(lia) ltac:(lra)) as C.
      lia.
    + pose proof (sorted_count_ge (nth h s 0%Q) s S h ltac:(lia) ltac:(lra)) as C.
      lia.
Qed.

Lemma median_composite_is_median (c : collection) (l : loc) (b : string) (v : Q) :
  median c l b = Some v -> is_median v (stack c l b).
Proof. apply median_q_is_median. Qed.

Lemma median_composite_defined (c : collection) (l : loc) (b : string) :
  stack c l b <> [] -> exists v, median c l b = Some v.
Proof.
  intros H. unfold median. destruct (median_q (stack c l b)) as [v|] eqn:E.
  - now exists v.
  - apply median_q_none in E. contradiction.
Qed.

Lemma clip_value (roi : geometry) (r : loc -> bands) (l : loc) (b : string) (v : Q) :
  clip roi r l b = Some v -> roi l = true /\ r l b = Some v.
Proof. unfold clip. destruct (roi l); [tauto|discriminate]. Qed.

Example median_of_three_images :
  median Samples.three_images (0, 0) "B4"%string = Some 2%Q.
Proof. reflexivity. Qed.

(** C5, as stated, fails for the fusion script: its optical image is the
    least cloudy image of the month and its radar image is the mosaic.
    On three images holding 2, 1 and 5 both give 5, which is not a median
    of the three values; the median composite gives 2. *)
Lemma C5_hybrid_composite_counterexample :
  exists img,
    hybrid_optical_image Samples.everywhere Samples.three_images = Some img
    /\ img (0, 0) "B4"%string = Some 5%Q
    /\ hybrid_radar_image Samples.three_images (0, 0) "VH"%string = Some 5%Q
    /\ ~ is_median 5 (stack Samples.three_images (0, 0) "B4"%string)
    /\ median Samples.three_images (0, 0) "B4"%string = Some 2%Q.
Proof.
  eexists. split; [reflexivity|]. split; [reflexivity|]. split; [reflexivity|].
  split; [|reflexivity].
  intros [_ H]. vm_compute in H. lia.
Qed.

(** The median of a collection is a median composite of it, and its clip
    is a clipped one. *)
Lemma median_is_median_composite (c : collection) :
  MonthlyComposites.median_composite_of c (median c).
Proof.
  intros l b. split; [|split].
  - intros v. apply median_composite_is_median.
  - apply median_composite_defined.
  - intros H. unfold median. now rewrite H.
Qed.

Lemma clip_median_is_clipped_median_composite (roi : geometry) (c : collection) :
  MonthlyComposites.clipped_median_composite_of roi c (clip roi (median c)).
Proof.
  intros l b. unfold clip. split; intros Hroi; rewrite Hroi; [reflexivity|].
  apply median_is_median_composite.
Qed.

(** The head of a collection sorted by cloud cover. *)
Lemma insert_image_first (x : image) (s : collection) :
  first (insert_image x s)
  = match first s with
    | None => Some x
    | Some y =>
        if Qle_bool (CLOUDY_PIXEL_PERCENTAGE x) (CLOUDY_PIXEL_PERCENTAGE y)
        then Some x else Some y
    end.
Proof.
  destruct s as [|y s]; cbn; [reflexivity|].
  destruct (Qle_bool _ _); reflexivity.
Qed.

Lemma sort_by_cloud_first_none (c : collection) :
  first (sort_by_cloud c) = None <-> c = [].
Proof.
  destruct c as [|x c]; [cbn; tauto|].
  change (sort_by_cloud (x :: c)) with (insert_image x (sort_by_cloud c)).
  rewrite insert_image_first.
  destruct (first (sort_by_cloud c)) as [y|];
    [destruct (Qle_bool _ _)|]; split; discriminate.
Qed.

Lemma sort_by_cloud_first_least (c : collection) (im : image) :
  first (sort_by_cloud c) = Some im ->
  In im c
  /\ Forall (fun im' => (CLOUDY_PIXEL_PERCENTAGE im <= CLOUDY_PIXEL_PERCENTAGE im')%Q) c.
Proof.
  revert im. induction c as [|x c IH]; intros im H; [discriminate H|].
  change (sort_by_cloud (x :: c)) with (insert_image x (sort_by_cloud c)) in H.
  rewrite insert_image_first in H.
  destruct (first (sort_by_cloud c)) as [y|] eqn:E.
  - destruct (IH y eq_refl) as [Hin Hall].
    destruct (Qle_bool (CLOUDY_PIXEL_PERCENTAGE x) (CLOUDY_PIXEL_PERCENTAGE y)) eqn:L;
      injection H as <-.
    + apply Qle_bool_iff in L. split; [now left|].
      constructor; [apply Qle_refl|].
      eapply Forall_impl; [|exact Hall]. intros z Hz. cbn in Hz.
      eapply Qle_trans; [exact L|exact Hz].
    + split; [now right|]. constructor; [|exact Hall].
      destruct (Qlt_le_dec (CLOUDY_PIXEL_PERCENTAGE y) (CLOUDY_PIXEL_PERCENTAGE x))
        as [Hlt|Hle]; [now apply Qlt_le_weak|].
      apply Qle_bool_iff in Hle. congruence.
  - apply sort_by_cloud_first_none in E. subst c. injection H as <-.
    split; [now left|]. constructor; [apply Qle_refl|constructor].
Qed.

Lemma hybrid_optical_image_none (roi : geometry) (c : collection) :
  hybrid_optical_image roi c = None <-> c = [].
Proof.
  unfold hybrid_optical_image.
  destruct (first (sort_by_cloud (map_clip roi c))) as [im|] eqn:E; cbn.
  - split; [discriminate|]. intros ->. discriminate E.
  - apply sort_by_cloud_first_none in E. unfold map_clip in E.
    apply map_eq_nil in E. tauto.
Qed.

Lemma hybrid_optical_image_least (roi : geometry) (c : collection)
  (img : loc -> bands) :
  hybrid_optical_image roi c = Some img ->
  exists im,
    In im c
    /\ img = clip roi (raster im)
    /\ Forall (fun im' =>
                 (CLOUDY_PIXEL_PERCENTAGE im <= CLOUDY_PIXEL_PERCENTAGE im')%Q) c.
Proof.
  unfold hybrid_optical_image.
  destruct (first (sort_by_cloud (map_clip roi c))) as [cim|] eqn:E;
    [|discriminate].
  cbn. intros [= <-].
  apply sort_by_cloud_first_least in E as [Hin Hall].
  unfold map_clip in Hin, Hall.
  apply in_map_iff in Hin as (im & <- & Hin).
  exists im. split; [exact Hin|]. split; [reflexivity|].
  rewrite Forall_map in Hall. exact Hall.
Qed.

(** The mosaic, image by image. *)
Lemma stack_cons (x : image) (c : collection) (l : loc) (b : string) :
  stack (x :: c) l b
  = match raster x l b with
    | Some v => v :: stack c l b
    | None => stack c l b
    end.
Proof. unfold stack, unmasked. cbn. destruct (raster x l b); reflexivity. Qed.

Lemma stack_nil_iff (c : collection) (l : loc) (b : string) :
  stack c l b = [] <-> Forall (fun im => raster im l b = None) c.
Proof.
  induction c as [|x c IH]; [cbn; split; [constructor|reflexivity]|].
  rewrite stack_cons. split.
  - destruct (raster x l b) eqn:E; [discriminate|].
    intros H. constructor; [exact E|now apply IH].
  - intros H. inversion H as [|? ? Hx Hc]; subst. rewrite Hx. now apply IH.
Qed.

Lemma last_map_Some (s : list Q) :
  last (map (@Some Q) s) None
  = match s with
    | [] => None
    | _ => Some (last s 0%Q)
    end.
Proof.
  induction s as [|v s IH]; [reflexivity|].
  destruct s as [|w s]; [reflexivity|].
  change (last (map (@Some Q) (v :: w :: s)) None)
    with (last (map (@Some Q) (w :: s)) None).
  rewrite IH. reflexivity.
Qed.

Lemma mosaic_none_iff (c : collection) (l : loc) (b : string) :
  mosaic c l b = None <-> stack c l b = [].
Proof.
  unfold mosaic. rewrite last_map_Some.
  destruct (stack c l b); split; intros H; try reflexivity; discriminate H.
Qed.

Lemma mosaic_cons (x : image) (c : collection) (l : loc) (b : string) :
  mosaic (x :: c) l b
  = match mosaic c l b with
    | Some v => Some v
    | None => raster x l b
    end.
Proof.
  unfold mosaic. rewrite stack_cons, !last_map_Some.
  destruct (raster x l b) as [v|]; destruct (stack c l b) as [|w s]; reflexivity.
Qed.

(** The mosaic holds, at a pixel, the value of the last image of the
    collection that has one there. *)
Lemma mosaic_last_unmasked (c : collection) (l : loc) (b : string) (v : Q) :
  mosaic c l b = Some v
  <-> exists pre im post,
        c = pre ++ im :: post
        /\ raster im l b = Some v
        /\ Forall (fun im' => raster im' l b = None) post.
Proof.
  revert v. induction c as [|x c IH]; intros v.
  - split; [discriminate|]. intros (pre & im & post & H & _).
    destruct pre; discriminate H.
  - rewrite mosaic_cons.
    pose proof (mosaic_none_iff c l b) as Hnone.
    destruct (mosaic c l b) as [w|].
    + split.
      * intros [= <-].
        destruct (proj1 (IH w) eq_refl) as (pre & im & post & -> & Hv & Hp).
        now exists (x :: pre), im, post.
      * intros (pre & im & post & H & Hv & Hp).
        destruct pre as [|x' pre]; cbn in H; injection H as -> ->.
        -- apply stack_nil_iff in Hp. apply Hnone in Hp. discriminate Hp.
        -- apply IH. now exists pre, im, post.
    + split.
      * intros Hx. exists [], x, c. split; [reflexivity|]. split; [exact Hx|].
        apply stack_nil_iff. now apply Hnone.
      * intros (pre & im & post & H & Hv & Hp).
        destruct pre as [|x' pre]; cbn in H; injection H as -> ->.
        -- exact Hv.
        -- assert (None = Some v) as Habs by (apply IH; now exists pre, im, post).
           discriminate Habs.
Qed.

(** C5 (amended): in the Sentinel-2 and Landsat index scripts
    (LakeTana-NDVI-FAI-Sentinel.py and its export variant,
    LakeTana-by-FAI-NDVI-SWIR-Sentinel.py, LakeTana-NDVI-FAI-Landsat.py,
    LakeTana-FAI-Landsat.py, LakeTana-NDWI-FAI-Landsat.py) the monthly
    composite is the median of the month's images clipped to the study
    geometry: outside the geometry it is masked; inside it, it has a
    value exactly where an image of the month has one, and the value is
    a median of the images' values there.  The radar script composes
    with the median as well, without the clip.  The fusion script does
    not compose with the median: its optical image is an image of the
    month of least cloud cover, clipped (none when the month has no
    image), and its radar image is the mosaic, which holds at each pixel
    the value of the last image of the collection that has one there. *)
Theorem C5_median_composite (roi : geometry) (filtered : collection) :
  MonthlyComposites.clipped_median_composite_of roi
    (map_bands compute_ndvi_fai_sentinel filtered)
    (sentinel_monthly_composite roi filtered)
  /\ MonthlyComposites.clipped_median_composite_of roi
       (map_bands compute_ndvi_fai_sentinel filtered)
       (MonthlyComposites.export_image_monthly_composite roi filtered)
  /\ MonthlyComposites.clipped_median_composite_of roi
       (map_bands Masks.compute_all_indices_sentinel filtered)
       (Masks.fai_ndvi_swir_monthly_composite roi filtered)
  /\ MonthlyComposites.clipped_median_composite_of roi
       (map_bands compute_ndvi_fai filtered)
       (landsat_monthly_composite roi filtered)
  /\ MonthlyComposites.clipped_median_composite_of roi
       (map_bands compute_fai_landsat filtered)
       (MonthlyComposites.fai_landsat_monthly_composite roi filtered)
  /\ MonthlyComposites.clipped_median_composite_of roi
       (map_bands Masks.compute_fai_ndwi_landsat filtered)
       (MonthlyComposites.fai_ndwi_monthly_composite roi filtered)
  /\ MonthlyComposites.median_composite_of filtered
       (radar_monthly_composite filtered)
  /\ (hybrid_optical_image roi filtered = None <-> filtered = [])
  /\ (forall img,
        hybrid_optical_image roi filtered = Some img ->
        exists im,
          In im filtered
          /\ img = clip roi (raster im)
          /\ Forall (fun im' =>
                       (CLOUDY_PIXEL_PERCENTAGE im
                        <= CLOUDY_PIXEL_PERCENTAGE im')%Q) filtered)
  /\ (forall l b v,
        hybrid_radar_image filtered l b = Some v
        <-> exists pre im post,
              filtered = pre ++ im :: post
              /\ raster im l b = Some v
              /\ Forall (fun im' => raster im' l b = None) post)
  /\ (forall l b,
        hybrid_radar_image filtered l b = None <-> stack filtered l b = []).
Proof.
  repeat match goal with
         | |- MonthlyComposites.clipped_median_composite_of _ _ _ /\ _ =>
             split; [apply clip_median_is_clipped_median_composite|]
         end.
  split; [apply median_is_median_composite|].
  split; [apply hybrid_optical_image_none|].
  split; [apply hybrid_optical_image_least|].
  split.
  - intros l b v. apply mosaic_last_unmasked.
  - intros l b. apply mosaic_none_iff.
Qed.

Lemma C5_median_composite_witness :
  (exists v,
      sentinel_monthly_composite Samples.everywhere Samples.three_images
        (0, 0) "B4"%string = Some v
      /\ is_median v
           (stack (map_bands compute_ndvi_fai_sentinel Samples.three_images)
              (0, 0) "B4"%string))
  /\ (exists v,
        landsat_monthly_composite Samples.everywhere Samples.three_images
          (0, 0) "NDVI"%string = Some v
        /\ is_median v
             (stack (map_bands compute_ndvi_fai Samples.three_images)
                (0, 0) "NDVI"%string))
  /\ (exists v,
        radar_monthly_composite Samples.three_images (0, 0) "VH"%string = Some v
        /\ is_median v (stack Samples.three_images (0, 0) "VH"%string))
  /\ (exists im,
        In im Samples.three_images
        /\ hybrid_optical_image Samples.everywhere Samples.three_images
           = Some (clip Samples.everywhere (raster im))
        /\ Forall (fun im' =>
                     (CLOUDY_PIXEL_PERCENTAGE im
                      <= CLOUDY_PIXEL_PERCENTAGE im')%Q) Samples.three_images)
  /\ hybrid_radar_image Samples.three_images (0, 0) "VH"%string = Some 5%Q.
Proof.
  destruct (C5_median_composite Samples.everywhere Samples.three_images)
    as (Hs2 & _ & _ & Hls & _ & _ & Hradar & _ & Hopt & Hmosaic & _).
  split; [|split; [|split; [|split]]].
  - destruct (Hs2 (0, 0) "B4"%string) as (_ & Hin).
    destruct (Hin eq_refl) as (Hmed & Hdef & _).
    destruct Hdef as (v & Hv); [discriminate|].
    exists v. split; [exact Hv|now apply Hmed].
  - destruct (Hls (0, 0) "NDVI"%string) as (_ & Hin).
    destruct (Hin eq_refl) as (Hmed & Hdef & _).
    destruct Hdef as (v & Hv); [discriminate|].
    exists v. split; [exact Hv|now apply Hmed].
  - destruct (Hradar (0, 0) "VH"%string) as (Hmed & Hdef & _).
    destruct Hdef as (v & Hv); [discriminate|].
    exists v. split; [exact Hv|now apply Hmed].
  - destruct (Hopt _ eq_refl) as (im & Hin & Heq & Hall).
    exists im. split; [exact Hin|]. split; [|exact Hall].
    rewrite <- Heq. reflexivity.
  - apply Hmosaic.
    exists [Samples.flat_image 20 2; Samples.flat_image 30 1],
           (Samples.flat_image 10 5), [].
    split; [reflexivity|]. split; [reflexivity|constructor].
Defined.

(* ------------------------------------------------------------------ *)
(** ** The quality column of the radar table *)
(* ------------------------------------------------------------------ *)

Lemma radar_results_cloud (svc : Radar.service) (js : list (Z * Z))
  (st : Radar.state) :
  Radar.main_loop svc js Radar.initial = Ok st ->
  Forall (fun r => Radar.Cloud_Cover_Percentage r = CInt 0) (Radar.results st).
Proof.
  unfold Radar.main_loop.
  apply (for_each_invariant
           (fun s => Forall (fun r => Radar.Cloud_Cover_Percentage r = CInt 0)
                       (Radar.results s))
           (Radar.loop_body svc) js); [|constructor].
  intros s [y m] s' _ HP Hbody. unfold Radar.loop_body in Hbody.
  destruct (month_bounds y m) as [w|e]; cbn in Hbody; [|discriminate].
  destruct (Radar.size_getInfo (svc w)) as [n|e]; cbn in Hbody; [|discriminate].
  destruct (n =? 0).
  - now injection Hbody as <-.
  - destruct (Radar.date_getInfo (svc w)) as [d|e]; cbn in Hbody; [|discriminate].
    destruct (Radar.area_print_getInfo (svc w)) as [a|e]; cbn in Hbody;
      [|discriminate].
    injection Hbody as <-. cbn. apply Forall_app. split; [exact HP|].
    now repeat constructor.
Qed.

(** C9, as stated, fails: the radar script writes the number 0 in the
    quality column, not 'N/A'. *)
Lemma C9_radar_quality_counterexample :
  exists r,
    Radar.run Samples.radar_service [(2016, 10)] = Ok [r]
    /\ Radar.tCloud_Cover_Percentage r = CInt 0
    /\ Radar.tCloud_Cover_Percentage r <> CStr "N/A"
    /\ is_number (Radar.tCloud_Cover_Percentage r) = true.
Proof.
  eexists. split; [reflexivity|]. cbn. repeat split. discriminate.
Qed.

(** C9 (amended): the radar script asks the service for no quality
    metric, and every record of its table carries the constant number 0
    in the quality column. *)
Theorem C9_radar_quality_is_zero (svc : Radar.service) (js : list (Z * Z))
  (table : list Radar.table_row) :
  Radar.run svc js = Ok table ->
  forall r, In r table -> Radar.tCloud_Cover_Percentage r = CInt 0.
Proof.
  intros Hrun r Hin. unfold Radar.run, Radar.final_results in Hrun.
  destruct (Radar.main_loop svc js Radar.initial) as [st|e] eqn:E;
    cbn in Hrun; [|discriminate].
  injection Hrun as <-.
  unfold Radar.dataframe in Hin. apply in_map_iff in Hin as (r0 & <- & Hin0).
  cbn. pose proof (radar_results_cloud svc js st E) as F.
  rewrite Forall_forall in F. now apply F.
Qed.

Lemma C9_radar_quality_is_zero_witness :
  Radar.run Samples.radar_service [(2016, 10); (2016, 11); (2017, 10)]
  = Ok [ {| Radar.tYear := 2016; Radar.tMonth := 10;
            Radar.tDate_of_Satellite_Selected := "2014-10-03";
            Radar.tCloud_Cover_Percentage := CInt 0;
            Radar.tArea_of_Water_Hyacinth := CFloat (125 # 10) |};
         {| Radar.tYear := 2017; Radar.tMonth := 10;
            Radar.tDate_of_Satellite_Selected := "2014-10-03";
            Radar.tCloud_Cover_Percentage := CInt 0;
            Radar.tArea_of_Water_Hyacinth := CFloat (125 # 10) |} ]
  /\ Forall (fun r => Radar.tCloud_Cover_Percentage r = CInt 0)
       [ {| Radar.tYear := 2016; Radar.tMonth := 10;
            Radar.tDate_of_Satellite_Selected := "2014-10-03";
            Radar.tCloud_Cover_Percentage := CInt 0;
            Radar.tArea_of_Water_Hyacinth := CFloat (125 # 10) |};
         {| Radar.tYear := 2017; Radar.tMonth := 10;
            Radar.tDate_of_Satellite_Selected := "2014-10-03";
            Radar.tCloud_Cover_Percentage := CInt 0;
            Radar.tArea_of_Water_Hyacinth := CFloat (125 # 10) |} ].
Proof.
  split; [reflexivity|].
  apply Forall_forall.
  apply (C9_radar_quality_is_zero Samples.radar_service
           [(2016, 10); (2016, 11); (2017, 10)]).
  reflexivity.
Defined.

(* ------------------------------------------------------------------ *)
(** ** The fusion logic *)
(* ------------------------------------------------------------------ *)

Example fusion_scenario_3 :
  HybridFusion.fusion (Some HybridFusion.OpticalMask) (Some 45%Q)
    (Some HybridFusion.RadarMask)
  = Some (HybridFusion.RadarMask, "Radar only"%string).
Proof. reflexivity. Qed.

Example fusion_both_masks_clear_sky :
  HybridFusion.fusion (Some HybridFusion.OpticalMask) (Some 12%Q)
    (Some HybridFusion.RadarMask)
  = Some (HybridFusion.Or HybridFusion.OpticalMask HybridFusion.RadarMask,
          "Hybrid (Optical+Radar)"%string).
Proof. reflexivity. Qed.

(** C2: with an optical mask of acceptable quality (10%) and no radar
    mask, the loop uses the optical mask alone and still labels the
    record 'Hybrid (Optical+Radar)', where the rule of the specification
    gives 'Optical only'.  In every other case the label is the one of
    the rule; with 45% and both masks it is 'Radar only'. *)
Theorem C2_hybrid_label_without_radar_mask :
  HybridFusion.fusion (Some HybridFusion.OpticalMask) (Some 10%Q) None
  = Some (HybridFusion.OpticalMask, "Hybrid (Optical+Radar)"%string)
  /\ HybridFusion.spec_source true (Some 10%Q) false = Some "Optical only"%string
  /\ (exists st,
         HybridFusion.main_loop (Samples.fusion_service 10 0) [(2019, 11)]
           HybridFusion.initial = Ok st
         /\ map HybridFusion.Source_Used (HybridFusion.results st)
            = ["Hybrid (Optical+Radar)"%string])
  /\ (forall optical_mask cloud_pct radar_mask,
         option_map snd (HybridFusion.fusion optical_mask cloud_pct radar_mask)
         = if truthy optical_mask
              && match cloud_pct with
                 | Some c => HybridFusion.Qltb c 30
                 | None => false
                 end
              && negb (truthy radar_mask)
           then Some "Hybrid (Optical+Radar)"%string
           else HybridFusion.spec_source (truthy optical_mask) cloud_pct
                  (truthy radar_mask))
  /\ HybridFusion.fusion (Some HybridFusion.OpticalMask) (Some 45%Q)
       (Some HybridFusion.RadarMask)
     = Some (HybridFusion.RadarMask, "Radar only"%string).
Proof.
  split; [reflexivity|]. split; [reflexivity|]. split.
  - eexists. split; reflexivity.
  - split; [|reflexivity].
    intros [om|] [c|] [rm|]; unfold HybridFusion.fusion,
      HybridFusion.fusion_fallback, HybridFusion.spec_source; cbn;
      try destruct (HybridFusion.Qltb c 30); reflexivity.
Qed.

(* ------------------------------------------------------------------ *)
(** ** The quality column of the fusion table *)
(* ------------------------------------------------------------------ *)

Lemma cloud_cell_cases (c : Q) :
  ((c == 0)%Q -> HybridFusion.cloud_cell (Some c) = CStr "N/A")
  /\ (~ (c == 0)%Q -> HybridFusion.cloud_cell (Some c) = CFloat (round2 c)).
Proof.
  unfold HybridFusion.cloud_cell. split; intros H.
  - apply Qeq_bool_iff in H. now rewrite H.
  - destruct (Qeq_bool c 0) eqn:E; [|reflexivity].
    apply Qeq_bool_iff in E. contradiction.
Qed.

Lemma fusion_clear_optical (c : Q) (radar_mask : option HybridFusion.ee_mask) :
  (c < 30)%Q ->
  exists final_mask,
    HybridFusion.fusion (Some HybridFusion.OpticalMask) (Some c) radar_mask
    = Some (final_mask, "Hybrid (Optical+Radar)"%string).
Proof.
  intros H. unfold HybridFusion.fusion, HybridFusion.Qltb.
  destruct (Qle_bool 30 c) eqn:E.
  - apply Qle_bool_iff in E. lra.
  - cbn. eexists. reflexivity.
Qed.

Lemma fusion_with_optical (c : Q) (radar_mask : option HybridFusion.ee_mask) :
  exists final_mask source,
    HybridFusion.fusion (Some HybridFusion.OpticalMask) (Some c) radar_mask
    = Some (final_mask, source).
Proof.
  unfold HybridFusion.fusion, HybridFusion.fusion_fallback.
  destruct (HybridFusion.Qltb c 30), radar_mask; do 2 eexists; reflexivity.
Qed.

(** C10: in the fusion script a month whose selected optical image has a
    cloud cover of exactly 0 is appended with 'N/A' in the quality
    column, as a missing value would be, although the optical image
    exists and is the one the record is dated and labelled from; a cloud
    cover is written as a rounded number exactly when it is strictly
    positive. *)
Theorem C10_zero_cloud_cover_exported_as_NA
  (svc : HybridFusion.service) (st : HybridFusion.state) (y m : Z) (w : window)
  (k n : Z) (c a : Q) (d : string) :
  month_bounds y m = Ok w ->
  HybridFusion.bandNames_size_getInfo (svc w) = Ok k ->
  HybridFusion.cloud_cover_getInfo (svc w) = Ok (Some c) ->
  (0 <= c)%Q ->
  HybridFusion.s2_date_getInfo (svc w) = Ok d ->
  HybridFusion.s1_size_getInfo (svc w) = Ok n ->
  (forall mask, HybridFusion.area_getInfo (svc w) mask = Ok a) ->
  exists row st',
    HybridFusion.loop_body svc st (y, m) = Ok st'
    /\ HybridFusion.results st' = HybridFusion.results st ++ [row]
    /\ HybridFusion.Year row = y
    /\ HybridFusion.Month row = m
    /\ HybridFusion.Date_of_Satellite_Selected row = d
    /\ ((c == 0)%Q ->
        HybridFusion.Cloud_Cover_Percentage row = CStr "N/A"
        /\ HybridFusion.Cloud_Cover_Percentage row = HybridFusion.cloud_cell None
        /\ HybridFusion.Source_Used row = "Hybrid (Optical+Radar)"%string)
    /\ ((0 < c)%Q ->
        HybridFusion.Cloud_Cover_Percentage row = CFloat (round2 c))
    /\ (is_number (HybridFusion.Cloud_Cover_Percentage row) = true <-> (0 < c)%Q).
Proof.
  intros Hw Hk Hc Hpos Hd Hn Ha.
  unfold HybridFusion.loop_body. rewrite Hw. cbn [bind].
  unfold HybridFusion.get_sentinel2_mask, HybridFusion.get_sentinel1_mask.
  rewrite Hk, Hc, Hn. cbn [bind].
  set (radar_mask := if n =? 0 then None else Some HybridFusion.RadarMask).
  assert (R : (if n =? 0 then Ok None else Ok (Some HybridFusion.RadarMask))
              = Ok radar_mask) by (unfold radar_mask; destruct (n =? 0); reflexivity).
  rewrite R. cbn [bind].
  destruct (fusion_with_optical c radar_mask) as (final_mask & source & F).
  rewrite F, Ha, Hd. cbn [bind].
  eexists. eexists. split; [reflexivity|].
  cbn [HybridFusion.results HybridFusion.Year HybridFusion.Month
       HybridFusion.Date_of_Satellite_Selected
       HybridFusion.Cloud_Cover_Percentage HybridFusion.Source_Used].
  split; [reflexivity|]. split; [reflexivity|]. split; [reflexivity|].
  split; [reflexivity|].
  destruct (cloud_cell_cases c) as [Zero Pos].
  split; [|split; [|split]].
  - intros Hz. split; [now apply Zero|]. split; [now apply Zero|].
    destruct (fusion_clear_optical c radar_mask ltac:(lra)) as (fm & F').
    rewrite F in F'. now injection F' as _ ->.
  - intros Hp. apply Pos. lra.
  - intros Hnum. destruct (Qeq_dec c 0) as [Hz|Hnz].
    + rewrite (Zero Hz) in Hnum. discriminate.
    + lra.
  - intros Hp. rewrite Pos; [reflexivity|lra].
Qed.

Lemma C10_zero_cloud_cover_exported_as_NA_witness :
  exists row st',
    HybridFusion.loop_body (Samples.fusion_service 0 4) HybridFusion.initial
      (2019, 11) = Ok st'
    /\ HybridFusion.results st' = HybridFusion.results HybridFusion.initial ++ [row]
    /\ HybridFusion.Year row = 2019
    /\ HybridFusion.Month row = 11
    /\ HybridFusion.Date_of_Satellite_Selected row = "2019-11-07"%string
    /\ ((0 == 0)%Q ->
        HybridFusion.Cloud_Cover_Percentage row = CStr "N/A"
        /\ HybridFusion.Cloud_Cover_Percentage row = HybridFusion.cloud_cell None
        /\ HybridFusion.Source_Used row = "Hybrid (Optical+Radar)"%string)
    /\ ((0 < 0)%Q ->
        HybridFusion.Cloud_Cover_Percentage row = CFloat (round2 0))
    /\ (is_number (HybridFusion.Cloud_Cover_Percentage row) = true <-> (0 < 0)%Q).
Proof.
  apply (C10_zero_cloud_cover_exported_as_NA (Samples.fusion_service 0 4)
           HybridFusion.initial 2019 11 (mkdate 2019 11 1, mkdate 2019 11 30)
           15 4 0 (125 # 10) "2019-11-07").
  - reflexivity.
  - reflexivity.
  - reflexivity.
  - unfold Qle; simpl; lia.
  - reflexivity.
  - reflexivity.
  - intros mask. reflexivity.
Defined.

Example fusion_loop_zero_cloud :
  HybridFusion.main_loop (Samples.fusion_service 0 4) [(2019, 11)]
    HybridFusion.initial
  = Ok {| HybridFusion.results :=
            [ {| HybridFusion.Year := 2019;
                 HybridFusion.Month := 11;
                 HybridFusion.Date_of_Satellite_Selected := "2019-11-07";
                 HybridFusion.Cloud_Cover_Percentage := CStr "N/A";
                 HybridFusion.Area_of_Water_Hyacinth := round2 (125 # 10);
                 HybridFusion.Source_Used := "Hybrid (Optical+Radar)" |} ];
          HybridFusion.stdout :=
            [ HybridFusion.Processing 2019 11;
              HybridFusion.Done 2019 11 (125 # 10) "Hybrid (Optical+Radar)" ] |}.
Proof. reflexivity. Qed.

Example fusion_loop_positive_cloud :
  exists st,
    HybridFusion.main_loop (Samples.fusion_service (12345 # 1000) 4) [(2019, 11)]
      HybridFusion.initial = Ok st
    /\ map HybridFusion.Cloud_Cover_Percentage (HybridFusion.results st)
       = [CFloat (round2 (12345 # 1000))].
Proof. eexists. split; reflexivity. Qed.

(* ------------------------------------------------------------------ *)
(** ** Threshold masks *)
(* ------------------------------------------------------------------ *)

Lemma Qgtb_true (a b : Q) : Masks.Qgtb a b = true <-> (b < a)%Q.
Proof.
  unfold Masks.Qgtb. rewrite negb_true_iff. split.
  - intros H. destruct (Qlt_le_dec b a) as [L|L]; [exact L|].
    apply Qle_bool_iff in L. congruence.
  - intros H. destruct (Qle_bool a b) eqn:E; [|reflexivity].
    apply Qle_bool_iff in E. lra.
Qed.

Lemma Qgtb_false (a b : Q) : Masks.Qgtb a b = false <-> (a <= b)%Q.
Proof.
  unfold Masks.Qgtb. rewrite negb_false_iff. apply Qle_bool_iff.
Qed.

Lemma nonzero_indicator (b : bool) : Masks.nonzero (Masks.indicator b) = b.
Proof. destruct b; reflexivity. Qed.

Lemma indicator_one (b : bool) : (Masks.indicator b == 1)%Q <-> b = true.
Proof.
  destruct b; cbn; split; intros H; try reflexivity; discriminate.
Qed.

(** X1: The radar script selects a pixel exactly when its VH backscatter is
    above -20: the test [unitScale(-25, 0) > 0.2] in the unit of the band. *)
Theorem radar_mask_is_minus_20_threshold (median_img : bands) (vh : Q) :
  select median_img "VH" = Some vh ->
  ((-20 < vh)%Q -> Masks.hyacinth_mask median_img = Some 1%Q)
  /\ ((vh <= -20)%Q -> Masks.hyacinth_mask median_img = Some 0%Q).
Proof.
  intros H. unfold Masks.hyacinth_mask, Masks.unitScale, Masks.gt.
  rewrite H. cbn [option_map].
  assert (E : ((vh - -25) / (0 - -25) == (vh + 25) * (1 # 25))%Q) by field.
  split; intros L.
  - assert (G : Masks.Qgtb ((vh - -25) / (0 - -25)) (2 # 10) = true)
      by (apply Qgtb_true; rewrite E; lra).
    now rewrite G.
  - assert (G : Masks.Qgtb ((vh - -25) / (0 - -25)) (2 # 10) = false)
      by (apply Qgtb_false; rewrite E; lra).
    now rewrite G.
Qed.

Lemma radar_mask_is_minus_20_threshold_witness :
  Masks.hyacinth_mask (fun _ => Some (-18)%Q) = Some 1%Q
  /\ Masks.hyacinth_mask (fun _ => Some (-20)%Q) = Some 0%Q.
Proof.
  split.
  - apply (proj1 (radar_mask_is_minus_20_threshold
                    (fun _ => Some (-18)%Q) (-18) eq_refl)).
    unfold Qlt; simpl; lia.
  - apply (proj2 (radar_mask_is_minus_20_threshold
                    (fun _ => Some (-20)%Q) (-20) eq_refl)).
    unfold Qle; simpl; lia.
Defined.

Lemma rescale_value (b : Q) :
  rescale (Some b) = Some (b * landsat_scale + landsat_offset)%Q.
Proof. reflexivity. Qed.

Lemma rescale_nonneg_iff (b : Z) :
  (0 <= inject_Z b * landsat_scale + landsat_offset)%Q <-> 7273 <= b.
Proof.
  unfold landsat_scale, landsat_offset, Qle, Qplus, Qmult, Qopp, inject_Z.
  cbn. lia.
Qed.

(** X2: For Landsat digital numbers of at least 7273 in the red and the near
    infrared band, the rescaled reflectances are non-negative and the NDVI
    band of [compute_ndvi_fai] is a value of [-1, 1]; 7273 is the least
    digital number with a non-negative reflectance. *)
Theorem landsat_ndvi_bounded_from_7273 (image : bands) (b4 b5 : Z) :
  select image "SR_B4" = Some (inject_Z b4) ->
  select image "SR_B5" = Some (inject_Z b5) ->
  7273 <= b4 -> 7273 <= b5 ->
  (exists v, select (compute_ndvi_fai image) "NDVI" = Some v /\ (-1 <= v <= 1)%Q)
  /\ (forall b : Z,
         exists r, rescale (Some (inject_Z b)) = Some r
                   /\ ((0 <= r)%Q <-> 7273 <= b)).
Proof.
  intros E4 E5 H4 H5. split.
  - change (select (compute_ndvi_fai image) "NDVI")
      with (ndvi_of (rescale (select image "SR_B5")) (rescale (select image "SR_B4"))).
    rewrite E4, E5, !rescale_value.
    destruct (ndvi_of_range (inject_Z b5 * landsat_scale + landsat_offset)
                (inject_Z b4 * landsat_scale + landsat_offset))
      as (v & Hv & Hb & _); try (apply rescale_nonneg_iff; assumption).
    now exists v.
  - intros b. eexists. split; [apply rescale_value|]. apply rescale_nonneg_iff.
Qed.

Lemma landsat_ndvi_bounded_from_7273_witness :
  exists v,
    select (compute_ndvi_fai
              (fun b => if String.eqb b "SR_B5" then Some (inject_Z 20000)
                        else Some (inject_Z 7273))) "NDVI" = Some v
    /\ (-1 <= v <= 1)%Q.
Proof.
  apply (proj1 (landsat_ndvi_bounded_from_7273
                  (fun b => if String.eqb b "SR_B5" then Some (inject_Z 20000)
                            else Some (inject_Z 7273))
                  7273 20000 eq_refl eq_refl ltac:(lia) ltac:(lia))).
Defined.

(** X3: The fusion script and the Sentinel-2 index script compute different
    FAI values from the same bands: the first takes 0.865 for the near
    infrared wavelength, the second 842.  The difference is
    (B11 - B4) * 23/945, so both agree only where B11 equals B4. *)
Theorem fusion_fai_differs_from_index_fai (image : bands) (red nir swir : Q) :
  select image "B4" = Some red ->
  select image "B8" = Some nir ->
  select image "B11" = Some swir ->
  exists v_index v_fusion,
    select (compute_ndvi_fai_sentinel image) "FAI" = Some v_index
    /\ Masks.add_indices_fai image = Some v_fusion
    /\ (v_index - v_fusion == (swir - red) * (23 # 945))%Q
    /\ ((v_index == v_fusion)%Q <-> (swir == red)%Q).
Proof.
  intros E4 E8 E11.
  exists (nir - (red + (swir - red) * wl_ratio 665 842 1610))%Q.
  exists (nir - (red + (swir - red) * ((865 # 1000) - (665 # 1000))
                       / ((161 # 100) - (665 # 1000))))%Q.
  assert (D : (nir - (red + (swir - red) * wl_ratio 665 842 1610)
               - (nir - (red + (swir - red) * ((865 # 1000) - (665 # 1000))
                                / ((161 # 100) - (665 # 1000))))
               == (swir - red) * (23 # 945))%Q).
  { assert (K : (wl_ratio 665 842 1610 == 177 # 945)%Q) by reflexivity.
    rewrite K. field. }
  split; [|split; [|split]].
  - change (select (compute_ndvi_fai_sentinel image) "FAI")
      with (fai_of 665 842 1610 (select image "B8") (select image "B4")
              (select image "B11")).
    now rewrite E4, E8, E11.
  - unfold Masks.add_indices_fai. now rewrite E4, E8, E11.
  - exact D.
  - split; intros H; lra.
Qed.

Lemma fusion_fai_differs_from_index_fai_witness :
  exists v_index v_fusion,
    select (compute_ndvi_fai_sentinel
              (fun b => if String.eqb b "B11" then Some 945%Q else Some 0%Q))
      "FAI" = Some v_index
    /\ Masks.add_indices_fai
         (fun b => if String.eqb b "B11" then Some 945%Q else Some 0%Q)
       = Some v_fusion
    /\ (v_index - v_fusion == (945 - 0) * (23 # 945))%Q
    /\ ((v_index == v_fusion)%Q <-> (945 == 0)%Q).
Proof.
  apply (fusion_fai_differs_from_index_fai
           (fun b => if String.eqb b "B11" then Some 945%Q else Some 0%Q)
           0 0 945); reflexivity.
Defined.

Lemma nonzero_true (x : Q) : Masks.nonzero x = true <-> ~ (x == 0)%Q.
Proof.
  unfold Masks.nonzero. rewrite negb_true_iff. split.
  - intros H E. apply Qeq_bool_iff in E. congruence.
  - intros H. destruct (Qeq_bool x 0) eqn:E; [|reflexivity].
    apply Qeq_bool_iff in E. contradiction.
Qed.

Lemma indicator_nonzero (b : bool) : ~ (Masks.indicator b == 0)%Q <-> b = true.
Proof.
  destruct b; cbn; split; intros H; try reflexivity.
  - discriminate.
  - exfalso. apply H. reflexivity.
  - discriminate.
Qed.

Lemma And_flagged (a b : pixel) :
  Masks.flagged (Masks.And a b) <-> Masks.flagged a /\ Masks.flagged b.
Proof.
  unfold Masks.flagged, Masks.And. split.
  - intros (v & E & Hv). destruct a as [x|], b as [y|]; try discriminate.
    cbn in E. injection E as <-. apply indicator_nonzero in Hv.
    apply andb_true_iff in Hv as [Hx Hy].
    split; eexists; (split; [reflexivity|]); now apply nonzero_true.
  - intros [(x & -> & Hx) (y & -> & Hy)].
    eexists. split; [reflexivity|]. apply indicator_nonzero.
    apply andb_true_iff. split; now apply nonzero_true.
Qed.

Lemma And_value (a b : pixel) (v : Q) :
  Masks.And a b = Some v -> v = 1%Q \/ v = 0%Q.
Proof.
  unfold Masks.And. destruct a as [x|], b as [y|]; try discriminate.
  cbn. intros E. injection E as <-.
  destruct (Masks.nonzero x && Masks.nonzero y); cbn; tauto.
Qed.

Lemma And_flagged_one (a b : pixel) :
  Masks.flagged a -> Masks.flagged b -> Masks.And a b = Some 1%Q.
Proof.
  intros (x & -> & Hx) (y & -> & Hy). unfold Masks.And. cbn.
  apply nonzero_true in Hx, Hy. now rewrite Hx, Hy.
Qed.

Lemma gt_flagged (a : pixel) (c : Q) :
  Masks.flagged (Masks.gt a c) <-> exists x, a = Some x /\ (c < x)%Q.
Proof.
  unfold Masks.flagged, Masks.gt. split.
  - intros (v & E & Hv). destruct a as [x|]; [|discriminate].
    cbn in E. injection E as <-. apply indicator_nonzero, Qgtb_true in Hv.
    now exists x.
  - intros (x & -> & Hx). eexists. split; [reflexivity|].
    apply indicator_nonzero, Qgtb_true. exact Hx.
Qed.

Lemma lt_flagged (a : pixel) (c : Q) :
  Masks.flagged (Masks.lt a c) <-> exists x, a = Some x /\ (x < c)%Q.
Proof.
  unfold Masks.flagged, Masks.lt. split.
  - intros (v & E & Hv). destruct a as [x|]; [|discriminate].
    cbn in E. injection E as <-. apply indicator_nonzero, Qgtb_true in Hv.
    now exists x.
  - intros (x & -> & Hx). eexists. split; [reflexivity|].
    apply indicator_nonzero, Qgtb_true. exact Hx.
Qed.

Lemma stack_In (c : collection) (l : loc) (b : string) (x : Q) :
  In x (stack c l b) <-> exists im, In im c /\ raster im l b = Some x.
Proof.
  unfold stack, unmasked. rewrite in_flat_map. split.
  - intros (p & Hp & Hx). apply in_map_iff in Hp as (im & <- & Him).
    exists im. split; [exact Him|].
    destruct (raster im l b) as [y|]; cbn in Hx; [|contradiction].
    destruct Hx as [<-|[]]. reflexivity.
  - intros (im & Him & E). exists (Some x). split.
    + apply in_map_iff. exists im. now split.
    + now left.
Qed.

Lemma stack_map_bands (f : bands -> bands) (c : collection) (l : loc) (b : string) :
  stack (map_bands f c) l b
  = unmasked (map (fun im => f (raster im l) b) c).
Proof. unfold stack, map_bands. now rewrite map_map. Qed.

(** A median is not below a lower bound of its inputs. *)
Lemma median_q_lower_bound (l : list Q) (v c : Q) :
  median_q l = Some v -> (forall x, In x l -> (c <= x)%Q) -> (c <= v)%Q.
Proof.
  intros Hm Hall.
  destruct (median_q_is_median l v Hm) as [Hle _].
  assert (Hne : l <> []).
  { intros ->. discriminate Hm. }
  unfold count_le in Hle.
  destruct (filter (fun x => Qle_bool x v) l) as [|x rest] eqn:F.
  - destruct l; [contradiction|]. cbn in Hle. lia.
  - assert (Hin : In x (filter (fun x => Qle_bool x v) l))
      by (rewrite F; now left).
    apply filter_In in Hin as [Hin Hx]. apply Qle_bool_iff in Hx.
    specialize (Hall x Hin). lra.
Qed.

(** X4: The FAI+NDVI+SWIR script tests the SWIR band unscaled, [SWIR1 < 0.08]
    on digital numbers: where every image of the month has a B11 of at
    least 1, the pixel is not in the mask, whatever FAI and NDVI are. *)
Theorem unscaled_swir_test_rejects_positive_b11 (roi : geometry)
  (filtered : collection) (l : loc) :
  (forall im, In im filtered ->
              exists s, raster im l "B11"%string = Some s /\ (1 <= s)%Q) ->
  ~ Masks.flagged
      (Masks.fai_ndvi_swir_mask
         (Masks.fai_ndvi_swir_monthly_composite roi filtered l)).
Proof.
  intros Hall Hf. unfold Masks.fai_ndvi_swir_mask in Hf.
  apply And_flagged in Hf as [_ Hs].
  apply lt_flagged in Hs as (x & Hx & Hlt).
  unfold select, Masks.fai_ndvi_swir_monthly_composite in Hx.
  apply clip_value in Hx as [_ Hx]. unfold median in Hx.
  assert (B : (1 <= x)%Q).
  { apply (median_q_lower_bound _ x 1 Hx).
    intros y Hy. rewrite stack_map_bands in Hy.
    unfold unmasked in Hy. apply in_flat_map in Hy as (p & Hp & Hy).
    apply in_map_iff in Hp as (im & <- & Him).
    change (Masks.compute_all_indices_sentinel (raster im l) "SWIR1"%string)
      with (raster im l "B11"%string) in Hy.
    destruct (Hall im Him) as (s & Es & Hs). rewrite Es in Hy.
    destruct Hy as [<-|[]]. exact Hs. }
  lra.
Qed.

Lemma unscaled_swir_test_rejects_positive_b11_witness :
  ~ Masks.flagged
      (Masks.fai_ndvi_swir_mask
         (Masks.fai_ndvi_swir_monthly_composite Samples.everywhere
            Samples.three_images (0, 0)))
  /\ exists v, Masks.fai_ndvi_swir_mask
                 (Masks.fai_ndvi_swir_monthly_composite Samples.everywhere
                    Samples.three_images (0, 0)) = Some v.
Proof.
  split; [|eexists; reflexivity].
  apply (unscaled_swir_test_rejects_positive_b11 Samples.everywhere
           Samples.three_images (0, 0)).
  intros im [<-|[<-|[<-|[]]]]; eexists; (split; [reflexivity|]);
    unfold Qle; simpl; lia.
Defined.

Lemma all_indices_agree_with_ndvi_fai (roi : geometry) (filtered : collection)
  (l : loc) :
  Masks.fai_ndvi_swir_monthly_composite roi filtered l "NDVI"%string
  = sentinel_monthly_composite roi filtered l "NDVI"%string
  /\ Masks.fai_ndvi_swir_monthly_composite roi filtered l "FAI"%string
     = sentinel_monthly_composite roi filtered l "FAI"%string.
Proof.
  unfold Masks.fai_ndvi_swir_monthly_composite, sentinel_monthly_composite,
    clip, median.
  rewrite !stack_map_bands. destruct (roi l); split; reflexivity.
Qed.

(** X5: On the same month of Sentinel-2 images, every pixel in the mask of the
    FAI+NDVI+SWIR script is in the mask of the NDVI+FAI script: the third
    test can only remove pixels. *)
Theorem triple_mask_within_dual_mask (roi : geometry) (filtered : collection)
  (l : loc) :
  Masks.flagged
    (Masks.fai_ndvi_swir_mask
       (Masks.fai_ndvi_swir_monthly_composite roi filtered l)) ->
  Masks.ndvi_fai_mask (sentinel_monthly_composite roi filtered l) = Some 1%Q.
Proof.
  intros Hf. unfold Masks.fai_ndvi_swir_mask in Hf.
  apply And_flagged in Hf as [Hf _]. apply And_flagged in Hf as [Hfai Hndvi].
  destruct (all_indices_agree_with_ndvi_fai roi filtered l) as [En Ef].
  unfold select in *. rewrite En in Hndvi. rewrite Ef in Hfai.
  unfold Masks.ndvi_fai_mask, select. now apply And_flagged_one.
Qed.

Lemma triple_mask_within_dual_mask_witness :
  Masks.ndvi_fai_mask
    (sentinel_monthly_composite Samples.everywhere
       [ {| CLOUDY_PIXEL_PERCENTAGE := 5;
            raster := fun _ b => if String.eqb b "B8" then Some 3000%Q
                                 else if String.eqb b "B4" then Some 1000%Q
                                 else Some 0%Q |} ] (0, 0))
  = Some 1%Q.
Proof.
  apply (triple_mask_within_dual_mask Samples.everywhere
           [ {| CLOUDY_PIXEL_PERCENTAGE := 5;
                raster := fun _ b => if String.eqb b "B8" then Some 3000%Q
                                     else if String.eqb b "B4" then Some 1000%Q
                                     else Some 0%Q |} ] (0, 0)).
  eexists. split; [reflexivity|]. intros H. discriminate H.
Defined.



(** X7: The radar mask of the fusion script, [VH < 0.1 and VV / VH > 1.3]: for
    a negative VH (backscatter in decibels) it selects the pixel exactly
    when VV is below 1.3 VH; for VH = 0 the quotient is 0 and the pixel is
    never selected; for VH of 0.1 or more neither. *)
Theorem fusion_radar_mask_cases (img : bands) (vv vh : Q) :
  select img "VV" = Some vv ->
  select img "VH" = Some vh ->
  ((vh < 0)%Q -> (Masks.flagged (Masks.radar_mask img) <-> (vv < (13 # 10) * vh)%Q))
  /\ ((vh == 0)%Q -> Masks.radar_mask img = Some 0%Q)
  /\ ((0 < vh)%Q ->
      (Masks.flagged (Masks.radar_mask img)
       <-> (vh < 1 # 10)%Q /\ ((13 # 10) * vh < vv)%Q)).
Proof.
  intros Evv Evh. unfold Masks.radar_mask. rewrite Evv, Evh.
  split; [|split].
  - intros Hneg. rewrite And_flagged, lt_flagged, gt_flagged.
    cbn [divide lift2].
    assert (E : Qeq_bool vh 0 = false).
    { destruct (Qeq_bool vh 0) eqn:E; [|reflexivity].
      apply Qeq_bool_iff in E. lra. }
    rewrite E.
    assert (Q1 : (vv / vh == vv * / vh)%Q) by reflexivity.
    assert (Inv : (/ vh < 0)%Q).
    { destruct (Qlt_le_dec (/ vh) 0) as [L|L]; [exact L|].
      assert (0 <= / vh * - vh)%Q by (apply Qmult_le_0_compat; lra).
      assert ((/ vh * - vh == - 1)%Q) by (field; lra). lra. }
    split.
    + intros [_ (x & Hx & Hgt)]. injection Hx as <-.
      destruct (Qlt_le_dec vv ((13 # 10) * vh)) as [L|L]; [exact L|].
      assert (T : (0 <= (vv - (13 # 10) * vh) * - / vh)%Q)
        by (apply Qmult_le_0_compat; lra).
      assert (F : ((vv - (13 # 10) * vh) * - / vh == (13 # 10) - vv / vh)%Q)
        by (field; lra).
      lra.
    + intros L. split.
      * exists vh. split; [reflexivity|lra].
      * eexists. split; [reflexivity|].
        assert (T : (0 < ((13 # 10) * vh - vv) * - / vh)%Q)
          by (apply Qmult_lt_0_compat; lra).
        assert (F : (((13 # 10) * vh - vv) * - / vh == vv / vh - (13 # 10))%Q)
          by (field; lra).
        lra.
  - intros Hz. cbn [divide lift2 Masks.lt Masks.gt option_map Masks.And].
    apply Qeq_bool_iff in Hz. rewrite Hz, !nonzero_indicator.
    change (Masks.Qgtb 0 (13 # 10)) with false.
    now rewrite andb_false_r.
  - intros Hpos. rewrite And_flagged, lt_flagged, gt_flagged.
    cbn [divide lift2].
    assert (E : Qeq_bool vh 0 = false).
    { destruct (Qeq_bool vh 0) eqn:E; [|reflexivity].
      apply Qeq_bool_iff in E. lra. }
    rewrite E. split.
    + intros [(y & Hy & Hlt) (x & Hx & Hgt)].
      injection Hy as <-. injection Hx as <-. split; [exact Hlt|].
      destruct (Qlt_le_dec ((13 # 10) * vh) vv) as [L|L]; [exact L|].
      assert (vv / vh <= 13 # 10)%Q by (apply Qle_shift_div_r; [exact Hpos|lra]).
      lra.
    + intros [Hlt Hgt]. split.
      * exists vh. now split.
      * eexists. split; [reflexivity|].
        apply Qlt_shift_div_l; [exact Hpos|lra].
Qed.

Lemma fusion_radar_mask_cases_witness :
  Masks.flagged
    (Masks.radar_mask
       (fun b => if String.eqb b "VV" then Some (-20)%Q else Some (-12)%Q))
  /\ Masks.radar_mask (fun b => if String.eqb b "VV" then Some 5%Q else Some 0%Q)
     = Some 0%Q.
Proof.
  split.
  - apply (proj1 (fusion_radar_mask_cases
                    (fun b => if String.eqb b "VV" then Some (-20)%Q
                              else Some (-12)%Q)
                    (-20) (-12) eq_refl eq_refl)).
    + unfold Qlt; simpl; lia.
    + unfold Qlt; simpl; lia.
  - apply (proj1 (proj2 (fusion_radar_mask_cases
                           (fun b => if String.eqb b "VV" then Some 5%Q
                                     else Some 0%Q)
                           5 0 eq_refl eq_refl))).
    reflexivity.
Defined.

Lemma Or_flagged (a b : pixel) :
  Masks.flagged (Masks.Or a b) -> Masks.flagged a \/ Masks.flagged b.
Proof.
  unfold Masks.flagged, Masks.Or.
  intros (v & E & Hv). destruct a as [x|], b as [y|]; try discriminate.
  cbn in E. injection E as <-. apply indicator_nonzero in Hv.
  apply orb_true_iff in Hv as [H|H]; apply nonzero_true in H.
  - left. now exists x.
  - right. now exists y.
Qed.

(** X8: The final mask of the fusion loop, pixel by pixel: it never selects a
    pixel that neither the optical nor the radar mask selects; with the
    source 'Radar only' it is the radar mask, whatever the optical mask
    says; and as soon as a radar mask exists, a pixel the radar image
    leaves without data is without data in the final mask. *)
Theorem fusion_final_mask_pixelwise
  (optical_mask radar_mask : option HybridFusion.ee_mask) (cloud_pct : option Q)
  (final_mask : HybridFusion.ee_mask) (source : string) (optical radar : pixel) :
  optical_mask = None \/ optical_mask = Some HybridFusion.OpticalMask ->
  radar_mask = None \/ radar_mask = Some HybridFusion.RadarMask ->
  HybridFusion.fusion optical_mask cloud_pct radar_mask = Some (final_mask, source) ->
  (Masks.flagged (Masks.mask_value optical radar final_mask) ->
   Masks.flagged optical \/ Masks.flagged radar)
  /\ (source = "Radar only"%string ->
      Masks.mask_value optical radar final_mask = radar)
  /\ (source = "Optical only"%string ->
      Masks.mask_value optical radar final_mask = optical)
  /\ (radar_mask = Some HybridFusion.RadarMask -> radar = None ->
      Masks.mask_value optical radar final_mask = None).
Proof.
  intros Ho Hr F.
  unfold HybridFusion.fusion, HybridFusion.fusion_fallback in F.
  destruct Ho as [-> | ->], Hr as [-> | ->], cloud_pct as [c|];
    try destruct (HybridFusion.Qltb c 30);
    try discriminate; injection F as <- <-; cbn [Masks.mask_value];
    (split; [|split; [|split]]);
    try (intros H; discriminate H); try reflexivity; try tauto;
    try (intros _ ->; destruct optical; reflexivity);
    try (intros _ ->; reflexivity);
    try (intros H; now apply Or_flagged).
Qed.

Lemma fusion_final_mask_pixelwise_witness :
  (Masks.flagged
     (Masks.mask_value (Some 1%Q) None
        (HybridFusion.Or HybridFusion.OpticalMask HybridFusion.RadarMask)) ->
   Masks.flagged (Some 1%Q) \/ Masks.flagged None)
  /\ Masks.mask_value (Some 1%Q) None
       (HybridFusion.Or HybridFusion.OpticalMask HybridFusion.RadarMask) = None.
Proof.
  destruct (fusion_final_mask_pixelwise
              (Some HybridFusion.OpticalMask) (Some HybridFusion.RadarMask)
              (Some 12%Q)
              (HybridFusion.Or HybridFusion.OpticalMask HybridFusion.RadarMask)
              "Hybrid (Optical+Radar)" (Some 1%Q) None
              (or_intror eq_refl) (or_intror eq_refl) eq_refl)
    as (A & _ & _ & D).
  split; [exact A|]. now apply D.
Defined.

(* ------------------------------------------------------------------ *)
(** ** What the Sentinel-2 index loop prints *)
(* ------------------------------------------------------------------ *)

Lemma s2_printed_not_done (svc : SentinelNdviFai.service) (y m : Z) :
  filter SentinelExport.is_done
    (fst (SentinelNdviFai.get_ndvi_fai_monthly_s2 svc y m)) = [].
Proof.
  unfold SentinelNdviFai.get_ndvi_fai_monthly_s2.
  destruct (SentinelNdviFai.size_getInfo _) as [n|e]; [|reflexivity].
  destruct (n =? 0); reflexivity.
Qed.

Lemma s2_loop_body_done (svc : SentinelNdviFai.service)
  (st : SentinelNdviFai.state) (ym : Z * Z) :
  filter SentinelExport.is_done
    (SentinelNdviFai.stdout (SentinelNdviFai.loop_body svc st ym))
  = filter SentinelExport.is_done (SentinelNdviFai.stdout st)
    ++ map SentinelExport.done_line (SentinelNdviFai.month_rows svc ym).
Proof.
  destruct ym as [y m].
  pose proof (s2_printed_not_done svc y m) as P.
  assert (K : forall r, In r (SentinelNdviFai.month_rows svc (y, m)) ->
                        SentinelNdviFai.key r = (y, m))
    by apply s2_month_rows_key.
  unfold SentinelNdviFai.loop_body, SentinelNdviFai.month_rows in *.
  cbn [fst snd] in *.
  destruct (SentinelNdviFai.get_ndvi_fai_monthly_s2 svc y m) as [printed outcome].
  cbn [fst snd] in *.
  destruct outcome as [[r|]|e]; cbn [SentinelNdviFai.stdout map];
    rewrite !filter_app, P; cbn; rewrite ?app_nil_r; try reflexivity.
  specialize (K r (or_introl eq_refl)). unfold SentinelNdviFai.key in K.
  injection K as <- <-. reflexivity.
Qed.

Lemma s2_loop_body_lines (svc : SentinelNdviFai.service)
  (st : SentinelNdviFai.state) (ym : Z * Z) :
  List.length (SentinelNdviFai.stdout (SentinelNdviFai.loop_body svc st ym))
  = (List.length (SentinelNdviFai.stdout st)
     + if SentinelExport.silent svc ym then 0 else 1)%nat.
Proof.
  destruct ym as [y m].
  unfold SentinelNdviFai.loop_body, SentinelExport.silent. cbn [fst snd].
  unfold SentinelNdviFai.get_ndvi_fai_monthly_s2.
  destruct (SentinelNdviFai.size_getInfo _) as [n|e];
    [|cbn; rewrite length_app; reflexivity].
  destruct (n =? 0); [cbn; rewrite !length_app; cbn; lia|].
  destruct (SentinelNdviFai.cloud_getInfo _) as [c|e]; cbn;
    [|rewrite length_app; reflexivity].
  destruct (SentinelNdviFai.area_getInfo _) as [[a|]|e]; cbn;
    [| rewrite app_nil_r; lia | rewrite length_app; reflexivity].
  destruct c as [c|]; cbn; rewrite length_app; reflexivity.
Qed.

Lemma s2_silent_iff (svc : SentinelNdviFai.service) (y m : Z) :
  SentinelExport.silent svc (y, m) = true
  <-> exists n c,
      SentinelNdviFai.size_getInfo (svc (SentinelNdviFai.filter_window y m)) = Ok n
      /\ n <> 0
      /\ SentinelNdviFai.cloud_getInfo (svc (SentinelNdviFai.filter_window y m))
         = Ok c
      /\ SentinelNdviFai.area_getInfo (svc (SentinelNdviFai.filter_window y m))
         = Ok None.
Proof.
  unfold SentinelExport.silent, SentinelNdviFai.get_ndvi_fai_monthly_s2.
  cbn [fst snd].
  destruct (SentinelNdviFai.size_getInfo _) as [n|e].
  - destruct (n =? 0) eqn:Z.
    + apply Z.eqb_eq in Z. split; [discriminate|].
      intros (n' & c & E & Hn & _). injection E as <-. contradiction.
    + apply Z.eqb_neq in Z.
      destruct (SentinelNdviFai.cloud_getInfo _) as [c|e]; cbn.
      * destruct (SentinelNdviFai.area_getInfo _) as [[a|]|e]; cbn.
        -- split; [destruct c; discriminate|].
           intros (n' & c' & _ & _ & _ & E). discriminate E.
        -- split; [|reflexivity]. intros _. now exists n, c.
        -- split; [discriminate|].
           intros (n' & c' & _ & _ & _ & E). discriminate E.
      * split; [discriminate|]. intros (n' & c' & _ & _ & E & _). discriminate E.
  - split; [discriminate|]. intros (n' & c' & E & _). discriminate E.
Qed.

(** X9: In the Sentinel-2 index script the success lines printed are, in
    order, exactly the lines of the records of the table.  Every month
    prints one line, except a month whose collection is not empty and
    whose reduction has no value: that month is dropped without a word. *)
Theorem s2_log_matches_table (svc : SentinelNdviFai.service) (js : list (Z * Z)) :
  filter SentinelExport.is_done
    (SentinelNdviFai.stdout
       (SentinelNdviFai.main_loop svc js SentinelNdviFai.initial))
  = map SentinelExport.done_line
      (SentinelNdviFai.results
         (SentinelNdviFai.main_loop svc js SentinelNdviFai.initial))
  /\ (List.length
        (SentinelNdviFai.stdout
           (SentinelNdviFai.main_loop svc js SentinelNdviFai.initial))
      + List.length (filter (SentinelExport.silent svc) js)
      = List.length js)%nat
  /\ (forall y m,
         SentinelExport.silent svc (y, m) = true
         <-> exists n c,
             SentinelNdviFai.size_getInfo
               (svc (SentinelNdviFai.filter_window y m)) = Ok n
             /\ n <> 0
             /\ SentinelNdviFai.cloud_getInfo
                  (svc (SentinelNdviFai.filter_window y m)) = Ok c
             /\ SentinelNdviFai.area_getInfo
                  (svc (SentinelNdviFai.filter_window y m)) = Ok None).
Proof.
  split; [|split; [|apply s2_silent_iff]].
  - rewrite s2_main_loop_results. cbn [SentinelNdviFai.initial
      SentinelNdviFai.results app].
    assert (G : forall st,
               filter SentinelExport.is_done
                 (SentinelNdviFai.stdout (SentinelNdviFai.main_loop svc js st))
               = filter SentinelExport.is_done (SentinelNdviFai.stdout st)
                 ++ map SentinelExport.done_line
                      (flat_map (SentinelNdviFai.month_rows svc) js)).
    { induction js as [|j js IH]; intros st; cbn.
      - now rewrite app_nil_r.
      - unfold SentinelNdviFai.main_loop in IH. rewrite IH, s2_loop_body_done.
        now rewrite map_app, app_assoc. }
    apply (G SentinelNdviFai.initial).
  - assert (G : forall st,
               (List.length
                  (SentinelNdviFai.stdout (SentinelNdviFai.main_loop svc js st))
                + List.length (filter (SentinelExport.silent svc) js)
                = List.length (SentinelNdviFai.stdout st) + List.length js)%nat).
    { induction js as [|j js IH]; intros st; cbn; [lia|].
      unfold SentinelNdviFai.main_loop in IH.
      pose proof (IH (SentinelNdviFai.loop_body svc st j)) as H.
      rewrite s2_loop_body_lines in H.
      destruct (SentinelExport.silent svc j); cbn; lia. }
    apply (G SentinelNdviFai.initial).
Qed.

(* ------------------------------------------------------------------ *)
(** ** The order of the exported Sentinel-2 table *)
(* ------------------------------------------------------------------ *)

Lemma StronglySorted_filter {A} (R : A -> A -> Prop) (f : A -> bool) (l : list A) :
  StronglySorted R l -> StronglySorted R (filter f l).
Proof.
  induction 1 as [|a l Hs IH Ha]; cbn; [constructor|].
  destruct (f a); [|exact IH].
  constructor; [exact IH|].
  rewrite Forall_forall in *. intros x Hx. apply filter_In in Hx as [Hx _].
  now apply Ha.
Qed.

Lemma StronglySorted_of_map {A B} (R : B -> B -> Prop) (g : A -> B) (l : list A) :
  StronglySorted R (map g l) -> StronglySorted (fun a b => R (g a) (g b)) l.
Proof.
  induction l as [|a l IH]; cbn; intros H; [constructor|].
  apply StronglySorted_inv in H as [Hs Ha].
  constructor; [now apply IH|].
  rewrite Forall_forall in *. intros x Hx. apply Ha. now apply in_map.
Qed.

Lemma StronglySorted_impl_in {A} (R R' : A -> A -> Prop) (l : list A) :
  (forall a b, In a l -> In b l -> R a b -> R' a b) ->
  StronglySorted R l -> StronglySorted R' l.
Proof.
  intros Himp H. induction H as [|a l Hs IH Ha]; [constructor|].
  constructor.
  - apply IH. intros x y Hx Hy. apply Himp; now right.
  - rewrite Forall_forall in *. intros x Hx.
    apply Himp; [now left|now right|now apply Ha].
Qed.

Lemma string_ltb_leb (a b : string) : String.ltb a b = true -> String.leb a b = true.
Proof.
  unfold String.ltb, String.leb. destruct (String.compare a b); congruence.
Qed.

Lemma sort_values_sorted_id (df : list SentinelNdviFai.row) :
  StronglySorted SentinelExport.date_before df ->
  SentinelExport.sort_values df = df.
Proof.
  induction 1 as [|a l Hs IH Ha]; [reflexivity|].
  cbn. unfold SentinelExport.sort_values in IH. rewrite IH.
  destruct l as [|b l]; [reflexivity|]. cbn.
  apply Forall_inv in Ha. unfold SentinelExport.date_before in Ha.
  now rewrite (string_ltb_leb _ _ Ha).
Qed.

Lemma s2_month_rows_date (svc : SentinelNdviFai.service) (ym : Z * Z)
  (r : SentinelNdviFai.row) :
  In r (SentinelNdviFai.month_rows svc ym) ->
  SentinelNdviFai.Date_of_Satellite_Selected r
  = SentinelNdviFai.fstring_date (fst ym) (snd ym) "01".
Proof.
  destruct ym as [y m].
  unfold SentinelNdviFai.month_rows, SentinelNdviFai.get_ndvi_fai_monthly_s2.
  cbn [fst snd].
  destruct (SentinelNdviFai.size_getInfo _) as [n|e]; cbn; [|tauto].
  destruct (n =? 0); cbn; [tauto|].
  destruct (SentinelNdviFai.cloud_getInfo _) as [c|e]; cbn; [|tauto].
  destruct (SentinelNdviFai.area_getInfo _) as [[a|]|e]; cbn; try tauto.
  destruct c as [c|]; cbn; [|tauto].
  intros [<-|[]]. reflexivity.
Qed.

(** The start dates of the 27 months of the loop, as strings, increase. *)
Lemma s2_jobs_dates_increase :
  StronglySorted
    (fun a b => String.ltb (SentinelNdviFai.fstring_date (fst a) (snd a) "01")
                  (SentinelNdviFai.fstring_date (fst b) (snd b) "01") = true)
    SentinelNdviFai.jobs.
Proof.
  unfold SentinelNdviFai.jobs, nested, range. cbn [Z.to_nat Z.sub].
  cbv [seq map flat_map app Z.add Z.of_nat Z.opp Z.pos_sub Pos.to_nat
       Pos.iter_op Nat.add Pos.of_succ_nat Pos.succ Pos.add Pos.pred_double
       Pos.double_pred_mask Pos.sub_mask Pos.succ_double_mask Pos.double_mask].
  repeat (constructor; [|repeat (constructor; [vm_compute; reflexivity|])]).
  all: try constructor.
Qed.

(** X10: Whatever the service answers, the records of the Sentinel-2 index
    script are appended in increasing order of their date string, so the
    final [sort_values] leaves the table as the loop built it: the export
    is in chronological order. *)
Theorem s2_export_is_loop_order (svc : SentinelNdviFai.service) :
  StronglySorted SentinelExport.date_before
    (SentinelNdviFai.results (SentinelNdviFai.main svc))
  /\ SentinelExport.export svc
     = SentinelNdviFai.results (SentinelNdviFai.main svc).
Proof.
  assert (S : StronglySorted SentinelExport.date_before
                (SentinelNdviFai.results (SentinelNdviFai.main svc))).
  { unfold SentinelNdviFai.main.
    pose proof (s2_main_loop_results svc SentinelNdviFai.jobs
                  SentinelNdviFai.initial) as R.
    cbn [SentinelNdviFai.initial SentinelNdviFai.results app] in R.
    rewrite R.
    pose proof (StronglySorted_filter _
                  (fun ym => match SentinelNdviFai.month_rows svc ym with
                             | [] => false
                             | _ => true
                             end) _ s2_jobs_dates_increase) as F.
    rewrite <- s2_keys_are_filtered_jobs in F.
    apply StronglySorted_of_map in F.
    eapply StronglySorted_impl_in; [|exact F].
    intros a b Ha Hb H. cbn beta in H.
    apply in_flat_map in Ha as (ja & _ & Ha).
    apply in_flat_map in Hb as (jb & _ & Hb).
    unfold SentinelExport.date_before.
    rewrite (s2_month_rows_date svc ja a Ha), (s2_month_rows_date svc jb b Hb).
    rewrite <- (s2_month_rows_key svc ja a Ha), <- (s2_month_rows_key svc jb b Hb).
    exact H. }
  split; [exact S|]. unfold SentinelExport.export.
  now apply sort_values_sorted_id.
Qed.

(* ------------------------------------------------------------------ *)
(** ** The cells of the climate table *)
(* ------------------------------------------------------------------ *)

Lemma temperature_try_block_ok (r : Temperature.response)
  (c : Temperature.conversion) (mn mx av : Q) :
  Temperature.try_block r c = Ok (mn, mx, av)
  <-> exists a b d,
      Temperature.min_getInfo r = Ok (Some a)
      /\ Temperature.max_getInfo r = Ok (Some b)
      /\ Temperature.mean_getInfo r = Ok (Some d)
      /\ mn = TemperatureCells.converted c a
      /\ mx = TemperatureCells.converted c b
      /\ av = TemperatureCells.converted c d.
Proof.
  unfold Temperature.try_block. split.
  - destruct (Temperature.min_getInfo r) as [[a|]|e],
             (Temperature.max_getInfo r) as [[b|]|e'],
             (Temperature.mean_getInfo r) as [[d|]|e''], c;
      cbn; intros H; try discriminate H.
    + injection H as <- <- <-. now exists a, b, d.
    + injection H as <- <- <-. now exists a, b, d.
  - intros (a & b & d & -> & -> & -> & -> & -> & ->). destruct c; reflexivity.
Qed.

Lemma temperature_row_cells (svc : Temperature.service) (w : window) (y m : Z)
  (v : string * string * string * Temperature.conversion) :
  Temperature.all_null (Temperature.variable_row svc w y m v) = true
  \/ TemperatureCells.all_numbers (Temperature.variable_row svc w y m v) = true.
Proof.
  destruct v as [[[band name] unit] c]. unfold Temperature.variable_row.
  destruct (Temperature.try_block _ _) as [[[mn mx] av]|e]; cbn; tauto.
Qed.

(** X11: A record of the climate table holds three numbers or three empty
    cells, never a mix.  It holds numbers exactly when the three
    reductions of its variable returned a value, and then they are these
    values, less 273.15 for the temperatures and unchanged for the
    humidities. *)
Theorem temperature_record_all_or_nothing (svc : Temperature.service)
  (js : list (Z * Z)) (rows : list Temperature.row) :
  Temperature.main_loop svc js [] = Ok rows ->
  Forall (fun r => Temperature.all_null r = true
                   \/ TemperatureCells.all_numbers r = true) rows
  /\ (forall w y m band var_name unit c,
         TemperatureCells.all_numbers
           (Temperature.variable_row svc w y m (band, var_name, unit, c)) = true
         <-> exists a b d,
             Temperature.min_getInfo (svc w band) = Ok (Some a)
             /\ Temperature.max_getInfo (svc w band) = Ok (Some b)
             /\ Temperature.mean_getInfo (svc w band) = Ok (Some d)
             /\ Temperature.variable_row svc w y m (band, var_name, unit, c)
                = {| Temperature.Year := y; Temperature.Month := m;
                     Temperature.Variable_ :=
                       Temperature.variable_label var_name unit;
                     Temperature.Min := CFloat (TemperatureCells.converted c a);
                     Temperature.Max := CFloat (TemperatureCells.converted c b);
                     Temperature.Mean := CFloat (TemperatureCells.converted c d) |}).
Proof.
  intros Hrun. split.
  - unfold Temperature.main_loop in Hrun.
    apply (for_each_invariant
             (fun rs => Forall (fun r => Temperature.all_null r = true
                                         \/ TemperatureCells.all_numbers r = true)
                          rs)
             (Temperature.loop_body svc) js) with (st := []);
      [|constructor|exact Hrun].
    intros rs [y m] rs' _ HP Hbody. unfold Temperature.loop_body in Hbody.
    destruct (month_bounds y m) as [w|e]; cbn [bind] in Hbody; [|discriminate].
    unfold Temperature.variable_body in Hbody.
    rewrite fold_left_append in Hbody.
    remember (map (Temperature.variable_row svc w y m) Temperature.variables)
      as mine eqn:Em.
    injection Hbody as <-.
    apply Forall_app. split; [exact HP|].
    apply Forall_forall. intros r Hr. rewrite Em in Hr.
    apply in_map_iff in Hr as (v & <- & _).
    apply temperature_row_cells.
  - intros w y m band var_name unit c. unfold Temperature.variable_row.
    destruct (Temperature.try_block (svc w band) c) as [[[mn mx] av]|e] eqn:E.
    + apply temperature_try_block_ok in E
        as (a & b & d & Ha & Hb & Hd & -> & -> & ->).
      split; [|reflexivity]. intros _. now exists a, b, d.
    + split; [discriminate|].
      intros (a & b & d & Ha & Hb & Hd & _).
      assert (K : Temperature.try_block (svc w band) c
                  = Ok (TemperatureCells.converted c a,
                        TemperatureCells.converted c b,
                        TemperatureCells.converted c d)).
      { apply temperature_try_block_ok. now exists a, b, d. }
      rewrite K in E. discriminate E.
Qed.

Lemma temperature_record_all_or_nothing_witness :
  exists rows,
    Temperature.main_loop Samples.no_data_climate [(2016, 10)] [] = Ok rows
    /\ Forall (fun r => Temperature.all_null r = true
                        \/ TemperatureCells.all_numbers r = true) rows.
Proof.
  eexists. split; [reflexivity|].
  apply (proj1 (temperature_record_all_or_nothing Samples.no_data_climate
                  [(2016, 10)] _ eq_refl)).
Defined.

(* ------------------------------------------------------------------ *)
(** ** Whole runs of the rainfall and climate scripts *)
(* ------------------------------------------------------------------ *)

Lemma jobs_2013_valid (ym : Z * Z) :
  In ym (nested (range 2013 2025) [10; 11; 12]) ->
  1 <= fst ym <= 9999 /\ 1 <= snd ym <= 12.
Proof.
  intros H.
  assert (F : forallb (fun ym => (1 <=? fst ym) && (fst ym <=? 9999)
                                 && (1 <=? snd ym) && (snd ym <=? 12))
                (nested (range 2013 2025) [10; 11; 12]) = true) by reflexivity.
  rewrite forallb_forall in F. specialize (F ym H). bool_to_prop. lia.
Qed.

(** X12: Whatever the service does, the rainfall script runs to its end with
    one record for each of its 36 months, in loop order, and the climate
    script with six records for each, 216 in all. *)
Theorem rainfall_and_climate_runs_complete (svc : Chirps.service)
  (tsvc : Temperature.service) :
  (exists table,
      Chirps.main svc = Ok table
      /\ List.length table = 36%nat
      /\ map Chirps.key table = Chirps.jobs)
  /\ (exists rows,
         Temperature.main tsvc = Ok rows
         /\ List.length rows = 216%nat
         /\ map Temperature.key rows
            = flat_map (fun ym => repeat ym 6) Temperature.jobs).
Proof.
  split.
  - destruct (chirps_main_loop_rows Chirps.jobs jobs_2013_valid [])
      as (rows & Hrun & Hkeys & _).
    exists (Chirps.dataframe svc rows). unfold Chirps.main, Chirps.run.
    rewrite Hrun. cbn [bind app]. split; [reflexivity|].
    assert (K : map Chirps.key (Chirps.dataframe svc rows) = Chirps.jobs)
      by (unfold Chirps.dataframe; rewrite map_map; exact Hkeys).
    split; [|exact K].
    rewrite <- (length_map Chirps.key), K. reflexivity.
  - destruct (temperature_main_loop_rows tsvc Temperature.jobs jobs_2013_valid [])
      as (rows & Hrun & Hkeys & _).
    exists rows. split; [exact Hrun|]. split; [|exact Hkeys].
    rewrite <- (length_map Temperature.key), Hkeys. reflexivity.
Qed.

(* ------------------------------------------------------------------ *)
(** ** Records and failures of the fusion loop *)
(* ------------------------------------------------------------------ *)

Lemma Qltb_30_false (c : Q) : (30 <= c)%Q -> HybridFusion.Qltb c 30 = false.
Proof.
  intros H. unfold HybridFusion.Qltb. apply Qle_bool_iff in H. now rewrite H.
Qed.

(** X13: The 'Radar only' records of the fusion script.  When the optical
    image is not valid, the date column reads 'Radar only' and the quality
    column 'N/A'.  When the optical image is valid but its cloud cover is
    30 or more, the record is computed from the radar mask alone and is
    labelled 'Radar only', yet its date and quality columns are those of
    the rejected optical image. *)
Theorem fusion_radar_only_records (svc : HybridFusion.service)
  (st : HybridFusion.state) (y m : Z) (w : window) (n : Z) (a : Q) :
  month_bounds y m = Ok w ->
  HybridFusion.s1_size_getInfo (svc w) = Ok n ->
  n <> 0 ->
  HybridFusion.area_getInfo (svc w) HybridFusion.RadarMask = Ok a ->
  (forall e,
      HybridFusion.bandNames_size_getInfo (svc w) = Raise e ->
      HybridFusion.loop_body svc st (y, m)
      = Ok {| HybridFusion.results :=
                HybridFusion.results st
                ++ [ {| HybridFusion.Year := y;
                        HybridFusion.Month := m;
                        HybridFusion.Date_of_Satellite_Selected := "Radar only";
                        HybridFusion.Cloud_Cover_Percentage := CStr "N/A";
                        HybridFusion.Area_of_Water_Hyacinth := round2 a;
                        HybridFusion.Source_Used := "Radar only" |} ];
              HybridFusion.stdout :=
                (HybridFusion.stdout st ++ [HybridFusion.Processing y m])
                ++ [HybridFusion.Done y m a "Radar only"] |})
  /\ (forall k c d,
         HybridFusion.bandNames_size_getInfo (svc w) = Ok k ->
         HybridFusion.cloud_cover_getInfo (svc w) = Ok (Some c) ->
         (30 <= c)%Q ->
         HybridFusion.s2_date_getInfo (svc w) = Ok d ->
         HybridFusion.loop_body svc st (y, m)
         = Ok {| HybridFusion.results :=
                   HybridFusion.results st
                   ++ [ {| HybridFusion.Year := y;
                           HybridFusion.Month := m;
                           HybridFusion.Date_of_Satellite_Selected := d;
                           HybridFusion.Cloud_Cover_Percentage := CFloat (round2 c);
                           HybridFusion.Area_of_Water_Hyacinth := round2 a;
                           HybridFusion.Source_Used := "Radar only" |} ];
                 HybridFusion.stdout :=
                   (HybridFusion.stdout st ++ [HybridFusion.Processing y m])
                   ++ [HybridFusion.Done y m a "Radar only"] |}).
Proof.
  intros Hw Hn Hnz Ha. apply Z.eqb_neq in Hnz. split.
  - intros e He. unfold HybridFusion.loop_body. rewrite Hw. cbn [bind].
    unfold HybridFusion.get_sentinel2_mask, HybridFusion.get_sentinel1_mask.
    rewrite He, Hn. cbn [bind]. rewrite Hnz. cbn [bind].
    cbn [HybridFusion.fusion HybridFusion.fusion_fallback]. rewrite Ha.
    reflexivity.
  - intros k c d Hk Hc H30 Hd. unfold HybridFusion.loop_body.
    rewrite Hw. cbn [bind].
    unfold HybridFusion.get_sentinel2_mask, HybridFusion.get_sentinel1_mask.
    rewrite Hk, Hc, Hn. cbn [bind]. rewrite Hnz. cbn [bind].
    unfold HybridFusion.fusion. rewrite (Qltb_30_false c H30).
    cbn [HybridFusion.fusion_fallback]. rewrite Ha, Hd. cbn [bind].
    destruct (cloud_cell_cases c) as [_ Pos]. rewrite Pos; [reflexivity|lra].
Qed.

Lemma fusion_radar_only_records_witness :
  HybridFusion.loop_body (Samples.fusion_service 45 4) HybridFusion.initial
    (2019, 11)
  = Ok {| HybridFusion.results :=
            HybridFusion.results HybridFusion.initial
            ++ [ {| HybridFusion.Year := 2019;
                    HybridFusion.Month := 11;
                    HybridFusion.Date_of_Satellite_Selected := "2019-11-07";
                    HybridFusion.Cloud_Cover_Percentage := CFloat (round2 45);
                    HybridFusion.Area_of_Water_Hyacinth := round2 (125 # 10);
                    HybridFusion.Source_Used := "Radar only" |} ];
          HybridFusion.stdout :=
            (HybridFusion.stdout HybridFusion.initial
             ++ [HybridFusion.Processing 2019 11])
            ++ [HybridFusion.Done 2019 11 (125 # 10) "Radar only"] |}.
Proof.
  apply (proj2 (fusion_radar_only_records (Samples.fusion_service 45 4)
                  HybridFusion.initial 2019 11
                  (mkdate 2019 11 1, mkdate 2019 11 30) 4 (125 # 10)
                  eq_refl eq_refl ltac:(lia) eq_refl) 15 45%Q "2019-11-07"%string);
    try reflexivity.
  unfold Qle; simpl; lia.
Defined.

(** X14: A failing size request on the Sentinel-1 collection is not caught, in
    the fusion script nor in the radar script: the loop stops with the
    exception at that month, the months after it are not processed and no
    table is written. *)
Theorem radar_size_failure_aborts_run
  (svc : HybridFusion.service) (rsvc : Radar.service) (y m : Z) (w : window)
  (c : option Q) (e : exn) (pre post : list (Z * Z))
  (st : HybridFusion.state) (rst : Radar.state) :
  month_bounds y m = Ok w ->
  HybridFusion.cloud_cover_getInfo (svc w) = Ok c ->
  HybridFusion.s1_size_getInfo (svc w) = Raise e ->
  Radar.size_getInfo (rsvc w) = Raise e ->
  HybridFusion.main_loop svc pre HybridFusion.initial = Ok st ->
  Radar.main_loop rsvc pre Radar.initial = Ok rst ->
  HybridFusion.main_loop svc (pre ++ (y, m) :: post) HybridFusion.initial = Raise e
  /\ Radar.run rsvc (pre ++ (y, m) :: post) = Raise e.
Proof.
  intros Hw Hc Hs1 Hrs Hpre Hrpre. split.
  - unfold HybridFusion.main_loop in *. rewrite for_each_app, Hpre.
    cbn [bind for_each]. unfold HybridFusion.loop_body. rewrite Hw. cbn [bind].
    unfold HybridFusion.get_sentinel2_mask, HybridFusion.get_sentinel1_mask.
    destruct (HybridFusion.bandNames_size_getInfo (svc w)) as [k|e'];
      rewrite ?Hc, Hs1; reflexivity.
  - unfold Radar.run, Radar.final_results, Radar.main_loop in *.
    rewrite for_each_app, Hrpre. cbn [bind for_each].
    unfold Radar.loop_body. rewrite Hw. cbn [bind]. rewrite Hrs. reflexivity.
Qed.

Lemma radar_size_failure_aborts_run_witness :
  HybridFusion.main_loop
    (fun w => if month (fst w) =? 11
              then {| HybridFusion.bandNames_size_getInfo := Ok 15;
                      HybridFusion.cloud_cover_getInfo := Ok (Some 12%Q);
                      HybridFusion.s2_date_getInfo := Ok "2019-11-07"%string;
                      HybridFusion.s1_size_getInfo :=
                        Raise (EEException "Computation timed out.");
                      HybridFusion.area_getInfo := fun _ => Ok (125 # 10) |}
              else Samples.fusion_service 12 4 w)
    ([(2019, 10)] ++ (2019, 11) :: [(2019, 12)]) HybridFusion.initial
  = Raise (EEException "Computation timed out.")
  /\ Radar.run
       (fun w => if month (fst w) =? 11
                 then {| Radar.size_getInfo :=
                           Raise (EEException "Computation timed out.");
                         Radar.date_getInfo := Ok EmptyString;
                         Radar.area_print_getInfo := Ok 0%Q;
                         Radar.area_export_getInfo := Ok 0%Q |}
                 else Samples.radar_service w)
       ([(2019, 10)] ++ (2019, 11) :: [(2019, 12)])
     = Raise (EEException "Computation timed out.").
Proof.
  eapply (radar_size_failure_aborts_run _ _ 2019 11
            (mkdate 2019 11 1, mkdate 2019 11 30)); reflexivity.
Defined.

(* ------------------------------------------------------------------ *)
(** ** The evapotranspiration script *)
(* ------------------------------------------------------------------ *)

(** X15: The monthly window of the evapotranspiration script is the whole
    calendar month: a date with a day of 1 or more is selected exactly
    when its year and month are the requested ones; and the window of a
    month ends where the window of the next month starts. *)
Theorem et_window_is_the_calendar_month (y m : Z) (d : date) :
  1 <= m <= 12 ->
  1 <= day d ->
  1 <= month d <= 12 ->
  (in_window (Evapotranspiration.monthly_window y m) d = true
   <-> year d = y /\ month d = m)
  /\ Evapotranspiration.monthly_window y m = spec_month_window y m
  /\ snd (Evapotranspiration.monthly_window y m)
     = fst (if m =? 12 then Evapotranspiration.monthly_window (y + 1) 1
            else Evapotranspiration.monthly_window y (m + 1)).
Proof.
  intros Hm Hd Hdm. destruct d as [dy dm dd]. cbn in Hd, Hdm.
  unfold Evapotranspiration.monthly_window, Evapotranspiration.fromYMD,
    Evapotranspiration.advance_1_month, spec_month_window, next_month_start,
    in_window, date_leb, date_ltb.
  cbn [fst snd year month day].
  destruct (m =? 12) eqn:E; cbn [fst snd year month day]; bool_to_prop;
    (split; [|split; [reflexivity|reflexivity]]);
    (split; [intros H; lia | intros [-> ->]; lia]).
Qed.

Lemma et_window_is_the_calendar_month_witness :
  (in_window (Evapotranspiration.monthly_window 2016 12) (mkdate 2016 12 31) = true
   <-> year (mkdate 2016 12 31) = 2016 /\ month (mkdate 2016 12 31) = 12)
  /\ Evapotranspiration.monthly_window 2016 12 = spec_month_window 2016 12
  /\ snd (Evapotranspiration.monthly_window 2016 12)
     = fst (if 12 =? 12 then Evapotranspiration.monthly_window (2016 + 1) 1
            else Evapotranspiration.monthly_window 2016 (12 + 1)).
Proof.
  apply (et_window_is_the_calendar_month 2016 12 (mkdate 2016 12 31)); cbn; lia.
Defined.

Lemma rows_with_mean_have_mean (features data : list Evapotranspiration.dict) :
  Evapotranspiration.rows_with_mean features = Evapotranspiration.Fine data ->
  forall props, In props data ->
    In props features
    /\ exists v, Evapotranspiration.getitem props "mean_et" = Some v /\ v <> CNone.
Proof.
  revert data. induction features as [|p rest IH]; intros data H props Hin.
  - cbn in H. injection H as <-. destruct Hin.
  - cbn in H.
    destruct (Evapotranspiration.getitem p "mean_et") as [v|] eqn:E;
      [|discriminate].
    destruct (Evapotranspiration.rows_with_mean rest) as [d|f]; [|discriminate].
    assert (K : data = d \/ (data = p :: d /\ v <> CNone)).
    { destruct v; injection H as <-; try (right; split; [reflexivity|discriminate]).
      now left. }
    destruct K as [->|[-> Hv]].
    + destruct (IH d eq_refl props Hin) as [I J]. split; [now right|exact J].
    + destruct Hin as [<-|Hin].
      * split; [now left|]. now exists v.
      * destruct (IH d eq_refl props Hin) as [I J]. split; [now right|exact J].
Qed.

Lemma rows_with_mean_missing_key (features : list Evapotranspiration.dict) :
  (exists props, In props features
                 /\ Evapotranspiration.getitem props "mean_et" = None) ->
  Evapotranspiration.rows_with_mean features
  = Evapotranspiration.Failed (Evapotranspiration.KeyError "mean_et").
Proof.
  induction features as [|p rest IH]; intros (props & Hin & Hnone).
  - destruct Hin.
  - cbn. destruct (Evapotranspiration.getitem p "mean_et") as [v|] eqn:E;
      [|reflexivity].
    destruct Hin as [->|Hin]; [congruence|].
    rewrite IH; [reflexivity|]. now exists props.
Qed.

Lemma extracted_cases (response : result (list Evapotranspiration.dict)) :
  Evapotranspiration.extracted response = []
  \/ exists p data,
      Evapotranspiration.extracted response = [p :: data]
      /\ Evapotranspiration.process_et response
         = Evapotranspiration.Fine (p :: data).
Proof.
  unfold Evapotranspiration.extracted.
  destruct (Evapotranspiration.process_et response) as [[|p data]|f].
  - now left.
  - right. now exists p, data.
  - now left.
Qed.

Lemma extracted_have_mean (response : result (list Evapotranspiration.dict))
  (data : list Evapotranspiration.dict) (props : Evapotranspiration.dict) :
  In data (Evapotranspiration.extracted response) -> In props data ->
  exists v, Evapotranspiration.getitem props "mean_et" = Some v /\ v <> CNone.
Proof.
  intros Hd Hp.
  destruct (extracted_cases response) as [E|(p & d & E & F)];
    rewrite E in Hd; [destruct Hd|].
  destruct Hd as [<-|[]].
  unfold Evapotranspiration.process_et in F.
  destruct response as [features|e]; [|discriminate].
  now destruct (rows_with_mean_have_mean features (p :: d) F props Hp).
Qed.

Lemma max_0_nonneg (x : Q) : (0 <= Evapotranspiration.max_0 x)%Q.
Proof.
  unfold Evapotranspiration.max_0. destruct (Masks.Qgtb x 0) eqn:E; [|lra].
  apply Qgtb_true in E. lra.
Qed.

Lemma synthetic_record_fields (noise : Z -> Z -> Q * Q) (ym : Z * Z) :
  Evapotranspiration.getitem (Evapotranspiration.synthetic_record noise ym) "source"
  = Some (CStr "Synthetic")
  /\ exists a b,
      Evapotranspiration.getitem
        (Evapotranspiration.synthetic_record noise ym) "mean_et" = Some (CFloat a)
      /\ Evapotranspiration.getitem
           (Evapotranspiration.synthetic_record noise ym) "median_et"
         = Some (CFloat b)
      /\ (0 <= a)%Q /\ (0 <= b)%Q.
Proof.
  destruct ym as [y m]. split; [reflexivity|].
  do 2 eexists. split; [reflexivity|]. split; [reflexivity|].
  split; apply max_0_nonneg.
Qed.

(** X16: The extraction of the evapotranspiration script never ends without
    data, and every record it keeps has a mean.  When no source gives a
    usable record, it makes up 144 records labelled 'Synthetic', with
    means and medians that are not negative, whatever the random draws.
    A source is lost whole when the request fails, and also when a single
    feature comes back without the 'mean_et' key. *)
Theorem et_extraction_never_empty
  (modis era5 fldas : result (list Evapotranspiration.dict))
  (noise : Z -> Z -> Q * Q) :
  Evapotranspiration.combined_et modis era5 fldas noise <> []
  /\ (forall props,
         In props (Evapotranspiration.combined_et modis era5 fldas noise) ->
         exists v, Evapotranspiration.getitem props "mean_et" = Some v
                   /\ v <> CNone)
  /\ (Evapotranspiration.extracted modis = [] ->
      Evapotranspiration.extracted era5 = [] ->
      Evapotranspiration.extracted fldas = [] ->
      Evapotranspiration.combined_et modis era5 fldas noise
      = Evapotranspiration.synthetic_data noise
      /\ List.length (Evapotranspiration.synthetic_data noise) = 144%nat
      /\ forall props,
           In props (Evapotranspiration.synthetic_data noise) ->
           Evapotranspiration.getitem props "source" = Some (CStr "Synthetic")
           /\ exists a b,
               Evapotranspiration.getitem props "mean_et" = Some (CFloat a)
               /\ Evapotranspiration.getitem props "median_et" = Some (CFloat b)
               /\ (0 <= a)%Q /\ (0 <= b)%Q)
  /\ (forall e, Evapotranspiration.extracted (Raise e) = [])
  /\ (forall features,
         (exists props, In props features
                        /\ Evapotranspiration.getitem props "mean_et" = None) ->
         Evapotranspiration.extracted (Ok features) = []).
Proof.
  assert (Syn : forall props,
             In props (Evapotranspiration.synthetic_data noise) ->
             Evapotranspiration.getitem props "source" = Some (CStr "Synthetic")
             /\ exists a b,
                 Evapotranspiration.getitem props "mean_et" = Some (CFloat a)
                 /\ Evapotranspiration.getitem props "median_et" = Some (CFloat b)
                 /\ (0 <= a)%Q /\ (0 <= b)%Q).
  { intros props Hin. unfold Evapotranspiration.synthetic_data in Hin.
    apply in_map_iff in Hin as (ym & <- & _). apply synthetic_record_fields. }
  assert (Len : List.length (Evapotranspiration.synthetic_data noise) = 144%nat).
  { unfold Evapotranspiration.synthetic_data. rewrite length_map. reflexivity. }
  split; [|split; [|split; [|split]]].
  - unfold Evapotranspiration.combined_et.
    destruct (Evapotranspiration.extracted modis ++ Evapotranspiration.extracted era5
              ++ Evapotranspiration.extracted fldas) as [|d rest] eqn:E.
    + intros H. rewrite H in Len. discriminate Len.
    + assert (Hd : In d (Evapotranspiration.extracted modis
                         ++ Evapotranspiration.extracted era5
                         ++ Evapotranspiration.extracted fldas))
        by (rewrite E; now left).
      assert (Hne : d <> []).
      { rewrite !in_app_iff in Hd.
        destruct Hd as [Hd|[Hd|Hd]];
          [destruct (extracted_cases modis) as [X|(p & q & X & _)]
          |destruct (extracted_cases era5) as [X|(p & q & X & _)]
          |destruct (extracted_cases fldas) as [X|(p & q & X & _)]];
          rewrite X in Hd; try destruct Hd as [<-|[]]; try destruct Hd;
          discriminate. }
      cbn. destruct d; [contradiction|]. discriminate.
  - intros props Hin. unfold Evapotranspiration.combined_et in Hin.
    destruct (Evapotranspiration.extracted modis ++ Evapotranspiration.extracted era5
              ++ Evapotranspiration.extracted fldas) as [|d rest] eqn:E.
    + destruct (Syn props Hin) as (_ & a & b & Ha & _).
      exists (CFloat a). split; [exact Ha|discriminate].
    + rewrite <- E in Hin. apply in_concat in Hin as (data & Hdata & Hp).
      rewrite !in_app_iff in Hdata.
      destruct Hdata as [Hd|[Hd|Hd]]; eapply extracted_have_mean; eassumption.
  - intros Hm He Hf. unfold Evapotranspiration.combined_et.
    rewrite Hm, He, Hf. cbn. split; [reflexivity|]. split; [exact Len|exact Syn].
  - intros e. reflexivity.
  - intros features H. unfold Evapotranspiration.extracted,
      Evapotranspiration.process_et.
    now rewrite (rows_with_mean_missing_key features H).
Qed.

(* ------------------------------------------------------------------ *)
(** ** The water-level records *)
(* ------------------------------------------------------------------ *)

Lemma processed_records_length (to_datetime : cell -> option date)
  (float_of_string : string -> option Q) (raw_data : list Hydroweb.dict) :
  (List.length (Hydroweb.processed_records to_datetime float_of_string raw_data)
   <= List.length raw_data)%nat.
Proof.
  unfold Hydroweb.processed_records.
  induction raw_data as [|r rest IH]; cbn; [lia|].
  rewrite length_app.
  destruct (Hydroweb.process_record to_datetime float_of_string r); cbn; lia.
Qed.

(** X17: In [process_hydroweb_data] the first alias a record has decides, for
    the date and for the level: a record whose 'date' is empty is dropped
    even when it has a valid 'time', and so is a record whose
    'water_level' is [None] even when it has a 'height'.  A level of 0 is
    kept, since the level is tested against [None] and not for truth.  No
    record is ever added: the output is at most as long as the input. *)
Theorem hydroweb_first_alias_decides (to_datetime : cell -> option date)
  (float_of_string : string -> option Q) (record : Hydroweb.dict)
  (raw_data : list Hydroweb.dict) :
  (forall v, Hydroweb.lookup record "date" = Some v -> Hydroweb.truth v = false ->
             Hydroweb.process_record to_datetime float_of_string record = None)
  /\ (Hydroweb.lookup record "water_level" = Some CNone ->
      Hydroweb.process_record to_datetime float_of_string record = None)
  /\ (forall d date_obj,
         Hydroweb.lookup record "date" = Some d -> Hydroweb.truth d = true ->
         to_datetime d = Some date_obj ->
         Hydroweb.lookup record "water_level" = Some (CInt 0) ->
         Hydroweb.process_record to_datetime float_of_string record
         = Some {| Hydroweb.date_ := date_obj;
                   Hydroweb.water_level := 0;
                   Hydroweb.year_ := year date_obj;
                   Hydroweb.month_ := month date_obj |})
  /\ (List.length (Hydroweb.processed_records to_datetime float_of_string raw_data)
      <= List.length raw_data)%nat.
Proof.
  split; [|split; [|split]].
  - intros v Hv Ht. unfold Hydroweb.process_record.
    cbn [Hydroweb.date_keys Hydroweb.first_present]. now rewrite Hv, Ht.
  - intros Hl. unfold Hydroweb.process_record.
    cbn [Hydroweb.level_keys Hydroweb.first_present]. rewrite Hl.
    cbn [Hydroweb.is_not_None]. now rewrite andb_false_r.
  - intros d date_obj Hd Ht Hp Hl. unfold Hydroweb.process_record.
    cbn [Hydroweb.date_keys Hydroweb.level_keys Hydroweb.first_present].
    rewrite Hd, Hl, Ht, Hp. reflexivity.
  - apply processed_records_length.
Qed.

Example hydroweb_empty_date_hides_time :
  Hydroweb.processed_records
    (fun c => match c with CStr _ => Some (mkdate 2020 1 1) | _ => None end)
    (fun _ => None)
    [ [("date", CStr EmptyString); ("time", CStr "2020-01-01");
       ("level", CFloat (17868 # 10))];
      [("time", CStr "2020-01-01"); ("level", CInt 0)] ]%string
  = [ {| Hydroweb.date_ := mkdate 2020 1 1;
         Hydroweb.water_level := 0;
         Hydroweb.year_ := 2020;
         Hydroweb.month_ := 1 |} ].
Proof. reflexivity. Qed.

(* ------------------------------------------------------------------ *)
(** ** The months of the radar table *)
(* ------------------------------------------------------------------ *)

Lemma radar_loop_keys (svc : Radar.service) (js : list (Z * Z)) :
  forall st st',
    Radar.main_loop svc js st = Ok st' ->
    map RadarTable.row_key (Radar.results st')
    = map RadarTable.row_key (Radar.results st)
      ++ filter (RadarTable.has_images svc) js.
Proof.
  unfold Radar.main_loop.
  induction js as [|[y m] js IH]; intros st st' H; cbn [for_each] in H.
  - injection H as <-. cbn. now rewrite app_nil_r.
  - destruct (Radar.loop_body svc st (y, m)) as [st1|e] eqn:B; [|discriminate].
    rewrite (IH st1 st' H). clear IH H.
    unfold Radar.loop_body in B. cbn [filter].
    unfold RadarTable.has_images at 2. cbn [fst snd].
    destruct (month_bounds y m) as [w|e]; cbn [bind] in B; [|discriminate].
    destruct (Radar.size_getInfo (svc w)) as [n|e]; cbn [bind] in B; [|discriminate].
    destruct (n =? 0); cbn [negb].
    + injection B as <-. reflexivity.
    + destruct (Radar.date_getInfo (svc w)) as [d|e]; cbn [bind] in B;
        [|discriminate].
      destruct (Radar.area_print_getInfo (svc w)) as [a|e]; cbn [bind] in B;
        [|discriminate].
      injection B as <-. cbn [Radar.results]. rewrite map_app. cbn.
      now rewrite <- app_assoc.
Qed.

Lemma radar_jobs_NoDup : NoDup Radar.jobs.
Proof.
  apply nested_NoDup; [apply range_NoDup|].
  repeat constructor; cbn; intuition lia.
Qed.

(** X18: When the radar script runs to its end, its table has one record for
    each month whose collection is not empty, in loop order and for no
    other month, so at most one per month.  A request that fails when the
    table is exported leaves an empty area cell in its record. *)
Theorem radar_table_months (svc : Radar.service) (js : list (Z * Z))
  (table : list Radar.table_row) :
  Radar.run svc js = Ok table ->
  map Radar.key table = filter (RadarTable.has_images svc) js
  /\ (NoDup js -> NoDup (map Radar.key table))
  /\ (forall r, In r table ->
        exists w, month_bounds (Radar.tYear r) (Radar.tMonth r) = Ok w
                  /\ Radar.tArea_of_Water_Hyacinth r
                     = match Radar.area_export_getInfo (svc w) with
                       | Ok v => CFloat v
                       | Raise _ => CNone
                       end).
Proof.
  intros Hrun. unfold Radar.run, Radar.final_results in Hrun.
  destruct (Radar.main_loop svc js Radar.initial) as [st|e] eqn:E;
    cbn in Hrun; [|discriminate].
  injection Hrun as <-.
  assert (K : map Radar.key (Radar.dataframe svc (Radar.results st))
              = filter (RadarTable.has_images svc) js).
  { unfold Radar.dataframe. rewrite map_map.
    pose proof (radar_loop_keys svc js Radar.initial st E) as R.
    cbn in R. exact R. }
  split; [exact K|]. split.
  - intros Hnd. rewrite K. now apply NoDup_filter.
  - intros r Hin. unfold Radar.dataframe in Hin.
    apply in_map_iff in Hin as (r0 & <- & Hin0). cbn.
    revert r0 Hin0. unfold Radar.main_loop in E.
    apply (for_each_invariant
             (fun s => forall r0, In r0 (Radar.results s) ->
                exists w, month_bounds (Radar.Year r0) (Radar.Month r0) = Ok w
                          /\ Radar.get_value svc (Radar.Area_of_Water_Hyacinth r0)
                             = match Radar.area_export_getInfo (svc w) with
                               | Ok v => CFloat v
                               | Raise _ => CNone
                               end)
             (Radar.loop_body svc) js) with (st := Radar.initial);
      [| intros r0 [] | exact E].
    intros s [y m] s' _ HP Hbody r0 Hin0. unfold Radar.loop_body in Hbody.
    destruct (month_bounds y m) as [w|e'] eqn:Hw; cbn [bind] in Hbody;
      [|discriminate].
    destruct (Radar.size_getInfo (svc w)) as [n|e']; cbn [bind] in Hbody;
      [|discriminate].
    destruct (n =? 0).
    + injection Hbody as <-. now apply HP.
    + destruct (Radar.date_getInfo (svc w)) as [d|e']; cbn [bind] in Hbody;
        [|discriminate].
      destruct (Radar.area_print_getInfo (svc w)) as [a|e']; cbn [bind] in Hbody;
        [|discriminate].
      injection Hbody as <-. cbn [Radar.results] in Hin0.
      apply in_app_or in Hin0 as [Hin0|[<-|[]]]; [now apply HP|].
      cbn. exists w. split; [exact Hw|reflexivity].
Qed.

Lemma radar_table_months_witness :
  map Radar.key
    [ {| Radar.tYear := 2016; Radar.tMonth := 10;
         Radar.tDate_of_Satellite_Selected := "2014-10-03";
         Radar.tCloud_Cover_Percentage := CInt 0;
         Radar.tArea_of_Water_Hyacinth := CFloat (125 # 10) |};
      {| Radar.tYear := 2017; Radar.tMonth := 10;
         Radar.tDate_of_Satellite_Selected := "2014-10-03";
         Radar.tCloud_Cover_Percentage := CInt 0;
         Radar.tArea_of_Water_Hyacinth := CFloat (125 # 10) |} ]
  = filter (RadarTable.has_images Samples.radar_service)
      [(2016, 10); (2016, 11); (2017, 10)].
Proof.
  apply (proj1 (radar_table_months Samples.radar_service
                  [(2016, 10); (2016, 11); (2017, 10)] _ eq_refl)).
Defined.

(** X19: In the fusion script a failing area request is caught: the month
    gives no record, a message is printed and the loop goes on with the
    next month. *)
Theorem fusion_area_failure_skips_month (svc : HybridFusion.service)
  (st : HybridFusion.state) (y m : Z) (w : window) (c : option Q) (n : Z)
  (e : exn) (post : list (Z * Z)) :
  month_bounds y m = Ok w ->
  HybridFusion.cloud_cover_getInfo (svc w) = Ok c ->
  HybridFusion.s1_size_getInfo (svc w) = Ok n ->
  n <> 0 ->
  (forall mask, HybridFusion.area_getInfo (svc w) mask = Raise e) ->
  HybridFusion.loop_body svc st (y, m)
  = Ok {| HybridFusion.results := HybridFusion.results st;
          HybridFusion.stdout :=
            (HybridFusion.stdout st ++ [HybridFusion.Processing y m])
            ++ [HybridFusion.UnableToComputeArea y m] |}
  /\ HybridFusion.main_loop svc ((y, m) :: post) st
     = HybridFusion.main_loop svc post
         {| HybridFusion.results := HybridFusion.results st;
            HybridFusion.stdout :=
              (HybridFusion.stdout st ++ [HybridFusion.Processing y m])
              ++ [HybridFusion.UnableToComputeArea y m] |}.
Proof.
  intros Hw Hc Hn Hnz Ha. apply Z.eqb_neq in Hnz.
  assert (B : HybridFusion.loop_body svc st (y, m)
              = Ok {| HybridFusion.results := HybridFusion.results st;
                      HybridFusion.stdout :=
                        (HybridFusion.stdout st ++ [HybridFusion.Processing y m])
                        ++ [HybridFusion.UnableToComputeArea y m] |}).
  { unfold HybridFusion.loop_body. rewrite Hw. cbn [bind].
    unfold HybridFusion.get_sentinel2_mask, HybridFusion.get_sentinel1_mask.
    destruct (HybridFusion.bandNames_size_getInfo (svc w)) as [k|e'];
      rewrite ?Hc, Hn; cbn [bind]; rewrite Hnz; cbn [bind].
    - unfold HybridFusion.fusion, HybridFusion.fusion_fallback.
      destruct c as [c|]; [destruct (HybridFusion.Qltb c 30)|];
        now rewrite Ha.
    - cbn [HybridFusion.fusion HybridFusion.fusion_fallback]. now rewrite Ha. }
  split; [exact B|].
  unfold HybridFusion.main_loop. cbn [for_each]. now rewrite B.
Qed.

Lemma fusion_area_failure_skips_month_witness :
  HybridFusion.loop_body
    (fun _ => {| HybridFusion.bandNames_size_getInfo := Ok 15;
                 HybridFusion.cloud_cover_getInfo := Ok (Some 12%Q);
                 HybridFusion.s2_date_getInfo := Ok "2019-11-07"%string;
                 HybridFusion.s1_size_getInfo := Ok 4;
                 HybridFusion.area_getInfo :=
                   fun _ => Raise (EEException "Computation timed out.") |})
    HybridFusion.initial (2019, 11)
  = Ok {| HybridFusion.results := HybridFusion.results HybridFusion.initial;
          HybridFusion.stdout :=
            (HybridFusion.stdout HybridFusion.initial
             ++ [HybridFusion.Processing 2019 11])
            ++ [HybridFusion.UnableToComputeArea 2019 11] |}.
Proof.
  refine (proj1 (fusion_area_failure_skips_month
                   (fun _ => {| HybridFusion.bandNames_size_getInfo := Ok 15;
                                HybridFusion.cloud_cover_getInfo := Ok (Some 12%Q);
                                HybridFusion.s2_date_getInfo :=
                                  Ok "2019-11-07"%string;
                                HybridFusion.s1_size_getInfo := Ok 4;
                                HybridFusion.area_getInfo :=
                                  fun _ => Raise (EEException
                                                    "Computation timed out.") |})
                   HybridFusion.initial 2019 11
                   (mkdate 2019 11 1, mkdate 2019 11 30) (Some 12%Q) 4
                   (EEException "Computation timed out.") []
                   eq_refl eq_refl eq_refl _ (fun _ => eq_refl))).
  lia.
Defined.
